(** * The fake remote-execution server of go/pkg/fakes/server.go

    A shallow embedding of [Server], [TestEnv.Set] and the result-shaping
    options of the fake RBE server, with the objects the Go code shares by
    pointer (the CAS, the action cache, the execution fake, the caller's
    command) kept in an explicit store. *)

From Stdlib Require Import ZArith Strings.String Lists.List Strings.Byte.
From stdpp Require Import gmap strings list fin_maps.

Local Open Scope Z_scope.

(** ** Digests and wire messages *)

(** Modelled from the spec: the Digest of the [digest] package, the pair of
    a hash and a size; two digests are equal iff both fields are equal, and
    digests serve as map keys. *)
Record Digest := { Hash : string; Size : Z }.

#[global] Instance Digest_eq_dec : EqDecision Digest.
Proof. solve_decision. Defined.

#[global] Instance Digest_countable : Countable Digest.
Proof.
  apply (inj_countable' (fun d => (Hash d, Size d))
                        (fun p => {| Hash := p.1; Size := p.2 |})).
  intros []; reflexivity.
Defined.

(** [repb.Digest], the wire form of a digest, and [Digest.ToProto]. *)
Record DigestPb := { pb_Hash : string; pb_SizeBytes : Z }.

Definition ToProto (d : Digest) : DigestPb :=
  {| pb_Hash := Hash d; pb_SizeBytes := Size d |}.

(** The Go conversion [int32(x)] of an integer: wrap-around into the signed
    32-bit range. *)
Definition int32 (z : Z) : Z := (z + 2 ^ 31) mod 2 ^ 32 - 2 ^ 31.

(** [durpb.Duration] and [ptypes.DurationProto]: a [time.Duration] is a
    count of nanoseconds, split into whole seconds (Go's truncating
    division) and the remaining nanoseconds. *)
Record DurationPb := { Seconds : Z; Nanos : Z }.

Definition DurationProto (d : Z) : DurationPb :=
  let secs := Z.quot d 1000000000 in
  {| Seconds := secs; Nanos := int32 (d - secs * 1000000000) |}.

(** [repb.Action]: message fields are pointers, nil when unset. *)
Record Action := {
  CommandDigest : option DigestPb;
  InputRootDigest : option DigestPb;
  Timeout : option DurationPb;
  DoNotCache : bool
}.

(** [repb.OutputFile] and [repb.ActionResult], with the fields the fake
    fills in. *)
Record OutputFilePb := { of_Path : string; of_Digest : option DigestPb }.

Record ActionResult := {
  ExitCode : Z;
  OutputFiles : list OutputFilePb;
  StdoutDigest : option DigestPb;
  StdoutRaw : list byte;
  StderrDigest : option DigestPb;
  StderrRaw : list byte
}.

(** The Go conversion [[]byte(s)] of a string. *)
Definition bytes_of (s : string) : list byte := list_byte_of_string s.

(** ** gRPC status *)

Inductive Code :=
| OK | Canceled | Unknown | InvalidArgument | DeadlineExceeded | NotFound
| AlreadyExists | PermissionDenied | ResourceExhausted | FailedPrecondition
| Aborted | OutOfRange | Unimplemented | Internal | Unavailable | DataLoss
| Unauthenticated.

Record Status := { st_code : Code; st_message : string }.

(** [status.New]. *)
Definition status_New (c : Code) (msg : string) : Status :=
  {| st_code := c; st_message := msg |}.

(** ** The command package, as far as [Set] reads it *)

(** Modelled from the spec: the closed set of result statuses; the three
    that [Set] switches on and the two its comment names are constants of
    the [command] package. *)
Inductive ResultStatus :=
| SuccessResultStatus
| CacheHitResultStatus
| TimeoutResultStatus
| RemoteErrorResultStatus
| LocalErrorResultStatus
| InterruptedResultStatus.

(** Modelled from the spec: the execution options of the [command]
    package, of which [Set] reads the do-not-cache flag only. *)
Record ExecutionOptions := { eo_DoNotCache : bool }.

(** The interface [proto.Message], as far as [digest.TestNewFromMessage]
    uses it: every message has a digest. *)
Class Message (A : Type) := TestNewFromMessage : A -> Digest.

(** What the fake takes from the rest of the repository and from its
    libraries: the [command.Command] struct with its two methods, the digest
    functions, the input-tree builder of the client package, and gRPC's
    [status.FromError]. *)
Class Externals := {
  error : Type;
  Command : Type;
  InputSpec : Type;
  CommandPb : Type;
  FileTree : Type;
  Blobs : Type;
  cmd_ExecRoot : Command -> string;
  cmd_InputSpec : Command -> InputSpec;
  cmd_Timeout : Command -> Z;
  FillDefaultFieldValues : Command -> Command;
  ToREProto : Command -> CommandPb;
  NewFromBlob : list byte -> Digest;
  CommandPb_Message :: Message CommandPb;
  Action_Message :: Message Action;
  BuildTreeFromInputs : string -> InputSpec -> FileTree + error;
  PackageTree : FileTree -> (Digest * Blobs) + error;
  FromError : option error -> option Status * bool
}.

Section Fakes.
Context {X : Externals}.

(** Modelled from the spec: [digest.Empty], the digest of the empty byte
    sequence. *)
Definition Empty : Digest := NewFromBlob [].

(** Modelled from the spec: the Result of the [command] package, of which
    [Set] reads the exit code, the status and the error detail. *)
Record Result := {
  res_ExitCode : Z;
  res_Status : ResultStatus;
  res_Err : option error
}.

(** ** The store *)

Definition loc := positive.

(** Modelled from the spec: the fake CAS, a store from digest to blob,
    which [Put] extends under the blob's own digest and [Clear] empties. *)
Record CAS := { blobs : gmap Digest (list byte) }.

(** Modelled from the spec: the fake action cache, a store from Action
    digest to ActionResult, which [Put] extends and [Clear] empties. *)
Record ActionCache := { results : gmap Digest ActionResult }.

(** The execution fake: the action cache and the CAS it was constructed
    over, and the four fields that [Set] and the options assign. *)
Record Exec := {
  ex_ac : loc;
  ex_cas : loc;
  ex_ActionResult : option ActionResult;
  ex_Status : option Status;
  ex_Cached : bool;
  ex_OutputBlobs : list (list byte)
}.

(** A [net.Listener] and a [grpc.Server], as far as [NewServer] and [Stop]
    drive them. *)
Record Listener := { lis_network : string; lis_address : string; lis_closed : bool }.

Inductive Service :=
| ByteStreamServer (impl : loc)
| ContentAddressableStorageServer (impl : loc)
| ActionCacheServer (impl : loc)
| ExecutionServer (impl : loc).

Record GrpcServer := {
  g_services : list Service;
  g_serving : option loc;
  g_stopped : bool
}.

Record World := {
  cass : gmap loc CAS;
  acs : gmap loc ActionCache;
  execs : gmap loc Exec;
  listeners : gmap loc Listener;
  grpcs : gmap loc GrpcServer;
  cmds : gmap loc Command
}.

Definition with_cass (m : gmap loc CAS) (w : World) : World :=
  {| cass := m; acs := acs w; execs := execs w; listeners := listeners w;
     grpcs := grpcs w; cmds := cmds w |}.
Definition with_acs (m : gmap loc ActionCache) (w : World) : World :=
  {| cass := cass w; acs := m; execs := execs w; listeners := listeners w;
     grpcs := grpcs w; cmds := cmds w |}.
Definition with_execs (m : gmap loc Exec) (w : World) : World :=
  {| cass := cass w; acs := acs w; execs := m; listeners := listeners w;
     grpcs := grpcs w; cmds := cmds w |}.
Definition with_listeners (m : gmap loc Listener) (w : World) : World :=
  {| cass := cass w; acs := acs w; execs := execs w; listeners := m;
     grpcs := grpcs w; cmds := cmds w |}.
Definition with_grpcs (m : gmap loc GrpcServer) (w : World) : World :=
  {| cass := cass w; acs := acs w; execs := execs w; listeners := listeners w;
     grpcs := m; cmds := cmds w |}.
Definition with_cmds (m : gmap loc Command) (w : World) : World :=
  {| cass := cass w; acs := acs w; execs := execs w; listeners := listeners w;
     grpcs := grpcs w; cmds := m |}.

(** ** Computations *)

(** How a call ends: it returns; or [t.Fatalf] marked the test [t] failed
    and stopped the calling goroutine (Fatalf is Logf followed by FailNow,
    which ends the goroutine with [runtime.Goexit]); or a nil pointer was
    dereferenced. The store is kept in every case. *)
Inductive Outcome (A : Type) :=
| Returned (a : A)
| FailNow (t : loc) (format : string) (arg : error)
| Panicked.
Arguments Returned {A} a.
Arguments FailNow {A} t format arg.
Arguments Panicked {A}.

Definition M (A : Type) : Type := World -> Outcome A * World.

Definition ret {A} (a : A) : M A := fun w => (Returned a, w).

Definition bind {A B} (m : M A) (k : A -> M B) : M B :=
  fun w =>
    match m w with
    | (Returned a, w') => k a w'
    | (FailNow t f e, w') => (FailNow t f e, w')
    | (Panicked, w') => (Panicked, w')
    end.

Notation "x <- m ;; k" := (bind m (fun x => k))
  (at level 100, m at next level, right associativity).
Notation "m ;;; k" := (bind m (fun _ => k))
  (at level 100, right associativity).

(** [t.Fatalf(format, arg)]. *)
Definition Fatalf (t : loc) (format : string) (arg : error) : M unit :=
  fun w => (FailNow t format arg, w).

Definition deref {V} (sel : World -> gmap loc V) (l : loc) : M V :=
  fun w => match sel w !! l with
           | Some v => (Returned v, w)
           | None => (Panicked, w)
           end.

Definition store {V} (sel : World -> gmap loc V)
    (upd : gmap loc V -> World -> World) (l : loc) (v : V) : M unit :=
  fun w => (Returned tt, upd (<[l := v]> (sel w)) w).

Definition alloc {V} (sel : World -> gmap loc V)
    (upd : gmap loc V -> World -> World) (v : V) : M loc :=
  fun w => let l := fresh (dom (sel w)) in
           (Returned l, upd (<[l := v]> (sel w)) w).

(** ** The three components *)

(** Modelled from the spec: [NewCAS], [CAS.Put] and [CAS.Clear]. *)
Definition NewCAS : M loc := alloc cass with_cass {| blobs := ∅ |}.

Definition CAS_Put (c : loc) (blob : list byte) : M Digest :=
  st <- deref cass c ;;
  let d := NewFromBlob blob in
  store cass with_cass c {| blobs := <[d := blob]> (blobs st) |} ;;;
  ret d.

Definition CAS_Clear (c : loc) : M unit :=
  _ <- deref cass c ;;
  store cass with_cass c {| blobs := ∅ |}.

(** Modelled from the spec: [NewActionCache], [ActionCache.Put] and
    [ActionCache.Clear]. *)
Definition NewActionCache : M loc := alloc acs with_acs {| results := ∅ |}.

Definition ActionCache_Put (c : loc) (d : Digest) (res : ActionResult) : M unit :=
  st <- deref acs c ;;
  store acs with_acs c {| results := <[d := res]> (results st) |}.

Definition ActionCache_Clear (c : loc) : M unit :=
  _ <- deref acs c ;;
  store acs with_acs c {| results := ∅ |}.

(** Modelled from the spec: [NewExec] and [Exec.Clear]; a cleared execution
    fake has no result, no status, is not cached and holds no output blobs,
    and keeps the stores it was constructed over. *)
Definition NewExec (ac cas : loc) : M loc :=
  alloc execs with_execs
    {| ex_ac := ac; ex_cas := cas; ex_ActionResult := None; ex_Status := None;
       ex_Cached := false; ex_OutputBlobs := [] |}.

Definition Exec_Clear (x : loc) : M unit :=
  st <- deref execs x ;;
  store execs with_execs x
    {| ex_ac := ex_ac st; ex_cas := ex_cas st; ex_ActionResult := None;
       ex_Status := None; ex_Cached := false; ex_OutputBlobs := [] |}.

(** ** Server *)

(** The Server struct: pointers to its three components, its listener and
    its gRPC server. No field is assigned once [NewServer] has returned, so
    a server is passed around as this record of addresses. *)
Record Server := {
  srv_Exec : loc;
  srv_CAS : loc;
  srv_ActionCache : loc;
  srv_listener : loc;
  srv_srv : loc
}.

(** [net.Listen("tcp", ":0")]: the operating system either hands out an
    address or refuses; [outcome] is what it did. *)
Definition net_Listen (network : string) (outcome : string + error) : M (loc + error) :=
  match outcome with
  | inl addr =>
      l <- alloc listeners with_listeners
             {| lis_network := network; lis_address := addr; lis_closed := false |} ;;
      ret (inl l)
  | inr err => ret (inr err)
  end.

(** [grpc.NewServer], the [Register...Server] calls, and [Serve], which
    [NewServer] starts in a goroutine of its own: the server is recorded as
    serving on the listener. *)
Definition grpc_NewServer : M loc :=
  alloc grpcs with_grpcs {| g_services := []; g_serving := None; g_stopped := false |}.

Definition Register (g : loc) (svc : Service) : M unit :=
  st <- deref grpcs g ;;
  store grpcs with_grpcs g
    {| g_services := g_services st ++ [svc]; g_serving := g_serving st;
       g_stopped := g_stopped st |}.

Definition Serve (g lis : loc) : M unit :=
  st <- deref grpcs g ;;
  store grpcs with_grpcs g
    {| g_services := g_services st; g_serving := Some lis;
       g_stopped := g_stopped st |}.

(** [NewServer]: the components and the server are constructed first; when
    listening fails, nil and the error are returned. *)
Definition NewServer (listen : string + error) : M (Server + error) :=
  cas <- NewCAS ;;
  ac <- NewActionCache ;;
  ex <- NewExec ac cas ;;
  l <- net_Listen "tcp" listen ;;
  match l with
  | inr err => ret (inr err)
  | inl lis =>
      g <- grpc_NewServer ;;
      Register g (ByteStreamServer cas) ;;;
      Register g (ContentAddressableStorageServer cas) ;;;
      Register g (ActionCacheServer ac) ;;;
      Register g (ExecutionServer ex) ;;;
      Serve g lis ;;;
      ret (inl {| srv_Exec := ex; srv_CAS := cas; srv_ActionCache := ac;
                  srv_listener := lis; srv_srv := g |})
  end.

(** [Server.Clear]. *)
Definition Server_Clear (s : Server) : M unit :=
  CAS_Clear (srv_CAS s) ;;;
  ActionCache_Clear (srv_ActionCache s) ;;;
  Exec_Clear (srv_Exec s).

(** [Server.Stop]. *)
Definition Server_Stop (s : Server) : M unit :=
  l <- deref listeners (srv_listener s) ;;
  store listeners with_listeners (srv_listener s)
    {| lis_network := lis_network l; lis_address := lis_address l;
       lis_closed := true |} ;;;
  g <- deref grpcs (srv_srv s) ;;
  store grpcs with_grpcs (srv_srv s)
    {| g_services := g_services g; g_serving := None; g_stopped := true |}.

(** ** The result-shaping options *)

(** [OutputFile]: a file to be added as an output of the fake action. *)
Record OutputFile := { Path : string; Contents : string }.

(** The interface [option] is implemented by six types. *)
Inductive fakeOption :=
| AnOutputFile (f : OutputFile)
| StdOut (o : string)
| StdOutRaw (o : string)
| StdErr (o : string)
| StdErrRaw (o : string)
| ExecutionCacheHit (c : bool).

Definition with_OutputBlobs (b : list (list byte)) (x : Exec) : Exec :=
  {| ex_ac := ex_ac x; ex_cas := ex_cas x; ex_ActionResult := ex_ActionResult x;
     ex_Status := ex_Status x; ex_Cached := ex_Cached x; ex_OutputBlobs := b |}.
Definition with_Cached (c : bool) (x : Exec) : Exec :=
  {| ex_ac := ex_ac x; ex_cas := ex_cas x; ex_ActionResult := ex_ActionResult x;
     ex_Status := ex_Status x; ex_Cached := c; ex_OutputBlobs := ex_OutputBlobs x |}.
Definition with_ActionResult (r : option ActionResult) (x : Exec) : Exec :=
  {| ex_ac := ex_ac x; ex_cas := ex_cas x; ex_ActionResult := r;
     ex_Status := ex_Status x; ex_Cached := ex_Cached x;
     ex_OutputBlobs := ex_OutputBlobs x |}.
Definition with_Status (st : option Status) (x : Exec) : Exec :=
  {| ex_ac := ex_ac x; ex_cas := ex_cas x; ex_ActionResult := ex_ActionResult x;
     ex_Status := st; ex_Cached := ex_Cached x; ex_OutputBlobs := ex_OutputBlobs x |}.

Definition with_OutputFiles (l : list OutputFilePb) (ar : ActionResult) : ActionResult :=
  {| ExitCode := ExitCode ar; OutputFiles := l; StdoutDigest := StdoutDigest ar;
     StdoutRaw := StdoutRaw ar; StderrDigest := StderrDigest ar;
     StderrRaw := StderrRaw ar |}.
Definition with_StdoutDigest (d : option DigestPb) (ar : ActionResult) : ActionResult :=
  {| ExitCode := ExitCode ar; OutputFiles := OutputFiles ar; StdoutDigest := d;
     StdoutRaw := StdoutRaw ar; StderrDigest := StderrDigest ar;
     StderrRaw := StderrRaw ar |}.
Definition with_StdoutRaw (b : list byte) (ar : ActionResult) : ActionResult :=
  {| ExitCode := ExitCode ar; OutputFiles := OutputFiles ar;
     StdoutDigest := StdoutDigest ar; StdoutRaw := b;
     StderrDigest := StderrDigest ar; StderrRaw := StderrRaw ar |}.
Definition with_StderrDigest (d : option DigestPb) (ar : ActionResult) : ActionResult :=
  {| ExitCode := ExitCode ar; OutputFiles := OutputFiles ar;
     StdoutDigest := StdoutDigest ar; StdoutRaw := StdoutRaw ar;
     StderrDigest := d; StderrRaw := StderrRaw ar |}.
Definition with_StderrRaw (b : list byte) (ar : ActionResult) : ActionResult :=
  {| ExitCode := ExitCode ar; OutputFiles := OutputFiles ar;
     StdoutDigest := StdoutDigest ar; StdoutRaw := StdoutRaw ar;
     StderrDigest := StderrDigest ar; StderrRaw := b |}.

(** [s.Exec.OutputBlobs = append(s.Exec.OutputBlobs, bytes)]. *)
Definition appendOutputBlob (s : Server) (bytes : list byte) : M unit :=
  x <- deref execs (srv_Exec s) ;;
  store execs with_execs (srv_Exec s)
    (with_OutputBlobs (ex_OutputBlobs x ++ [bytes]) x).

(** The [Apply] method of each option; the ActionResult it is given by
    pointer is threaded through. *)
Definition OutputFile_Apply (f : OutputFile) (ac : ActionResult) (s : Server)
    : M ActionResult :=
  let bytes := bytes_of (Contents f) in
  appendOutputBlob s bytes ;;;
  dg <- CAS_Put (srv_CAS s) bytes ;;
  ret (with_OutputFiles
         (OutputFiles ac ++ [{| of_Path := Path f; of_Digest := Some (ToProto dg) |}])
         ac).

Definition StdOut_Apply (o : string) (ac : ActionResult) (s : Server)
    : M ActionResult :=
  let bytes := bytes_of o in
  appendOutputBlob s bytes ;;;
  dg <- CAS_Put (srv_CAS s) bytes ;;
  ret (with_StdoutDigest (Some (ToProto dg)) ac).

Definition StdOutRaw_Apply (o : string) (ac : ActionResult) (s : Server)
    : M ActionResult :=
  ret (with_StdoutRaw (bytes_of o) ac).

Definition StdErr_Apply (o : string) (ac : ActionResult) (s : Server)
    : M ActionResult :=
  let bytes := bytes_of o in
  appendOutputBlob s bytes ;;;
  dg <- CAS_Put (srv_CAS s) bytes ;;
  ret (with_StderrDigest (Some (ToProto dg)) ac).

Definition StdErrRaw_Apply (o : string) (ac : ActionResult) (s : Server)
    : M ActionResult :=
  ret (with_StderrRaw (bytes_of o) ac).

Definition ExecutionCacheHit_Apply (c : bool) (ac : ActionResult) (s : Server)
    : M ActionResult :=
  x <- deref execs (srv_Exec s) ;;
  store execs with_execs (srv_Exec s) (with_Cached c x) ;;;
  ret ac.

Definition Apply (o : fakeOption) (ac : ActionResult) (s : Server) : M ActionResult :=
  match o with
  | AnOutputFile f => OutputFile_Apply f ac s
  | StdOut b => StdOut_Apply b ac s
  | StdOutRaw b => StdOutRaw_Apply b ac s
  | StdErr b => StdErr_Apply b ac s
  | StdErrRaw b => StdErrRaw_Apply b ac s
  | ExecutionCacheHit c => ExecutionCacheHit_Apply c ac s
  end.

(** ** TestEnv *)

Record TestEnv := {
  te_Client : loc;
  te_Server : Server;
  te_ExecRoot : string;
  te_t : loc
}.

(** The loop [for _, o := range opts { o.Apply(ar, e.Server) }]. *)
Fixpoint applyAll (opts : list fakeOption) (ar : ActionResult) (s : Server)
    : M ActionResult :=
  match opts with
  | [] => ret ar
  | o :: rest => ar' <- Apply o ar s ;; applyAll rest ar' s
  end.

(** The Action that [Set] builds for a (defaulted) command. *)
Definition buildAction (c : Command) (root : Digest) (opt : ExecutionOptions)
    : Action :=
  let ac := {| CommandDigest := Some (ToProto (TestNewFromMessage (ToREProto c)));
               InputRootDigest := Some (ToProto root);
               Timeout := None;
               DoNotCache := eo_DoNotCache opt |} in
  if 0 <? cmd_Timeout c
  then {| CommandDigest := CommandDigest ac; InputRootDigest := InputRootDigest ac;
          Timeout := Some (DurationProto (cmd_Timeout c));
          DoNotCache := DoNotCache ac |}
  else ac.

(** The ActionResult that [Set] starts from: the exit code, nothing else. *)
Definition newActionResult (res : Result) : ActionResult :=
  {| ExitCode := int32 (res_ExitCode res); OutputFiles := [];
     StdoutDigest := None; StdoutRaw := [];
     StderrDigest := None; StderrRaw := [] |}.

(** The [switch res.Status] that ends [Set]. *)
Definition configureStatus (s : Server) (res : Result) (acDg : Digest)
    (ar : ActionResult) : M unit :=
  match res_Status res with
  | TimeoutResultStatus =>
      x <- deref execs (srv_Exec s) ;;
      store execs with_execs (srv_Exec s)
        (with_Status (Some (status_New DeadlineExceeded "timeout")) x)
  | RemoteErrorResultStatus =>
      let '(st, ok) := FromError (res_Err res) in
      let st := if negb ok then Some (status_New Internal "remote error") else st in
      x <- deref execs (srv_Exec s) ;;
      store execs with_execs (srv_Exec s) (with_Status st x)
  | CacheHitResultStatus =>
      x <- deref execs (srv_Exec s) ;;
      if negb (ex_Cached x)
      then ActionCache_Put (srv_ActionCache s) acDg ar
      else ret tt
  | _ => ret tt
  end.

(** [TestEnv.Set]. [cmd] points to the caller's command; the execution
    options and the result are only read, and are passed as values, as are
    the option values and the test of the env: a call with a nil [opt], a nil
    [res], a nil [*OutputFile] or an env without a test, which dereferences
    a nil pointer in the Go code, has no counterpart here.
    [e.t.Helper()] changes nothing that is modelled. The ActionResult is the
    one object [ar] of the Go code: the options update it in turn, and what
    is stored in the Exec and in the ActionCache is its final value. *)
Definition TestEnv_Set (e : TestEnv) (cmd : loc) (opt : ExecutionOptions)
    (res : Result) (opts : list fakeOption) : M (Digest * Digest) :=
  c0 <- deref cmds cmd ;;
  store cmds with_cmds cmd (FillDefaultFieldValues c0) ;;;
  c <- deref cmds cmd ;;
  match BuildTreeFromInputs (cmd_ExecRoot c) (cmd_InputSpec c) with
  | inr err =>
      Fatalf (te_t e) "error building input tree in fake setup: %v" err ;;;
      ret (Empty, Empty)
  | inl ft =>
      match PackageTree ft with
      | inr err =>
          Fatalf (te_t e) "error building input tree in fake setup: %v" err ;;;
          ret (Empty, Empty)
      | inl (root, _) =>
          let cmdPb := ToREProto c in
          let cmdDg := TestNewFromMessage cmdPb in
          let ac := buildAction c root opt in
          let ar := newActionResult res in
          let acDg := TestNewFromMessage ac in
          ar <- applyAll opts ar (te_Server e) ;;
          x <- deref execs (srv_Exec (te_Server e)) ;;
          store execs with_execs (srv_Exec (te_Server e))
            (with_ActionResult (Some ar) x) ;;;
          configureStatus (te_Server e) res acDg ar ;;;
          ret (cmdDg, acDg)
      end
  end.

(** ** Notions used to state the properties *)

(** What a digest-producing option does to the store: the bytes are
    appended to [Exec.OutputBlobs] and put in the CAS under their digest. *)
Definition stored (s : Server) (x : Exec) (c : CAS) (bytes : list byte)
    (w : World) : World :=
  with_cass
    (<[srv_CAS s := {| blobs := <[NewFromBlob bytes := bytes]> (blobs c) |}]> (cass w))
    (with_execs
       (<[srv_Exec s := with_OutputBlobs (ex_OutputBlobs x ++ [bytes]) x]> (execs w))
       w).

(** The same, read field by field: [w'] is [w] with the bytes stored by
    server [s]. Its CAS holds the bytes under their digest and, under every
    other digest, what the CAS [c] held; its Exec holds the bytes after the
    output blobs of the Exec [x] and is otherwise as [x]; every other object
    of the store is as it was. *)
Definition output_stored (s : Server) (x : Exec) (c : CAS) (bytes : list byte)
    (w w' : World) : Prop :=
  (exists c',
     cass w' !! srv_CAS s = Some c' /\
     blobs c' !! NewFromBlob bytes = Some bytes /\
     (forall d, d <> NewFromBlob bytes -> blobs c' !! d = blobs c !! d)) /\
  (exists x',
     execs w' !! srv_Exec s = Some x' /\
     ex_OutputBlobs x' = ex_OutputBlobs x ++ [bytes] /\
     ex_ActionResult x' = ex_ActionResult x /\ ex_Status x' = ex_Status x /\
     ex_Cached x' = ex_Cached x /\ ex_ac x' = ex_ac x /\ ex_cas x' = ex_cas x) /\
  (forall l, l <> srv_CAS s -> cass w' !! l = cass w !! l) /\
  (forall l, l <> srv_Exec s -> execs w' !! l = execs w !! l) /\
  acs w' = acs w /\ cmds w' = cmds w /\
  listeners w' = listeners w /\ grpcs w' = grpcs w.

(** The options applied one after the other, in the words of the loop of
    [Set]: each option, in the order of the list, by its own [Apply], to the
    ActionResult and the store that the option before it left. *)
Inductive applied_in_order (s : Server)
    : list fakeOption -> ActionResult -> World -> ActionResult -> World -> Prop :=
| applied_none (ar : ActionResult) (w : World) :
    applied_in_order s [] ar w ar w
| applied_next (o : fakeOption) (rest : list fakeOption)
    (ar ar1 ar' : ActionResult) (w w1 w' : World) :
    Apply o ar s w = (Returned ar1, w1) ->
    applied_in_order s rest ar1 w1 ar' w' ->
    applied_in_order s (o :: rest) ar w ar' w'.

(** The store in which the Exec and the CAS of server [s] hold [x] and [c]. *)
Definition withServer (s : Server) (x : Exec) (c : CAS) (w : World) : World :=
  with_cass (<[srv_CAS s := c]> (cass w))
    (with_execs (<[srv_Exec s := x]> (execs w)) w).

(** The flag that the last [ExecutionCacheHit] among the options carries. *)
Fixpoint lastCacheHit (opts : list fakeOption) : option bool :=
  match opts with
  | [] => None
  | o :: rest =>
      match lastCacheHit rest with
      | Some b => Some b
      | None => match o with ExecutionCacheHit b => Some b | _ => None end
      end
  end.

(** What one option leaves of the Exec: everything but the output blobs and,
    for [ExecutionCacheHit], the cached flag. *)
Definition same_but_outputs (o : fakeOption) (x x' : Exec) : Prop :=
  ex_ac x' = ex_ac x /\ ex_cas x' = ex_cas x /\
  ex_ActionResult x' = ex_ActionResult x /\ ex_Status x' = ex_Status x /\
  ex_Cached x' = match o with ExecutionCacheHit b => b | _ => ex_Cached x end.

(** The store once [cmd.FillDefaultFieldValues()] has run on the command
    that [cmd] points to. *)
Definition defaulted (cmd : loc) (c0 : Command) (w : World) : World :=
  with_cmds (<[cmd := FillDefaultFieldValues c0]> (cmds w)) w.

(** What [Set] does once the input tree is packaged. *)
Definition configure (e : TestEnv) (c : Command) (root : Digest)
    (opt : ExecutionOptions) (res : Result) (opts : list fakeOption)
    : M (Digest * Digest) :=
  let acDg := TestNewFromMessage (buildAction c root opt) in
  bind (applyAll opts (newActionResult res) (te_Server e)) (fun ar =>
  bind (deref execs (srv_Exec (te_Server e))) (fun x =>
  bind (store execs with_execs (srv_Exec (te_Server e))
          (with_ActionResult (Some ar) x)) (fun _ =>
  bind (configureStatus (te_Server e) res acDg ar) (fun _ =>
  ret (TestNewFromMessage (ToREProto c), acDg))))).

(** The result [res] with its status replaced. *)
Definition with_res_Status (st : ResultStatus) (res : Result) : Result :=
  {| res_ExitCode := res_ExitCode res; res_Status := st; res_Err := res_Err res |}.

(** A computation that never writes a command, however it ends. *)
Definition keeps_cmds {A} (m : M A) : Prop :=
  forall w, cmds (snd (m w)) = cmds w.

End Fakes.

Arguments Returned {X A} a.
Arguments FailNow {X A} t format arg.
Arguments Panicked {X A}.

(** ** The options read as data, and what a server needs to be usable *)

Section Readings.
Context {X : Externals}.

(** The bytes that an option puts in the CAS and appends to
    [Exec.OutputBlobs]: those of an OutputFile, a StdOut or a StdErr. *)
Definition optionBytes (o : fakeOption) : option (list byte) :=
  match o with
  | AnOutputFile f => Some (bytes_of (Contents f))
  | StdOut b => Some (bytes_of b)
  | StdErr b => Some (bytes_of b)
  | _ => None
  end.

(** The entry that an OutputFile option appends to [OutputFiles]. *)
Definition optionOutputFile (o : fakeOption) : option OutputFilePb :=
  match o with
  | AnOutputFile f =>
      Some {| of_Path := Path f;
              of_Digest := Some (ToProto (NewFromBlob (bytes_of (Contents f)))) |}
  | _ => None
  end.

(** The value that an option assigns to one of the four output fields. *)
Definition optionStdoutDigest (o : fakeOption) : option DigestPb :=
  match o with StdOut b => Some (ToProto (NewFromBlob (bytes_of b))) | _ => None end.
Definition optionStderrDigest (o : fakeOption) : option DigestPb :=
  match o with StdErr b => Some (ToProto (NewFromBlob (bytes_of b))) | _ => None end.
Definition optionStdoutRaw (o : fakeOption) : option (list byte) :=
  match o with StdOutRaw b => Some (bytes_of b) | _ => None end.
Definition optionStderrRaw (o : fakeOption) : option (list byte) :=
  match o with StdErrRaw b => Some (bytes_of b) | _ => None end.

(** One option as a function on the ActionResult, on the Exec and on the
    CAS of the server it is applied to. *)
Definition optionOnResult (o : fakeOption) (ar : ActionResult) : ActionResult :=
  match o with
  | AnOutputFile f =>
      with_OutputFiles
        (OutputFiles ar ++
           [{| of_Path := Path f;
               of_Digest := Some (ToProto (NewFromBlob (bytes_of (Contents f)))) |}])
        ar
  | StdOut b => with_StdoutDigest (Some (ToProto (NewFromBlob (bytes_of b)))) ar
  | StdOutRaw b => with_StdoutRaw (bytes_of b) ar
  | StdErr b => with_StderrDigest (Some (ToProto (NewFromBlob (bytes_of b)))) ar
  | StdErrRaw b => with_StderrRaw (bytes_of b) ar
  | ExecutionCacheHit _ => ar
  end.

Definition optionOnExec (o : fakeOption) (x : Exec) : Exec :=
  match o with
  | ExecutionCacheHit c => with_Cached c x
  | _ => match optionBytes o with
         | Some b => with_OutputBlobs (ex_OutputBlobs x ++ [b]) x
         | None => x
         end
  end.

Definition optionOnCAS (o : fakeOption) (c : CAS) : CAS :=
  match optionBytes o with
  | Some b => {| blobs := <[NewFromBlob b := b]> (blobs c) |}
  | None => c
  end.

(** What the [switch res.Status] of [Set] does to the Exec. *)
Definition statusOnExec (res : Result) (x : Exec) : Exec :=
  match res_Status res with
  | TimeoutResultStatus =>
      with_Status (Some (status_New DeadlineExceeded "timeout")) x
  | RemoteErrorResultStatus =>
      with_Status
        (if snd (FromError (res_Err res)) then fst (FromError (res_Err res))
         else Some (status_New Internal "remote error")) x
  | _ => x
  end.

(** Every blob of a CAS is stored under its own digest. *)
Definition content_addressed (c : CAS) : Prop :=
  forall d b, blobs c !! d = Some b -> NewFromBlob b = d.

(** A server all of whose pointers point to an object, and whose Exec is
    the one constructed over its ActionCache and its CAS. *)
Definition ServerOK (s : Server) (w : World) : Prop :=
  (exists x, execs w !! srv_Exec s = Some x /\
             ex_ac x = srv_ActionCache s /\ ex_cas x = srv_CAS s) /\
  is_Some (cass w !! srv_CAS s) /\
  is_Some (acs w !! srv_ActionCache s) /\
  is_Some (listeners w !! srv_listener s) /\
  is_Some (grpcs w !! srv_srv s).

(** The objects of two stores agree except at the addresses in the
    components of server [s] and at the command [cmd]; listeners and gRPC
    servers agree everywhere. *)
Definition same_elsewhere (s : Server) (cmd : loc) (w w' : World) : Prop :=
  (forall l, l <> srv_Exec s -> execs w' !! l = execs w !! l) /\
  (forall l, l <> srv_CAS s -> cass w' !! l = cass w !! l) /\
  (forall l, l <> srv_ActionCache s -> acs w' !! l = acs w !! l) /\
  (forall l, l <> cmd -> cmds w' !! l = cmds w !! l) /\
  listeners w' = listeners w /\
  grpcs w' = grpcs w.

(** The three components and the commands agree; listeners and gRPC
    servers agree except at those of server [s]. *)
Definition same_but_network (s : Server) (w w' : World) : Prop :=
  execs w' = execs w /\ cass w' = cass w /\ acs w' = acs w /\ cmds w' = cmds w /\
  (forall l, l <> srv_listener s -> listeners w' !! l = listeners w !! l) /\
  (forall l, l <> srv_srv s -> grpcs w' !! l = grpcs w !! l).

End Readings.

(** ** NewTestClient and NewTestEnv *)

(** [strings.ReplaceAll(s, string(old), new)] for a one-byte [old], as
    [NewTestEnv] calls it with the path separator: every byte [old] of [s]
    becomes [new]. *)
Fixpoint ReplaceAll (s : string) (old : Ascii.ascii) (new : string) : string :=
  match s with
  | EmptyString => EmptyString
  | String c rest =>
      if Ascii.eqb c old then (new ++ ReplaceAll rest old new)%string
      else String c (ReplaceAll rest old new)
  end.

(** The byte of the underscore. *)
Definition underscore : Ascii.ascii :=
  Ascii.Ascii true true true true true false true false.

Section Setup.
Context {X : Externals}.

(** [rc.DialParams], with the two fields [NewTestClient] sets, and the
    [rc.Client] that [rc.Dial] returns. *)
Record DialParams := { dp_Service : string; dp_NoSecurity : bool }.

Record Client := {
  cl_instance : string;
  cl_params : DialParams;
  cl_closed : bool
}.

(** [rexec.Client{&rexec.NoopFileDigestCache{}, grpcClient}]. *)
Inductive FileDigestCache := NoopFileDigestCache.

Record RexecClient := {
  rx_FileDigestCache : FileDigestCache;
  rx_GrpcClient : loc
}.

(** What the machine answers to a test: the path separator, the outcome of
    [ioutil.TempDir(dir, pattern)], of [net.Listen] and of
    [rc.Dial(ctx, instance, params)]. *)
Record Os := {
  os_Separator : Ascii.ascii;
  os_TempDir : string -> string -> string + error;
  os_Listen : string + error;
  os_Dial : string -> DialParams -> option error
}.

(** The store of a test: the store of the fake, the names of the tests, the
    clients, and the temporary directories that exist. *)
Record Host := {
  h_world : World;
  h_tests : gmap loc string;
  h_clients : gmap loc Client;
  h_rexecs : gmap loc RexecClient;
  h_dirs : gset string
}.

Definition with_world (w : World) (h : Host) : Host :=
  {| h_world := w; h_tests := h_tests h; h_clients := h_clients h;
     h_rexecs := h_rexecs h; h_dirs := h_dirs h |}.
Definition with_clients (m : gmap loc Client) (h : Host) : Host :=
  {| h_world := h_world h; h_tests := h_tests h; h_clients := m;
     h_rexecs := h_rexecs h; h_dirs := h_dirs h |}.
Definition with_rexecs (m : gmap loc RexecClient) (h : Host) : Host :=
  {| h_world := h_world h; h_tests := h_tests h; h_clients := h_clients h;
     h_rexecs := m; h_dirs := h_dirs h |}.
Definition with_dirs (d : gset string) (h : Host) : Host :=
  {| h_world := h_world h; h_tests := h_tests h; h_clients := h_clients h;
     h_rexecs := h_rexecs h; h_dirs := d |}.

Definition H (A : Type) : Type := Host -> Outcome A * Host.

Definition hret {A} (a : A) : H A := fun h => (Returned a, h).

Definition hbind {A B} (m : H A) (k : A -> H B) : H B :=
  fun h =>
    match m h with
    | (Returned a, h') => k a h'
    | (FailNow t f e, h') => (FailNow t f e, h')
    | (Panicked, h') => (Panicked, h')
    end.

Notation "x <~ m ;; k" := (hbind m (fun x => k))
  (at level 100, m at next level, right associativity).
Notation "m ;;~ k" := (hbind m (fun _ => k))
  (at level 100, right associativity).

(** A computation on the store of the fake, run inside a test. *)
Definition lift {A} (m : M A) : H A :=
  fun h => let '(o, w) := m (h_world h) in (o, with_world w h).

Definition hFatalf (t : loc) (format : string) (arg : error) : H unit :=
  fun h => (FailNow t format arg, h).

Definition hpanic {A} : H A := fun h => (Panicked, h).

(** [t.Name()]. *)
Definition t_Name (t : loc) : H string :=
  fun h => match h_tests h !! t with
           | Some name => (Returned name, h)
           | None => (Panicked, h)
           end.

(** [ioutil.TempDir(dir, pattern)]: the directory it made exists. *)
Definition ioutil_TempDir (os : Os) (dir pattern : string) : H (string + error) :=
  fun h => match os_TempDir os dir pattern with
           | inl path => (Returned (inl path), with_dirs ({[ path ]} ∪ h_dirs h) h)
           | inr err => (Returned (inr err), h)
           end.

(** [os.RemoveAll(path)] on a temporary directory; its error is dropped. *)
Definition os_RemoveAll (path : string) : H unit :=
  fun h => (Returned tt, with_dirs (h_dirs h ∖ {[ path ]}) h).

(** [rc.Dial(ctx, instance, params)]. *)
Definition rc_Dial (os : Os) (instance : string) (params : DialParams)
    : H (loc + error) :=
  fun h => match os_Dial os instance params with
           | None =>
               let c := fresh (dom (h_clients h)) in
               (Returned (inl c),
                with_clients
                  (<[c := {| cl_instance := instance; cl_params := params;
                             cl_closed := false |}]> (h_clients h)) h)
           | Some err => (Returned (inr err), h)
           end.

(** [grpcClient.Close()]; its error is dropped. *)
Definition Client_Close (c : loc) : H unit :=
  fun h => match h_clients h !! c with
           | Some cl =>
               (Returned tt,
                with_clients
                  (<[c := {| cl_instance := cl_instance cl;
                             cl_params := cl_params cl; cl_closed := true |}]>
                     (h_clients h)) h)
           | None => (Panicked, h)
           end.

(** [Server.NewTestClient]. *)
Definition Server_NewTestClient (os : Os) (s : Server) : H (loc + error) :=
  l <~ lift (deref listeners (srv_listener s)) ;;
  rc_Dial os "instance"
    {| dp_Service := lis_address l; dp_NoSecurity := true |}.

(** The cleanup function that [NewTestEnv] returns. *)
Definition cleanup (grpcClient : loc) (s : Server) (execRoot : string) : H unit :=
  Client_Close grpcClient ;;~
  lift (Server_Stop s) ;;~
  os_RemoveAll execRoot.

(** [NewTestEnv]. After each [t.Fatalf] the Go code goes on with the zero
    values of the failed call, which is never run. *)
Definition NewTestEnv (os : Os) (t : loc) : H (TestEnv * H unit) :=
  name <~ t_Name t ;;
  r <~ ioutil_TempDir os "" (ReplaceAll name (os_Separator os) "_") ;;
  match r with
  | inr err => hFatalf t "failed to make temp dir: %v" err ;;~ hpanic
  | inl execRoot =>
      sr <~ lift (NewServer (os_Listen os)) ;;
      match sr with
      | inr err => hFatalf t "Error starting fake server: %v" err ;;~ hpanic
      | inl s =>
          cr <~ Server_NewTestClient os s ;;
          match cr with
          | inr err => hFatalf t "Error connecting to server: %v" err ;;~ hpanic
          | inl grpcClient =>
              fun h =>
                let c := fresh (dom (h_rexecs h)) in
                (Returned
                   ({| te_Client := c; te_Server := s; te_ExecRoot := execRoot;
                       te_t := t |},
                    cleanup grpcClient s execRoot),
                 with_rexecs
                   (<[c := {| rx_FileDigestCache := NoopFileDigestCache;
                              rx_GrpcClient := grpcClient |}]> (h_rexecs h)) h)
          end
      end
  end.

(** Notions used to state the properties of the set-up. *)

(** A name in which the path separator does not occur. *)
Definition no_separator (sep : Ascii.ascii) (p : string) : Prop :=
  forall c, c ∈ list_ascii_of_string p -> c <> sep.

(** Two machines that answer alike but for the temporary directories. *)
Definition same_but_TempDir (os os' : Os) : Prop :=
  os_Separator os' = os_Separator os /\
  os_Listen os' = os_Listen os /\
  (forall instance params, os_Dial os' instance params = os_Dial os instance params).

(** The parameters with which [NewTestClient] dials a listener. *)
Definition dialed (l : Listener) : DialParams :=
  {| dp_Service := lis_address l; dp_NoSecurity := true |}.

End Setup.

(** ** A concrete instance *)

(** A small instance of the externals, on which the model is evaluated at
    concrete calls: commands are an execution root, a timeout and a tool
    name that defaults to "remote-client"; a digest is the text it digests,
    with a size; the input tree of every root but "/missing" builds; an
    error either carries a gRPC status or is a plain message. *)
Inductive demoError :=
| PlainError (msg : string)
| StatusError (st : Status).

Record demoCommand := {
  dc_ExecRoot : string;
  dc_Timeout : Z;
  dc_ToolName : string
}.

Definition demoFill (c : demoCommand) : demoCommand :=
  if String.eqb (dc_ToolName c) ""
  then {| dc_ExecRoot := dc_ExecRoot c; dc_Timeout := dc_Timeout c;
          dc_ToolName := "remote-client" |}
  else c.

Definition demoBlobDigest (b : list byte) : Digest :=
  {| Hash := string_of_list_byte b; Size := Z.of_nat (length b) |}.

Definition demoCommandDigest (c : demoCommand) : Digest :=
  {| Hash := (dc_ExecRoot c ++ ":" ++ dc_ToolName c)%string; Size := dc_Timeout c |}.

Definition demoActionDigest (a : Action) : Digest :=
  {| Hash := (match CommandDigest a with Some d => pb_Hash d | None => "" end ++ "@" ++
              match InputRootDigest a with Some d => pb_Hash d | None => "" end ++
              if DoNotCache a then "!" else "")%string;
     Size := match Timeout a with Some d => Seconds d | None => 0 end |}.

Definition demoBuildTree (root : string) (_ : unit) : string + demoError :=
  if String.eqb root "/missing"
  then inr (PlainError "lstat /missing: no such file or directory")
  else inl root.

Definition demoPackageTree (ft : string) : (Digest * unit) + demoError :=
  inl ({| Hash := ft; Size := Z.of_nat (String.length ft) |}, tt).

Definition demoFromError (err : option demoError) : option Status * bool :=
  match err with
  | None => (None, true)
  | Some (StatusError st) => (Some st, true)
  | Some (PlainError msg) => (Some (status_New Unknown msg), false)
  end.

Definition demoX : Externals :=
  {| error := demoError;
     Command := demoCommand;
     InputSpec := unit;
     CommandPb := demoCommand;
     FileTree := string;
     Blobs := unit;
     cmd_ExecRoot := dc_ExecRoot;
     cmd_InputSpec := fun _ => tt;
     cmd_Timeout := dc_Timeout;
     FillDefaultFieldValues := demoFill;
     ToREProto := fun c => c;
     NewFromBlob := demoBlobDigest;
     CommandPb_Message := demoCommandDigest;
     Action_Message := demoActionDigest;
     BuildTreeFromInputs := demoBuildTree;
     PackageTree := demoPackageTree;
     FromError := demoFromError |}.

Section DemoInput.
#[local] Existing Instance demoX.

Definition demoServer : Server :=
  {| srv_Exec := 1%positive; srv_CAS := 1%positive; srv_ActionCache := 1%positive;
     srv_listener := 1%positive; srv_srv := 1%positive |}.

Definition demoEnv : TestEnv :=
  {| te_Client := 1%positive; te_Server := demoServer; te_ExecRoot := "/tmp/root";
     te_t := 1%positive |}.

Definition demoExec : Exec :=
  {| ex_ac := 1%positive; ex_cas := 1%positive; ex_ActionResult := None;
     ex_Status := None; ex_Cached := false; ex_OutputBlobs := [] |}.

(** The store that holds the command [c] and nothing else, and the store
    that [NewServer] makes of it. *)
Definition demoStart (c : demoCommand) : World :=
  {| cass := ∅; acs := ∅; execs := ∅; listeners := ∅; grpcs := ∅;
     cmds := {[ 1%positive := c ]} |}.

Definition demoWorld (c : demoCommand) : World :=
  {| cass := {[ 1%positive := {| blobs := ∅ |} ]};
     acs := {[ 1%positive := {| results := ∅ |} ]};
     execs := {[ 1%positive := demoExec ]};
     listeners := {[ 1%positive := {| lis_network := "tcp";
                                      lis_address := "127.0.0.1:40000";
                                      lis_closed := false |} ]};
     grpcs := {[ 1%positive :=
                   {| g_services := [ByteStreamServer 1%positive;
                                     ContentAddressableStorageServer 1%positive;
                                     ActionCacheServer 1%positive;
                                     ExecutionServer 1%positive];
                      g_serving := Some 1%positive; g_stopped := false |} ]};
     cmds := {[ 1%positive := c ]} |}.

Definition demoCmd : demoCommand :=
  {| dc_ExecRoot := "/src"; dc_Timeout := 2000000000; dc_ToolName := "" |}.

Definition demoMissing : demoCommand :=
  {| dc_ExecRoot := "/missing"; dc_Timeout := 0; dc_ToolName := "" |}.

Definition demoOpt : ExecutionOptions := {| eo_DoNotCache := false |}.

Definition demoResult (st : ResultStatus) : Result :=
  {| res_ExitCode := 0; res_Status := st; res_Err := None |}.

Definition demoRemoteError : Result :=
  {| res_ExitCode := 3; res_Status := RemoteErrorResultStatus;
     res_Err := Some (PlainError "boom") |}.

(** A result whose exit code does not fit 32 bits, and a Timeout result. *)
Definition demoTimeout : Result :=
  {| res_ExitCode := 2 ^ 32 + 7; res_Status := TimeoutResultStatus;
     res_Err := None |}.

(** The store of [demoWorld] with a second command. *)
Definition demoOther : demoCommand :=
  {| dc_ExecRoot := "/other"; dc_Timeout := 0; dc_ToolName := "tool" |}.

Definition demoTwo : World :=
  with_cmds (<[2%positive := demoOther]> (cmds (demoWorld demoCmd)))
    (demoWorld demoCmd).

(** A machine whose path separator is the slash, which makes the temporary
    directories under "/tmp", hands out one address and connects the
    clients that dial without security; one that makes no other directory
    than that of the test "TestSet/sub"; one that refuses to listen; and one
    that refuses the dial. *)
Definition slash : Ascii.ascii :=
  Ascii.Ascii true true true true false true false false.

Definition demoRefused (what : string) : error := PlainError what.

Definition demoOs : Os :=
  {| os_Separator := slash;
     os_TempDir := fun dir pattern =>
       if String.eqb pattern "" then inr (demoRefused "pattern")
       else inl ("/tmp/" ++ pattern)%string;
     os_Listen := inl "127.0.0.1:40000"%string;
     os_Dial := fun instance params =>
       if dp_NoSecurity params then None else Some (demoRefused "tls") |}.

Definition demoOsStrict : Os :=
  {| os_Separator := slash;
     os_TempDir := fun dir pattern =>
       if String.eqb pattern "TestSet_sub" then inl ("/tmp/" ++ pattern)%string
       else inr (demoRefused "pattern");
     os_Listen := os_Listen demoOs;
     os_Dial := os_Dial demoOs |}.

Definition demoOsNoListen : Os :=
  {| os_Separator := slash;
     os_TempDir := os_TempDir demoOs;
     os_Listen := inr (demoRefused "listen");
     os_Dial := os_Dial demoOs |}.

Definition demoOsNoDial : Os :=
  {| os_Separator := slash;
     os_TempDir := os_TempDir demoOs;
     os_Listen := os_Listen demoOs;
     os_Dial := fun _ _ => Some (demoRefused "dial") |}.

(** The store of the test "TestSet/sub" before the set-up, and with the
    server of [demoWorld] running. *)
Definition demoHost : Host :=
  {| h_world := demoStart demoCmd;
     h_tests := {[ 1%positive := "TestSet/sub"%string ]};
     h_clients := ∅; h_rexecs := ∅; h_dirs := ∅ |}.

Definition demoServing : Host := with_world (demoWorld demoCmd) demoHost.

Definition demoListener : Listener :=
  {| lis_network := "tcp"; lis_address := "127.0.0.1:40000"; lis_closed := false |}.

Definition demoGrpc : GrpcServer :=
  {| g_services := [ByteStreamServer 1%positive;
                    ContentAddressableStorageServer 1%positive;
                    ActionCacheServer 1%positive;
                    ExecutionServer 1%positive];
     g_serving := Some 1%positive; g_stopped := false |}.

End DemoInput.

Section Properties.
Context {X : Externals}.

(** ** Running the primitive computations *)

Lemma deref_Some {V} (sel : World -> gmap loc V) l v w :
  sel w !! l = Some v -> deref sel l w = (Returned v, w).
Proof. intros H. unfold deref. rewrite H. reflexivity. Qed.

Lemma bind_Returned {A B} (m : M A) (k : A -> M B) w a w' :
  m w = (Returned a, w') -> bind m k w = k a w'.
Proof. intros H. unfold bind. rewrite H. reflexivity. Qed.

(** Reads of a component of an updated store. *)
Ltac simpl_world :=
  cbn [cass acs execs listeners grpcs cmds with_cass with_acs with_execs
       with_listeners with_grpcs with_cmds].

(** [run_bind lem H]: the first computation of a sequence returns, by the
    run lemma [lem] whose premise is (convertible to) [H], or is solved by
    the tactic given. *)
Tactic Notation "run_bind" uconstr(lem) constr(H) :=
  erewrite bind_Returned by (eapply lem; exact H); cbn beta.
Tactic Notation "run_bind" uconstr(lem) "by" tactic3(t) :=
  erewrite bind_Returned by (eapply lem; t); cbn beta.

Lemma appendOutputBlob_run s bytes w x :
  execs w !! srv_Exec s = Some x ->
  appendOutputBlob s bytes w =
    (Returned tt,
     with_execs (<[srv_Exec s := with_OutputBlobs (ex_OutputBlobs x ++ [bytes]) x]> (execs w)) w).
Proof.
  intros Hx. unfold appendOutputBlob.
  rewrite (bind_Returned _ _ _ _ _ (deref_Some execs _ _ _ Hx)).
  reflexivity.
Qed.

Lemma CAS_Put_run c blob w st :
  cass w !! c = Some st ->
  CAS_Put c blob w =
    (Returned (NewFromBlob blob),
     with_cass (<[c := {| blobs := <[NewFromBlob blob := blob]> (blobs st) |}]> (cass w)) w).
Proof.
  intros Hc. unfold CAS_Put.
  rewrite (bind_Returned _ _ _ _ _ (deref_Some cass _ _ _ Hc)).
  reflexivity.
Qed.

Lemma put_output_run s x c bytes w :
  execs w !! srv_Exec s = Some x ->
  cass w !! srv_CAS s = Some c ->
  bind (appendOutputBlob s bytes) (fun _ => CAS_Put (srv_CAS s) bytes) w =
    (Returned (NewFromBlob bytes), stored s x c bytes w).
Proof.
  intros Hx Hc.
  rewrite (bind_Returned _ _ _ _ _ (appendOutputBlob_run s bytes w x Hx)).
  rewrite (CAS_Put_run _ _ _ c); [reflexivity | exact Hc].
Qed.

Lemma bind_assoc {A B C} (m : M A) (k : A -> M B) (h : B -> M C) w :
  bind (bind m k) h w = bind m (fun a => bind (k a) h) w.
Proof. unfold bind. destruct (m w) as [[a | t f e |] w']; reflexivity. Qed.

Lemma put_then_run s x c bytes (k : Digest -> ActionResult) w :
  execs w !! srv_Exec s = Some x ->
  cass w !! srv_CAS s = Some c ->
  bind (appendOutputBlob s bytes)
    (fun _ => bind (CAS_Put (srv_CAS s) bytes) (fun dg => ret (k dg))) w
  = (Returned (k (NewFromBlob bytes)), stored s x c bytes w).
Proof.
  intros Hx Hc.
  rewrite <- (bind_assoc (appendOutputBlob s bytes)
                (fun _ => CAS_Put (srv_CAS s) bytes) (fun dg => ret (k dg))).
  rewrite (bind_Returned _ _ _ _ _ (put_output_run s x c bytes w Hx Hc)).
  reflexivity.
Qed.

Lemma OutputFile_Apply_run f ar s w x c :
  execs w !! srv_Exec s = Some x ->
  cass w !! srv_CAS s = Some c ->
  OutputFile_Apply f ar s w =
    (Returned
       (with_OutputFiles
          (OutputFiles ar ++
             [{| of_Path := Path f;
                 of_Digest := Some (ToProto (NewFromBlob (bytes_of (Contents f)))) |}])
          ar),
     stored s x c (bytes_of (Contents f)) w).
Proof.
  intros Hx Hc.
  apply (put_then_run s x c (bytes_of (Contents f))
           (fun dg => with_OutputFiles
                        (OutputFiles ar ++
                           [{| of_Path := Path f; of_Digest := Some (ToProto dg) |}])
                        ar) w Hx Hc).
Qed.

Lemma StdOut_Apply_run o ar s w x c :
  execs w !! srv_Exec s = Some x ->
  cass w !! srv_CAS s = Some c ->
  StdOut_Apply o ar s w =
    (Returned (with_StdoutDigest (Some (ToProto (NewFromBlob (bytes_of o)))) ar),
     stored s x c (bytes_of o) w).
Proof.
  intros Hx Hc.
  apply (put_then_run s x c (bytes_of o)
           (fun dg => with_StdoutDigest (Some (ToProto dg)) ar) w Hx Hc).
Qed.

Lemma StdErr_Apply_run o ar s w x c :
  execs w !! srv_Exec s = Some x ->
  cass w !! srv_CAS s = Some c ->
  StdErr_Apply o ar s w =
    (Returned (with_StderrDigest (Some (ToProto (NewFromBlob (bytes_of o)))) ar),
     stored s x c (bytes_of o) w).
Proof.
  intros Hx Hc.
  apply (put_then_run s x c (bytes_of o)
           (fun dg => with_StderrDigest (Some (ToProto dg)) ar) w Hx Hc).
Qed.

Lemma stored_reads s x c bytes w :
  output_stored s x c bytes w (stored s x c bytes w).
Proof.
  unfold output_stored, stored. simpl_world. rewrite !lookup_insert_eq.
  split.
  { eexists. split; [reflexivity |]. cbn [blobs].
    split; [apply lookup_insert_eq |].
    intros d Hd. apply lookup_insert_ne. congruence. }
  split.
  { eexists. split; [reflexivity |]. repeat split. }
  split; [intros l Hl; apply lookup_insert_ne; congruence |].
  split; [intros l Hl; apply lookup_insert_ne; congruence |].
  repeat split.
Qed.

(** C4: an OutputFile, StdOut or StdErr option stores its bytes in the fake
    CAS under their digest, appends them to Exec.OutputBlobs and records the
    digest in the ActionResult: an OutputFile as a new last entry of
    OutputFiles with its path, a StdOut as StdoutDigest, a StdErr as
    StderrDigest; every other field of the ActionResult and of the Exec, and
    every other object of the store, is as it was. A StdOutRaw or StdErrRaw
    option writes its bytes into StdoutRaw or StderrRaw, leaves the other
    fields of the ActionResult as they were, and leaves the whole store, the
    CAS included, as it was. *)
Theorem Apply_stores_outputs_and_keeps_raw_inline
    (s : Server) (ar : ActionResult) (w : World) (x : Exec) (c : CAS) :
  execs w !! srv_Exec s = Some x ->
  cass w !! srv_CAS s = Some c ->
  (forall f : OutputFile,
     exists ar' w',
       Apply (AnOutputFile f) ar s w = (Returned ar', w') /\
       output_stored s x c (bytes_of (Contents f)) w w' /\
       OutputFiles ar'
         = OutputFiles ar ++
             [{| of_Path := Path f;
                 of_Digest :=
                   Some (ToProto (NewFromBlob (bytes_of (Contents f)))) |}] /\
       ExitCode ar' = ExitCode ar /\
       StdoutDigest ar' = StdoutDigest ar /\ StdoutRaw ar' = StdoutRaw ar /\
       StderrDigest ar' = StderrDigest ar /\ StderrRaw ar' = StderrRaw ar) /\
  (forall o : string,
     exists ar' w',
       Apply (StdOut o) ar s w = (Returned ar', w') /\
       output_stored s x c (bytes_of o) w w' /\
       StdoutDigest ar' = Some (ToProto (NewFromBlob (bytes_of o))) /\
       ExitCode ar' = ExitCode ar /\ OutputFiles ar' = OutputFiles ar /\
       StdoutRaw ar' = StdoutRaw ar /\
       StderrDigest ar' = StderrDigest ar /\ StderrRaw ar' = StderrRaw ar) /\
  (forall o : string,
     exists ar' w',
       Apply (StdErr o) ar s w = (Returned ar', w') /\
       output_stored s x c (bytes_of o) w w' /\
       StderrDigest ar' = Some (ToProto (NewFromBlob (bytes_of o))) /\
       ExitCode ar' = ExitCode ar /\ OutputFiles ar' = OutputFiles ar /\
       StdoutDigest ar' = StdoutDigest ar /\ StdoutRaw ar' = StdoutRaw ar /\
       StderrRaw ar' = StderrRaw ar) /\
  (forall o : string,
     exists ar',
       Apply (StdOutRaw o) ar s w = (Returned ar', w) /\
       StdoutRaw ar' = bytes_of o /\
       ExitCode ar' = ExitCode ar /\ OutputFiles ar' = OutputFiles ar /\
       StdoutDigest ar' = StdoutDigest ar /\
       StderrDigest ar' = StderrDigest ar /\ StderrRaw ar' = StderrRaw ar) /\
  (forall o : string,
     exists ar',
       Apply (StdErrRaw o) ar s w = (Returned ar', w) /\
       StderrRaw ar' = bytes_of o /\
       ExitCode ar' = ExitCode ar /\ OutputFiles ar' = OutputFiles ar /\
       StdoutDigest ar' = StdoutDigest ar /\ StdoutRaw ar' = StdoutRaw ar /\
       StderrDigest ar' = StderrDigest ar).
Proof.
  intros Hx Hc. split; [| split; [| split; [| split]]].
  - intros f. eexists _, _. cbn [Apply].
    split; [exact (OutputFile_Apply_run f ar s w x c Hx Hc) |].
    split; [apply stored_reads |].
    cbn [with_OutputFiles ExitCode OutputFiles StdoutDigest StdoutRaw
           StderrDigest StderrRaw].
    repeat split.
  - intros o. eexists _, _. cbn [Apply].
    split; [exact (StdOut_Apply_run o ar s w x c Hx Hc) |].
    split; [apply stored_reads |].
    cbn [with_StdoutDigest ExitCode OutputFiles StdoutDigest StdoutRaw
           StderrDigest StderrRaw].
    repeat split.
  - intros o. eexists _, _. cbn [Apply].
    split; [exact (StdErr_Apply_run o ar s w x c Hx Hc) |].
    split; [apply stored_reads |].
    cbn [with_StderrDigest ExitCode OutputFiles StdoutDigest StdoutRaw
           StderrDigest StderrRaw].
    repeat split.
  - intros o. eexists. split; [reflexivity |].
    cbn [with_StdoutRaw ExitCode OutputFiles StdoutDigest StdoutRaw
           StderrDigest StderrRaw].
    repeat split.
  - intros o. eexists. split; [reflexivity |].
    cbn [with_StderrRaw ExitCode OutputFiles StdoutDigest StdoutRaw
           StderrDigest StderrRaw].
    repeat split.
Qed.

Lemma CAS_Clear_run c w st :
  cass w !! c = Some st ->
  CAS_Clear c w = (Returned tt, with_cass (<[c := {| blobs := ∅ |}]> (cass w)) w).
Proof.
  intros Hc. unfold CAS_Clear.
  rewrite (bind_Returned _ _ _ _ _ (deref_Some cass _ _ _ Hc)). reflexivity.
Qed.

Lemma ActionCache_Clear_run c w st :
  acs w !! c = Some st ->
  ActionCache_Clear c w =
    (Returned tt, with_acs (<[c := {| results := ∅ |}]> (acs w)) w).
Proof.
  intros Hc. unfold ActionCache_Clear.
  rewrite (bind_Returned _ _ _ _ _ (deref_Some acs _ _ _ Hc)). reflexivity.
Qed.

Lemma Exec_Clear_run l w x :
  execs w !! l = Some x ->
  Exec_Clear l w =
    (Returned tt,
     with_execs
       (<[l := {| ex_ac := ex_ac x; ex_cas := ex_cas x; ex_ActionResult := None;
                  ex_Status := None; ex_Cached := false; ex_OutputBlobs := [] |}]>
          (execs w)) w).
Proof.
  intros Hx. unfold Exec_Clear.
  rewrite (bind_Returned _ _ _ _ _ (deref_Some execs _ _ _ Hx)). reflexivity.
Qed.

(** C5: Server.Clear empties the CAS store and the ActionCache store of the
    server and resets its Exec state (no result, no status, not cached, no
    output blobs), and changes nothing else: every listener and every gRPC
    server is as it was, so those of the server keep running, and so are
    the commands. *)
Theorem Server_Clear_clears_the_three_components_only
    (s : Server) (w : World) (c : CAS) (a : ActionCache) (x : Exec) :
  cass w !! srv_CAS s = Some c ->
  acs w !! srv_ActionCache s = Some a ->
  execs w !! srv_Exec s = Some x ->
  exists w',
    Server_Clear s w = (Returned tt, w') /\
    cass w' = <[srv_CAS s := {| blobs := ∅ |}]> (cass w) /\
    acs w' = <[srv_ActionCache s := {| results := ∅ |}]> (acs w) /\
    execs w' =
      <[srv_Exec s := {| ex_ac := ex_ac x; ex_cas := ex_cas x;
                         ex_ActionResult := None; ex_Status := None;
                         ex_Cached := false; ex_OutputBlobs := [] |}]> (execs w) /\
    listeners w' = listeners w /\
    grpcs w' = grpcs w /\
    cmds w' = cmds w.
Proof.
  intros Hc Ha Hx. unfold Server_Clear.
  run_bind (CAS_Clear_run _ _ c) Hc.
  run_bind (ActionCache_Clear_run (srv_ActionCache s) _ a) Ha.
  rewrite (Exec_Clear_run (srv_Exec s) _ x) by exact Hx.
  eexists. split; [reflexivity |]. repeat split.
Qed.

(** ** Allocation *)

Lemma World_ext (w1 w2 : World) :
  cass w1 = cass w2 -> acs w1 = acs w2 -> execs w1 = execs w2 ->
  listeners w1 = listeners w2 -> grpcs w1 = grpcs w2 -> cmds w1 = cmds w2 ->
  w1 = w2.
Proof. destruct w1, w2; cbn; intros; subst; reflexivity. Qed.

Lemma fresh_unallocated {V} (m : gmap loc V) : m !! fresh (dom m) = None.
Proof. apply not_elem_of_dom. apply is_fresh. Qed.

Lemma Register_run g svc w st :
  grpcs w !! g = Some st ->
  Register g svc w =
    (Returned tt,
     with_grpcs
       (<[g := {| g_services := g_services st ++ [svc];
                  g_serving := g_serving st; g_stopped := g_stopped st |}]>
          (grpcs w)) w).
Proof.
  intros Hg. unfold Register.
  rewrite (bind_Returned _ _ _ _ _ (deref_Some grpcs _ _ _ Hg)). reflexivity.
Qed.

Lemma Serve_run g lis w st :
  grpcs w !! g = Some st ->
  Serve g lis w =
    (Returned tt,
     with_grpcs
       (<[g := {| g_services := g_services st; g_serving := Some lis;
                  g_stopped := g_stopped st |}]> (grpcs w)) w).
Proof.
  intros Hg. unfold Serve.
  rewrite (bind_Returned _ _ _ _ _ (deref_Some grpcs _ _ _ Hg)). reflexivity.
Qed.

Lemma NewServer_listening (addr : string) (w : World) :
  let lcas := fresh (dom (cass w)) in
  let lac := fresh (dom (acs w)) in
  let lex := fresh (dom (execs w)) in
  let lis := fresh (dom (listeners w)) in
  let g := fresh (dom (grpcs w)) in
  NewServer (inl addr) w =
    (Returned (inl {| srv_Exec := lex; srv_CAS := lcas; srv_ActionCache := lac;
                      srv_listener := lis; srv_srv := g |}),
     {| cass := <[lcas := {| blobs := ∅ |}]> (cass w);
        acs := <[lac := {| results := ∅ |}]> (acs w);
        execs := <[lex := {| ex_ac := lac; ex_cas := lcas; ex_ActionResult := None;
                             ex_Status := None; ex_Cached := false;
                             ex_OutputBlobs := [] |}]> (execs w);
        listeners := <[lis := {| lis_network := "tcp"; lis_address := addr;
                                 lis_closed := false |}]> (listeners w);
        grpcs := <[g := {| g_services := [ByteStreamServer lcas;
                                          ContentAddressableStorageServer lcas;
                                          ActionCacheServer lac;
                                          ExecutionServer lex];
                           g_serving := Some lis; g_stopped := false |}]> (grpcs w);
        cmds := cmds w |}).
Proof.
  intros lcas lac lex lis g.
  unfold NewServer, NewCAS, NewActionCache, NewExec, net_Listen, grpc_NewServer.
  do 3 (unfold bind at 1, alloc at 1; cbn iota beta zeta).
  unfold bind at 1. unfold bind at 1, alloc at 1. cbn iota beta zeta.
  unfold ret at 1. cbn iota beta.
  unfold bind at 1, alloc at 1. cbn iota beta zeta.
  simpl_world.
  do 4 (run_bind (Register_run _ _ _ _) by (apply lookup_insert_eq);
        simpl_world; cbn [g_services g_serving g_stopped]).
  run_bind (Serve_run _ _ _ _) by (apply lookup_insert_eq).
  simpl_world; cbn [g_services g_serving g_stopped].
  unfold ret. f_equal.
  apply World_ext; simpl_world; rewrite ?insert_insert_eq; reflexivity.
Qed.

Lemma NewServer_refused (err : error) (w : World) :
  let lcas := fresh (dom (cass w)) in
  let lac := fresh (dom (acs w)) in
  let lex := fresh (dom (execs w)) in
  NewServer (inr err) w =
    (Returned (inr err),
     {| cass := <[lcas := {| blobs := ∅ |}]> (cass w);
        acs := <[lac := {| results := ∅ |}]> (acs w);
        execs := <[lex := {| ex_ac := lac; ex_cas := lcas; ex_ActionResult := None;
                             ex_Status := None; ex_Cached := false;
                             ex_OutputBlobs := [] |}]> (execs w);
        listeners := listeners w;
        grpcs := grpcs w;
        cmds := cmds w |}).
Proof. reflexivity. Qed.

(** C6: every call of NewServer allocates a CAS, an ActionCache and an Exec
    at addresses that were unallocated before the call, so that no server
    created earlier (whose components are allocated in the store the call
    starts from) shares one of them, and leaves every object allocated
    earlier as it was; the new CAS and ActionCache are empty, and the new Exec
    is constructed over exactly the ActionCache and the CAS that the returned
    server exposes as its fields. When listening succeeds the server is
    returned with the four services registered on those objects; when it
    fails the error is returned. *)
Theorem NewServer_components_are_fresh_and_shared_with_Exec
    (listen : string + error) (w : World) :
  exists (lcas lac lex : loc) (w' : World),
    snd (NewServer listen w) = w' /\
    (cass w !! lcas = None /\ acs w !! lac = None /\ execs w !! lex = None) /\
    cass w' !! lcas = Some {| blobs := ∅ |} /\
    acs w' !! lac = Some {| results := ∅ |} /\
    execs w' !! lex =
      Some {| ex_ac := lac; ex_cas := lcas; ex_ActionResult := None;
              ex_Status := None; ex_Cached := false; ex_OutputBlobs := [] |} /\
    (forall addr, listen = inl addr ->
       exists lis g,
         fst (NewServer listen w) =
           Returned (inl {| srv_Exec := lex; srv_CAS := lcas;
                            srv_ActionCache := lac; srv_listener := lis;
                            srv_srv := g |}) /\
         listeners w' !! lis =
           Some {| lis_network := "tcp"; lis_address := addr; lis_closed := false |} /\
         grpcs w' !! g =
           Some {| g_services := [ByteStreamServer lcas;
                                  ContentAddressableStorageServer lcas;
                                  ActionCacheServer lac; ExecutionServer lex];
                   g_serving := Some lis; g_stopped := false |}) /\
    (forall err, listen = inr err ->
       fst (NewServer listen w) = Returned (inr err)) /\
    (forall p : Server,
       is_Some (cass w !! srv_CAS p) ->
       is_Some (acs w !! srv_ActionCache p) ->
       is_Some (execs w !! srv_Exec p) ->
       srv_CAS p <> lcas /\ srv_ActionCache p <> lac /\ srv_Exec p <> lex) /\
    (forall l v, cass w !! l = Some v -> cass w' !! l = Some v) /\
    (forall l v, acs w !! l = Some v -> acs w' !! l = Some v) /\
    (forall l v, execs w !! l = Some v -> execs w' !! l = Some v).
Proof.
  exists (fresh (dom (cass w))), (fresh (dom (acs w))), (fresh (dom (execs w))).
  pose proof (fresh_unallocated (cass w)) as Fc.
  pose proof (fresh_unallocated (acs w)) as Fa.
  pose proof (fresh_unallocated (execs w)) as Fx.
  assert (Hkeep : forall {V} (m : gmap loc V) l v (n : V),
             m !! l = Some v -> <[fresh (dom m) := n]> m !! l = Some v).
  { intros V m l v n Hl. rewrite lookup_insert_ne; [exact Hl |].
    intros E. rewrite <- E in Hl. rewrite fresh_unallocated in Hl. discriminate. }
  assert (Hold : forall p : Server,
             is_Some (cass w !! srv_CAS p) ->
             is_Some (acs w !! srv_ActionCache p) ->
             is_Some (execs w !! srv_Exec p) ->
             srv_CAS p <> fresh (dom (cass w)) /\
             srv_ActionCache p <> fresh (dom (acs w)) /\
             srv_Exec p <> fresh (dom (execs w))).
  { intros p [c Hc] [a Ha] [x Hx]. repeat split; intros E.
    - rewrite E, Fc in Hc. discriminate.
    - rewrite E, Fa in Ha. discriminate.
    - rewrite E, Fx in Hx. discriminate. }
  destruct listen as [addr | err].
  - rewrite NewServer_listening. cbn [fst snd].
    eexists. split; [reflexivity |].
    simpl_world. rewrite !lookup_insert_eq.
    split; [auto |]. split; [reflexivity |]. split; [reflexivity |].
    split; [reflexivity |].
    split.
    { intros addr' E. injection E as <-.
      eexists _, _. split; [reflexivity |].
      rewrite !lookup_insert_eq. split; reflexivity. }
    split; [intros err E; discriminate E |].
    split; [exact Hold |].
    repeat split; intros l v Hl; apply Hkeep; exact Hl.
  - rewrite NewServer_refused. cbn [fst snd].
    eexists. split; [reflexivity |].
    simpl_world. rewrite !lookup_insert_eq.
    split; [auto |]. split; [reflexivity |]. split; [reflexivity |].
    split; [reflexivity |].
    split; [intros addr E; discriminate E |].
    split; [intros err' E; injection E as <-; reflexivity |].
    split; [exact Hold |].
    repeat split; intros l v Hl; apply Hkeep; exact Hl.
Qed.

(** ** The loop over the options *)

Lemma withServer_id s x c w :
  execs w !! srv_Exec s = Some x ->
  cass w !! srv_CAS s = Some c ->
  withServer s x c w = w.
Proof.
  intros Hx Hc. unfold withServer, with_cass, with_execs. simpl_world.
  rewrite (insert_id _ _ _ Hx), (insert_id _ _ _ Hc). destruct w; reflexivity.
Qed.

Lemma withServer_twice s x c x' c' w :
  withServer s x' c' (withServer s x c w) = withServer s x' c' w.
Proof.
  unfold withServer, with_cass, with_execs. simpl_world.
  rewrite !insert_insert_eq. reflexivity.
Qed.

Lemma withServer_lookup s x c w :
  execs (withServer s x c w) !! srv_Exec s = Some x /\
  cass (withServer s x c w) !! srv_CAS s = Some c /\
  acs (withServer s x c w) = acs w /\
  cmds (withServer s x c w) = cmds w /\
  listeners (withServer s x c w) = listeners w /\
  grpcs (withServer s x c w) = grpcs w.
Proof.
  unfold withServer. simpl_world. rewrite !lookup_insert_eq. repeat split.
Qed.

Lemma Apply_run (o : fakeOption) (ar : ActionResult) (s : Server) (w : World)
    (x : Exec) (c : CAS) :
  execs w !! srv_Exec s = Some x ->
  cass w !! srv_CAS s = Some c ->
  exists ar' x' c',
    Apply o ar s w = (Returned ar', withServer s x' c' w) /\
    same_but_outputs o x x'.
Proof.
  intros Hx Hc.
  destruct o as [f | o | o | o | o | b]; cbn [Apply].
  - eexists _, _, _. split; [exact (OutputFile_Apply_run f ar s w x c Hx Hc) |].
    repeat split.
  - eexists _, _, _. split; [exact (StdOut_Apply_run o ar s w x c Hx Hc) |].
    repeat split.
  - exists (with_StdoutRaw (bytes_of o) ar), x, c.
    rewrite (withServer_id s x c w Hx Hc). repeat split.
  - eexists _, _, _. split; [exact (StdErr_Apply_run o ar s w x c Hx Hc) |].
    repeat split.
  - exists (with_StderrRaw (bytes_of o) ar), x, c.
    rewrite (withServer_id s x c w Hx Hc). repeat split.
  - exists ar, (with_Cached b x), c. split; [| repeat split].
    unfold ExecutionCacheHit_Apply.
    run_bind (deref_Some execs _ _ _) Hx.
    unfold bind, store, ret, withServer. simpl_world.
    rewrite (insert_id _ _ _ Hc).
    unfold with_cass, with_execs. simpl_world. reflexivity.
Qed.

Lemma applyAll_run (s : Server) (opts : list fakeOption) :
  forall (ar : ActionResult) (w : World) (x : Exec) (c : CAS),
    execs w !! srv_Exec s = Some x ->
    cass w !! srv_CAS s = Some c ->
    exists ar' x' c',
      applyAll opts ar s w = (Returned ar', withServer s x' c' w) /\
      ex_ac x' = ex_ac x /\ ex_cas x' = ex_cas x /\
      ex_ActionResult x' = ex_ActionResult x /\ ex_Status x' = ex_Status x /\
      ex_Cached x' = default (ex_Cached x) (lastCacheHit opts).
Proof.
  induction opts as [| o rest IH]; intros ar w x c Hx Hc.
  - exists ar, x, c. rewrite (withServer_id s x c w Hx Hc). repeat split.
  - destruct (Apply_run o ar s w x c Hx Hc)
      as (ar1 & x1 & c1 & E1 & Hac & Hcas & Har & Hst & Hca).
    destruct (withServer_lookup s x1 c1 w) as (Hx1 & Hc1 & _).
    destruct (IH ar1 _ x1 c1 Hx1 Hc1)
      as (ar2 & x2 & c2 & E2 & Hac2 & Hcas2 & Har2 & Hst2 & Hca2).
    exists ar2, x2, c2. cbn [applyAll].
    rewrite (bind_Returned _ _ _ _ _ E1), E2, withServer_twice.
    split; [reflexivity |].
    repeat split; try congruence.
    rewrite Hca2, Hca. cbn [lastCacheHit].
    destruct (lastCacheHit rest); [reflexivity |]. destruct o; reflexivity.
Qed.

(** ** The options, read as functions *)

Lemma Apply_pure (o : fakeOption) (ar : ActionResult) (s : Server) (w : World)
    (x : Exec) (c : CAS) :
  execs w !! srv_Exec s = Some x ->
  cass w !! srv_CAS s = Some c ->
  Apply o ar s w =
    (Returned (optionOnResult o ar),
     withServer s (optionOnExec o x) (optionOnCAS o c) w).
Proof.
  intros Hx Hc.
  destruct o as [f | o | o | o | o | b]; cbn [Apply optionOnResult].
  - exact (OutputFile_Apply_run f ar s w x c Hx Hc).
  - exact (StdOut_Apply_run o ar s w x c Hx Hc).
  - unfold optionOnExec, optionOnCAS. cbn [optionBytes].
    rewrite (withServer_id s x c w Hx Hc). reflexivity.
  - exact (StdErr_Apply_run o ar s w x c Hx Hc).
  - unfold optionOnExec, optionOnCAS. cbn [optionBytes].
    rewrite (withServer_id s x c w Hx Hc). reflexivity.
  - unfold ExecutionCacheHit_Apply, optionOnExec, optionOnCAS. cbn [optionBytes].
    run_bind (deref_Some execs _ _ _) Hx.
    unfold bind, store, ret, withServer. simpl_world.
    rewrite (insert_id _ _ _ Hc).
    unfold with_cass, with_execs. simpl_world. reflexivity.
Qed.

Lemma applyAll_pure (s : Server) (opts : list fakeOption) :
  forall (ar : ActionResult) (w : World) (x : Exec) (c : CAS),
    execs w !! srv_Exec s = Some x ->
    cass w !! srv_CAS s = Some c ->
    applyAll opts ar s w =
      (Returned (foldl (fun a o => optionOnResult o a) ar opts),
       withServer s (foldl (fun a o => optionOnExec o a) x opts)
         (foldl (fun a o => optionOnCAS o a) c opts) w).
Proof.
  induction opts as [| o rest IH]; intros ar w x c Hx Hc.
  - cbn [applyAll foldl]. rewrite (withServer_id s x c w Hx Hc). reflexivity.
  - cbn [applyAll foldl].
    rewrite (bind_Returned _ _ _ _ _ (Apply_pure o ar s w x c Hx Hc)).
    destruct (withServer_lookup s (optionOnExec o x) (optionOnCAS o c) w)
      as (Hx1 & Hc1 & _).
    rewrite (IH _ _ _ _ Hx1 Hc1), withServer_twice. reflexivity.
Qed.

Lemma last_omap_cons {A} (g : fakeOption -> option A) o rest :
  last (omap g (o :: rest))
  = match last (omap g rest) with Some y => Some y | None => g o end.
Proof.
  change (omap g (o :: rest))
    with (match g o with Some y => y :: omap g rest | None => omap g rest end).
  destruct (g o); [rewrite last_cons |]; destruct (last (omap g rest)); reflexivity.
Qed.

Lemma omap_option_cons {A} (g : fakeOption -> option A) o rest :
  omap g (o :: rest) = from_option (fun y => [y]) [] (g o) ++ omap g rest.
Proof.
  change (omap g (o :: rest))
    with (match g o with Some y => y :: omap g rest | None => omap g rest end).
  destruct (g o); reflexivity.
Qed.

Lemma foldOnResult_fields (opts : list fakeOption) :
  forall ar : ActionResult,
    let ar' := foldl (fun a o => optionOnResult o a) ar opts in
    ExitCode ar' = ExitCode ar /\
    OutputFiles ar' = OutputFiles ar ++ omap optionOutputFile opts /\
    StdoutDigest ar'
      = from_option Some (StdoutDigest ar) (last (omap optionStdoutDigest opts)) /\
    StdoutRaw ar' = default (StdoutRaw ar) (last (omap optionStdoutRaw opts)) /\
    StderrDigest ar'
      = from_option Some (StderrDigest ar) (last (omap optionStderrDigest opts)) /\
    StderrRaw ar' = default (StderrRaw ar) (last (omap optionStderrRaw opts)).
Proof.
  induction opts as [| o rest IH]; intros ar.
  - cbn. rewrite app_nil_r. repeat split.
  - cbn [foldl]. cbn zeta.
    destruct (IH (optionOnResult o ar)) as (He & Hf & Hod & Hor & Hed & Her).
    rewrite He, Hf, Hod, Hor, Hed, Her. clear.
    rewrite !last_omap_cons, omap_option_cons.
    destruct (last (omap optionStdoutDigest rest)),
             (last (omap optionStdoutRaw rest)),
             (last (omap optionStderrDigest rest)),
             (last (omap optionStderrRaw rest));
      destruct o as [f | b | b | b | b | b];
      cbn; rewrite <- ?app_assoc; repeat split.
Qed.

Lemma foldOnExec_fields (opts : list fakeOption) :
  forall x : Exec,
    let x' := foldl (fun a o => optionOnExec o a) x opts in
    ex_OutputBlobs x' = ex_OutputBlobs x ++ omap optionBytes opts /\
    ex_ac x' = ex_ac x /\ ex_cas x' = ex_cas x /\
    ex_ActionResult x' = ex_ActionResult x /\ ex_Status x' = ex_Status x /\
    ex_Cached x' = default (ex_Cached x) (lastCacheHit opts).
Proof.
  induction opts as [| o rest IH]; intros x.
  - cbn. rewrite app_nil_r. repeat split.
  - cbn [foldl]. cbn zeta.
    destruct (IH (optionOnExec o x)) as (Hb & Hac & Hcas & Har & Hst & Hca).
    rewrite Hb, Hac, Hcas, Har, Hst, Hca. clear.
    rewrite omap_option_cons. cbn [lastCacheHit].
    destruct (lastCacheHit rest);
      destruct o as [f | o | o | o | o | o];
      cbn; rewrite <- ?app_assoc; repeat split.
Qed.

Lemma foldOnCAS_lookup (opts : list fakeOption) (d : Digest) :
  forall c : CAS,
    blobs (foldl (fun a o => optionOnCAS o a) c opts) !! d
    = match last (filter (fun b => NewFromBlob b = d) (omap optionBytes opts)) with
      | Some b => Some b
      | None => blobs c !! d
      end.
Proof.
  induction opts as [| o rest IH]; intros c.
  - reflexivity.
  - cbn [foldl]. rewrite IH. unfold optionOnCAS.
    destruct (optionBytes o) as [b |] eqn:Hb.
    + replace (omap optionBytes (o :: rest)) with (b :: omap optionBytes rest)
        by (simpl; rewrite Hb; reflexivity).
      rewrite filter_cons. cbn [blobs].
      destruct (decide (NewFromBlob b = d)) as [Hd | Hd].
      * rewrite last_cons.
        destruct (last (filter _ (omap optionBytes rest))); [reflexivity |].
        rewrite <- Hd. apply lookup_insert_eq.
      * destruct (last (filter _ (omap optionBytes rest))); [reflexivity |].
        apply lookup_insert_ne. exact Hd.
    + replace (omap optionBytes (o :: rest)) with (omap optionBytes rest)
        by (simpl; rewrite Hb; reflexivity).
      reflexivity.
Qed.

Lemma applyAll_applied (s : Server) (opts : list fakeOption) :
  forall ar w ar' w',
    applyAll opts ar s w = (Returned ar', w') ->
    applied_in_order s opts ar w ar' w'.
Proof.
  induction opts as [| o rest IH]; intros ar w ar' w' E; cbn [applyAll] in E.
  - unfold ret in E. injection E as <- <-. constructor.
  - unfold bind in E.
    destruct (Apply o ar s w) as [[ar1 | t f err |] w1] eqn:E1;
      try discriminate E.
    econstructor; [exact E1 | exact (IH _ _ _ _ E)].
Qed.

(** ** Running Set *)

Lemma Set_defaults_first e cmd opt res opts w c0 :
  cmds w !! cmd = Some c0 ->
  let c := FillDefaultFieldValues c0 in
  TestEnv_Set e cmd opt res opts w =
    match BuildTreeFromInputs (cmd_ExecRoot c) (cmd_InputSpec c) with
    | inr err =>
        (FailNow (te_t e) "error building input tree in fake setup: %v" err,
         defaulted cmd c0 w)
    | inl ft =>
        match PackageTree ft with
        | inr err =>
            (FailNow (te_t e) "error building input tree in fake setup: %v" err,
             defaulted cmd c0 w)
        | inl (root, _) => configure e c root opt res opts (defaulted cmd c0 w)
        end
    end.
Proof.
  intros Hc c. unfold TestEnv_Set.
  run_bind (deref_Some cmds _ _ _) Hc.
  unfold bind at 1, store at 1. cbn iota beta.
  run_bind (deref_Some cmds _ _ _) by (simpl_world; apply lookup_insert_eq).
  fold c. fold (defaulted cmd c0 w).
  destruct (BuildTreeFromInputs (cmd_ExecRoot c) (cmd_InputSpec c)) as [ft | err].
  - destruct (PackageTree ft) as [[root bl] | err]; reflexivity.
  - reflexivity.
Qed.

Lemma configureStatus_run s res acDg ar w x a :
  execs w !! srv_Exec s = Some x ->
  acs w !! srv_ActionCache s = Some a ->
  configureStatus s res acDg ar w =
    (Returned tt,
     match res_Status res with
     | TimeoutResultStatus =>
         with_execs
           (<[srv_Exec s := with_Status (Some (status_New DeadlineExceeded "timeout")) x]>
              (execs w)) w
     | RemoteErrorResultStatus =>
         with_execs
           (<[srv_Exec s :=
                with_Status
                  (if snd (FromError (res_Err res)) then fst (FromError (res_Err res))
                   else Some (status_New Internal "remote error")) x]> (execs w)) w
     | CacheHitResultStatus =>
         if ex_Cached x then w
         else with_acs
                (<[srv_ActionCache s := {| results := <[acDg := ar]> (results a) |}]>
                   (acs w)) w
     | _ => w
     end).
Proof.
  intros Hx Ha. unfold configureStatus.
  destruct (res_Status res); try reflexivity.
  - run_bind (deref_Some execs _ _ _) Hx.
    destruct (ex_Cached x); cbn [negb]; [reflexivity |].
    unfold ActionCache_Put. run_bind (deref_Some acs _ _ _) Ha. reflexivity.
  - run_bind (deref_Some execs _ _ _) Hx. reflexivity.
  - destruct (FromError (res_Err res)) as [st ok]. cbn [fst snd].
    run_bind (deref_Some execs _ _ _) Hx. destruct ok; reflexivity.
Qed.

(** Set on a server whose components are allocated, for a command whose
    input tree builds: the options run, the result is stored in the Exec,
    the status is configured, and the two digests are returned. *)
Lemma configure_run e c root opt res opts w x cs a :
  execs w !! srv_Exec (te_Server e) = Some x ->
  cass w !! srv_CAS (te_Server e) = Some cs ->
  acs w !! srv_ActionCache (te_Server e) = Some a ->
  exists ar x1 c1 w',
    applyAll opts (newActionResult res) (te_Server e) w
      = (Returned ar, withServer (te_Server e) x1 c1 w) /\
    (ex_ac x1 = ex_ac x /\ ex_cas x1 = ex_cas x /\
     ex_ActionResult x1 = ex_ActionResult x /\ ex_Status x1 = ex_Status x /\
     ex_Cached x1 = default (ex_Cached x) (lastCacheHit opts)) /\
    configureStatus (te_Server e) res
      (TestNewFromMessage (buildAction c root opt)) ar
      (withServer (te_Server e) (with_ActionResult (Some ar) x1) c1 w)
      = (Returned tt, w') /\
    configure e c root opt res opts w =
      (Returned (TestNewFromMessage (ToREProto c),
                 TestNewFromMessage (buildAction c root opt)), w').
Proof.
  intros Hx Hc Ha.
  destruct (applyAll_run (te_Server e) opts (newActionResult res) w x cs Hx Hc)
    as (ar & x1 & c1 & Eall & Hsame).
  destruct (withServer_lookup (te_Server e) x1 c1 w) as (Hx1 & Hc1 & Ha1 & _).
  destruct (withServer_lookup (te_Server e) (with_ActionResult (Some ar) x1) c1 w)
    as (Hx2 & Hc2 & Ha2 & _).
  rewrite <- Ha2 in Ha.
  pose proof (configureStatus_run (te_Server e) res
                (TestNewFromMessage (buildAction c root opt)) ar _ _ _ Hx2 Ha) as Est.
  eexists ar, x1, c1, _. split; [exact Eall |]. split; [exact Hsame |].
  split; [exact Est |].
  unfold configure. cbn zeta.
  rewrite (bind_Returned _ _ _ _ _ Eall).
  run_bind (deref_Some execs _ _ _) Hx1.
  unfold bind at 1, store at 1. cbn iota beta.
  replace (with_execs _ _)
    with (withServer (te_Server e) (with_ActionResult (Some ar) x1) c1 w).
  - rewrite (bind_Returned _ _ _ _ _ Est). reflexivity.
  - unfold withServer, with_cass, with_execs. simpl_world.
    rewrite insert_insert_eq. reflexivity.
Qed.

Lemma applyAll_app (s : Server) (os1 os2 : list fakeOption) :
  forall (ar : ActionResult) (w : World),
    applyAll (os1 ++ os2) ar s w =
      bind (applyAll os1 ar s) (fun ar1 => applyAll os2 ar1 s) w.
Proof.
  induction os1 as [| o rest IH]; intros ar w.
  - reflexivity.
  - cbn [app applyAll]. rewrite bind_assoc. unfold bind at 1 2.
    destruct (Apply o ar s w) as [[ar1 | t f err |] w1]; [apply IH | reflexivity ..].
Qed.

Lemma buildAction_fields (c : Command) (root : Digest) (opt : ExecutionOptions) :
  buildAction c root opt =
    {| CommandDigest := Some (ToProto (TestNewFromMessage (ToREProto c)));
       InputRootDigest := Some (ToProto root);
       Timeout := if 0 <? cmd_Timeout c
                  then Some (DurationProto (cmd_Timeout c)) else None;
       DoNotCache := eo_DoNotCache opt |}.
Proof. unfold buildAction. destruct (0 <? cmd_Timeout c); reflexivity. Qed.

(** Set on an allocated server and a command whose input tree builds. *)
Lemma Set_run e cmd opt res opts w c0 x cs a ft root bl :
  cmds w !! cmd = Some c0 ->
  execs w !! srv_Exec (te_Server e) = Some x ->
  cass w !! srv_CAS (te_Server e) = Some cs ->
  acs w !! srv_ActionCache (te_Server e) = Some a ->
  BuildTreeFromInputs (cmd_ExecRoot (FillDefaultFieldValues c0))
    (cmd_InputSpec (FillDefaultFieldValues c0)) = inl ft ->
  PackageTree ft = inl (root, bl) ->
  let c := FillDefaultFieldValues c0 in
  let acDg := TestNewFromMessage (buildAction c root opt) in
  exists ar x1 c1 w',
    applyAll opts (newActionResult res) (te_Server e) (defaulted cmd c0 w)
      = (Returned ar, withServer (te_Server e) x1 c1 (defaulted cmd c0 w)) /\
    (ex_ac x1 = ex_ac x /\ ex_cas x1 = ex_cas x /\
     ex_ActionResult x1 = ex_ActionResult x /\ ex_Status x1 = ex_Status x /\
     ex_Cached x1 = default (ex_Cached x) (lastCacheHit opts)) /\
    configureStatus (te_Server e) res acDg ar
      (withServer (te_Server e) (with_ActionResult (Some ar) x1) c1
         (defaulted cmd c0 w))
      = (Returned tt, w') /\
    TestEnv_Set e cmd opt res opts w =
      (Returned (TestNewFromMessage (ToREProto c), acDg), w').
Proof.
  intros Hcmd Hx Hc Ha Hft Hroot c acDg.
  rewrite (Set_defaults_first e cmd opt res opts w c0 Hcmd). cbn zeta.
  rewrite Hft, Hroot.
  apply (configure_run e c root opt res opts (defaulted cmd c0 w) x cs a Hx Hc Ha).
Qed.

(** C1: on a Set call whose result status is CacheHit, once the options
    have been applied: if Exec.Cached is false, Set writes the assembled
    ActionResult (the one it also stores in the Exec) into the ActionCache
    of the server under the returned Action digest; if Exec.Cached is
    true, the ActionCache store is after the call what it was before. *)
Theorem Set_cache_hit_populates_ActionCache_unless_Cached
    e cmd opt res opts w c0 x cs a ft root bl :
  cmds w !! cmd = Some c0 ->
  execs w !! srv_Exec (te_Server e) = Some x ->
  cass w !! srv_CAS (te_Server e) = Some cs ->
  acs w !! srv_ActionCache (te_Server e) = Some a ->
  BuildTreeFromInputs (cmd_ExecRoot (FillDefaultFieldValues c0))
    (cmd_InputSpec (FillDefaultFieldValues c0)) = inl ft ->
  PackageTree ft = inl (root, bl) ->
  res_Status res = CacheHitResultStatus ->
  exists ar w1 x1 cmdDg acDg w' x',
    applyAll opts (newActionResult res) (te_Server e) (defaulted cmd c0 w)
      = (Returned ar, w1) /\
    execs w1 !! srv_Exec (te_Server e) = Some x1 /\
    TestEnv_Set e cmd opt res opts w = (Returned (cmdDg, acDg), w') /\
    execs w' !! srv_Exec (te_Server e) = Some x' /\
    ex_ActionResult x' = Some ar /\
    (ex_Cached x1 = false ->
       acs w' = <[srv_ActionCache (te_Server e) :=
                    {| results := <[acDg := ar]> (results a) |}]> (acs w) /\
       results <$> (acs w' !! srv_ActionCache (te_Server e))
         = Some (<[acDg := ar]> (results a)) /\
       <[acDg := ar]> (results a) !! acDg = Some ar) /\
    (ex_Cached x1 = true -> acs w' = acs w).
Proof.
  intros Hcmd Hx Hc Ha Hft Hroot Hst.
  destruct (Set_run e cmd opt res opts w c0 x cs a ft root bl
              Hcmd Hx Hc Ha Hft Hroot)
    as (ar & x1 & c1 & w' & Eall & _ & Est & Eset).
  set (s := te_Server e) in *. set (w0 := defaulted cmd c0 w) in *.
  destruct (withServer_lookup s x1 c1 w0) as (Hx1 & _).
  destruct (withServer_lookup s (with_ActionResult (Some ar) x1) c1 w0)
    as (Hx2 & _ & Ha2 & _).
  assert (Ha' : acs (withServer s (with_ActionResult (Some ar) x1) c1 w0)
                  !! srv_ActionCache s = Some a) by (rewrite Ha2; exact Ha).
  rewrite (configureStatus_run s res _ ar _ _ a Hx2 Ha'), Hst in Est.
  cbn [ex_Cached with_ActionResult] in Est.
  injection Est as <-.
  exists ar, (withServer s x1 c1 w0), x1. eexists _, _, _, (with_ActionResult (Some ar) x1).
  split; [exact Eall |]. split; [exact Hx1 |]. split; [exact Eset |].
  destruct (ex_Cached x1).
  - split; [exact Hx2 |]. split; [reflexivity |].
    split; [intros E; discriminate E |]. intros _. exact Ha2.
  - simpl_world. split; [exact Hx2 |]. split; [reflexivity |].
    split; [| intros E; discriminate E]. intros _.
    rewrite !lookup_insert_eq. repeat split.
Qed.

(** C2: the Action whose digest Set returns as acDg holds exactly the digest
    of the command as CommandDigest, the root digest of the packaged input
    tree as InputRootDigest and opt.DoNotCache as DoNotCache; its Timeout is
    set if and only if cmd.Timeout > 0; and whatever the result and the
    options, the digest returned is the digest of this Action. *)
Theorem Set_returns_the_digest_of_the_Action
    e cmd opt res opts w c0 x cs a ft root bl :
  cmds w !! cmd = Some c0 ->
  execs w !! srv_Exec (te_Server e) = Some x ->
  cass w !! srv_CAS (te_Server e) = Some cs ->
  acs w !! srv_ActionCache (te_Server e) = Some a ->
  BuildTreeFromInputs (cmd_ExecRoot (FillDefaultFieldValues c0))
    (cmd_InputSpec (FillDefaultFieldValues c0)) = inl ft ->
  PackageTree ft = inl (root, bl) ->
  let c := FillDefaultFieldValues c0 in
  exists (ac : Action) (cmdDg acDg : Digest) (w' : World),
    TestEnv_Set e cmd opt res opts w = (Returned (cmdDg, acDg), w') /\
    cmdDg = TestNewFromMessage (ToREProto c) /\
    acDg = TestNewFromMessage ac /\
    CommandDigest ac = Some (ToProto cmdDg) /\
    InputRootDigest ac = Some (ToProto root) /\
    DoNotCache ac = eo_DoNotCache opt /\
    (Timeout ac <> None <-> 0 < cmd_Timeout c) /\
    (0 < cmd_Timeout c -> Timeout ac = Some (DurationProto (cmd_Timeout c))).
Proof.
  intros Hcmd Hx Hc Ha Hft Hroot c.
  destruct (Set_run e cmd opt res opts w c0 x cs a ft root bl
              Hcmd Hx Hc Ha Hft Hroot)
    as (ar & x1 & c1 & w' & _ & _ & _ & Eset).
  exists (buildAction c root opt). eexists _, _, w'.
  split; [exact Eset |]. split; [reflexivity |]. split; [reflexivity |].
  rewrite buildAction_fields. cbn [CommandDigest InputRootDigest DoNotCache Timeout].
  split; [reflexivity |]. split; [reflexivity |]. split; [reflexivity |].
  destruct (Z.ltb_spec 0 (cmd_Timeout c)) as [Hpos | Hneg].
  - split; [split; [intros _; exact Hpos | intros _; discriminate] |].
    intros _. reflexivity.
  - split; [split; [intros Habs; contradiction Habs; reflexivity | lia] | lia].
Qed.

(** C3: a Timeout result makes Set put in the Exec a status whose code is
    DeadlineExceeded and whose message is "timeout"; a RemoteError result
    makes it put there the status that status.FromError extracts from
    res.Err when the conversion succeeds, and a status whose code is Internal
    and whose message is "remote error" when it does not; and a LocalError or an
    Interrupted result configures nothing: Set then leaves the Exec status and
    the ActionCache as they were and does exactly what it does for a Success
    result. *)
Theorem Set_configures_timeout_and_remote_error_statuses_only
    e cmd opt res opts w c0 x cs a ft root bl :
  cmds w !! cmd = Some c0 ->
  execs w !! srv_Exec (te_Server e) = Some x ->
  cass w !! srv_CAS (te_Server e) = Some cs ->
  acs w !! srv_ActionCache (te_Server e) = Some a ->
  BuildTreeFromInputs (cmd_ExecRoot (FillDefaultFieldValues c0))
    (cmd_InputSpec (FillDefaultFieldValues c0)) = inl ft ->
  PackageTree ft = inl (root, bl) ->
  exists (dgs : Digest * Digest) (w' : World) (x' : Exec),
    TestEnv_Set e cmd opt res opts w = (Returned dgs, w') /\
    execs w' !! srv_Exec (te_Server e) = Some x' /\
    (res_Status res = TimeoutResultStatus ->
       ex_Status x' = Some (status_New DeadlineExceeded "timeout") /\
       st_code <$> ex_Status x' = Some DeadlineExceeded /\
       st_message <$> ex_Status x' = Some "timeout"%string) /\
    (res_Status res = RemoteErrorResultStatus ->
       forall st : option Status,
         (FromError (res_Err res) = (st, true) -> ex_Status x' = st) /\
         (FromError (res_Err res) = (st, false) ->
            ex_Status x' = Some (status_New Internal "remote error") /\
            st_code <$> ex_Status x' = Some Internal /\
            st_message <$> ex_Status x' = Some "remote error"%string)) /\
    (res_Status res = LocalErrorResultStatus \/
     res_Status res = InterruptedResultStatus ->
       ex_Status x' = ex_Status x /\ acs w' = acs w /\
       TestEnv_Set e cmd opt res opts w =
         TestEnv_Set e cmd opt (with_res_Status SuccessResultStatus res) opts w).
Proof.
  intros Hcmd Hx Hc Ha Hft Hroot.
  destruct (Set_run e cmd opt res opts w c0 x cs a ft root bl
              Hcmd Hx Hc Ha Hft Hroot)
    as (ar & x1 & c1 & w' & _ & (_ & _ & _ & Hst1 & _) & Est & Eset).
  set (s := te_Server e) in *. set (w0 := defaulted cmd c0 w) in *.
  destruct (withServer_lookup s (with_ActionResult (Some ar) x1) c1 w0)
    as (Hx2 & _ & Ha2 & _).
  assert (Ha' : acs (withServer s (with_ActionResult (Some ar) x1) c1 w0)
                  !! srv_ActionCache s = Some a) by (rewrite Ha2; exact Ha).
  rewrite (configureStatus_run s res _ ar _ _ a Hx2 Ha') in Est.
  assert (Hsame : res_Status res = LocalErrorResultStatus \/
                  res_Status res = InterruptedResultStatus ->
                  TestEnv_Set e cmd opt res opts w =
                    TestEnv_Set e cmd opt (with_res_Status SuccessResultStatus res)
                      opts w).
  { intros Hs.
    rewrite !(Set_defaults_first e cmd opt _ opts w c0 Hcmd). cbn zeta.
    rewrite Hft, Hroot. unfold configure, configureStatus, newActionResult.
    cbn [res_Status res_ExitCode with_res_Status].
    destruct Hs as [-> | ->]; reflexivity. }
  destruct (res_Status res) eqn:Hs; injection Est as <-.
  - (* Success *)
    eexists _, _, _. split; [exact Eset |]. split; [exact Hx2 |].
    split; [intros E; discriminate E |]. split; [intros E; discriminate E |].
    intros [E | E]; discriminate E.
  - (* CacheHit *)
    exists (TestNewFromMessage (ToREProto (FillDefaultFieldValues c0)),
            TestNewFromMessage (buildAction (FillDefaultFieldValues c0) root opt)).
    eexists _, (with_ActionResult (Some ar) x1). split; [exact Eset |].
    split.
    { cbn [ex_Cached with_ActionResult]. destruct (ex_Cached x1); exact Hx2. }
    split; [intros E; discriminate E |]. split; [intros E; discriminate E |].
    intros [E | E]; discriminate E.
  - (* Timeout *)
    eexists _, _, _. split; [exact Eset |].
    split; [simpl_world; apply lookup_insert_eq |].
    split; [intros _; repeat split |]. split; [intros E; discriminate E |].
    intros [E | E]; discriminate E.
  - (* RemoteError *)
    eexists _, _, _. split; [exact Eset |].
    split; [simpl_world; apply lookup_insert_eq |].
    split; [intros E; discriminate E |].
    split; [| intros [E | E]; discriminate E].
    intros _ st. cbn [ex_Status with_Status].
    split; intros E; rewrite E; [reflexivity | repeat split].
  - (* LocalError *)
    eexists _, _, _. split; [exact Eset |]. split; [exact Hx2 |].
    split; [intros E; discriminate E |]. split; [intros E; discriminate E |].
    intros _. split; [exact Hst1 |]. split; [exact Ha2 |].
    apply Hsame. left. reflexivity.
  - (* Interrupted *)
    eexists _, _, _. split; [exact Eset |]. split; [exact Hx2 |].
    split; [intros E; discriminate E |]. split; [intros E; discriminate E |].
    intros _. split; [exact Hst1 |]. split; [exact Ha2 |].
    apply Hsame. right. reflexivity.
Qed.

(** ** What Set leaves alone *)

Lemma keeps_ret {A} (a : A) : keeps_cmds (ret a).
Proof. intros w. reflexivity. Qed.

Lemma keeps_bind {A B} (m : M A) (k : A -> M B) :
  keeps_cmds m -> (forall a, keeps_cmds (k a)) -> keeps_cmds (bind m k).
Proof.
  intros Hm Hk w. unfold bind. specialize (Hm w).
  destruct (m w) as [[a | t f err |] w1]; cbn [snd] in *;
    [rewrite (Hk a w1) | ..]; exact Hm.
Qed.

Lemma keeps_deref {V} (sel : World -> gmap loc V) l : keeps_cmds (deref sel l).
Proof. intros w. unfold deref. destruct (sel w !! l); reflexivity. Qed.

Lemma keeps_store {V} (sel : World -> gmap loc V) upd l (v : V) :
  (forall m w, cmds (upd m w) = cmds w) -> keeps_cmds (store sel upd l v).
Proof. intros Hupd w. unfold store. cbn [snd]. apply Hupd. Qed.

Create HintDb keeps.
#[local] Hint Resolve keeps_ret keeps_deref : keeps.
#[local] Hint Extern 2 (keeps_cmds (bind _ _)) =>
  apply keeps_bind; [| intros ?] : keeps.
#[local] Hint Extern 2 (keeps_cmds (store _ _ _ _)) =>
  apply keeps_store; intros ? ?; reflexivity : keeps.

Lemma keeps_Apply o ar s : keeps_cmds (Apply o ar s).
Proof.
  destruct o; cbn [Apply];
    unfold OutputFile_Apply, StdOut_Apply, StdOutRaw_Apply, StdErr_Apply,
      StdErrRaw_Apply, ExecutionCacheHit_Apply, appendOutputBlob, CAS_Put;
    auto 10 with keeps.
Qed.

Lemma keeps_applyAll opts s : forall ar, keeps_cmds (applyAll opts ar s).
Proof.
  induction opts as [| o rest IH]; intros ar; cbn [applyAll].
  - apply keeps_ret.
  - apply keeps_bind; [apply keeps_Apply | exact IH].
Qed.

Lemma keeps_configureStatus s res acDg ar :
  keeps_cmds (configureStatus s res acDg ar).
Proof.
  unfold configureStatus, ActionCache_Put.
  destruct (res_Status res); auto with keeps.
  - apply keeps_bind; [auto with keeps |]. intros x.
    destruct (negb (ex_Cached x)); auto 10 with keeps.
  - destruct (FromError (res_Err res)) as [st ok]. auto 10 with keeps.
Qed.

Lemma keeps_configure e c root opt res opts :
  keeps_cmds (configure e c root opt res opts).
Proof.
  unfold configure. cbn zeta.
  apply keeps_bind; [apply keeps_applyAll |]. intros ar.
  apply keeps_bind; [auto with keeps |]. intros x.
  apply keeps_bind; [auto with keeps |]. intros _.
  apply keeps_bind; [apply keeps_configureStatus |]. intros _.
  apply keeps_ret.
Qed.

(** C10: Set calls cmd.FillDefaultFieldValues() on the command its caller
    passed by pointer before anything else: however the call ends, the
    caller's command is afterwards the defaulted one, which is not the
    command passed whenever a default was missing; the input tree is built
    from the defaulted command, and the command digest that Set returns is
    the digest of the defaulted command. *)
Theorem Set_fills_the_defaults_of_the_callers_command
    e cmd opt res opts w c0 :
  cmds w !! cmd = Some c0 ->
  let c := FillDefaultFieldValues c0 in
  cmds (snd (TestEnv_Set e cmd opt res opts w)) = <[cmd := c]> (cmds w) /\
  cmds (snd (TestEnv_Set e cmd opt res opts w)) !! cmd = Some c /\
  (c <> c0 -> cmds (snd (TestEnv_Set e cmd opt res opts w)) !! cmd <> Some c0) /\
  (forall err,
     BuildTreeFromInputs (cmd_ExecRoot c) (cmd_InputSpec c) = inr err ->
     fst (TestEnv_Set e cmd opt res opts w) =
       FailNow (te_t e) "error building input tree in fake setup: %v" err) /\
  (forall x cs a ft root bl,
     execs w !! srv_Exec (te_Server e) = Some x ->
     cass w !! srv_CAS (te_Server e) = Some cs ->
     acs w !! srv_ActionCache (te_Server e) = Some a ->
     BuildTreeFromInputs (cmd_ExecRoot c) (cmd_InputSpec c) = inl ft ->
     PackageTree ft = inl (root, bl) ->
     exists acDg,
       fst (TestEnv_Set e cmd opt res opts w) =
         Returned (TestNewFromMessage (ToREProto c), acDg)).
Proof.
  intros Hcmd c.
  assert (Hfinal : cmds (snd (TestEnv_Set e cmd opt res opts w))
                   = <[cmd := c]> (cmds w)).
  { rewrite (Set_defaults_first e cmd opt res opts w c0 Hcmd). cbn zeta. fold c.
    destruct (BuildTreeFromInputs (cmd_ExecRoot c) (cmd_InputSpec c))
      as [ft | err]; [| reflexivity].
    destruct (PackageTree ft) as [[root bl] | err]; [| reflexivity].
    rewrite (keeps_configure e c root opt res opts (defaulted cmd c0 w)).
    reflexivity. }
  split; [exact Hfinal |].
  split; [rewrite Hfinal; apply lookup_insert_eq |].
  split.
  { intros Hne. rewrite Hfinal, lookup_insert_eq. intros E. apply Hne.
    injection E as E. exact E. }
  split.
  - intros err Herr.
    rewrite (Set_defaults_first e cmd opt res opts w c0 Hcmd). cbn zeta. fold c.
    rewrite Herr. reflexivity.
  - intros x cs a ft root bl Hx Hc Ha Hft Hroot.
    destruct (Set_run e cmd opt res opts w c0 x cs a ft root bl
                Hcmd Hx Hc Ha Hft Hroot)
      as (ar & x1 & c1 & w' & _ & _ & _ & Eset).
    eexists. rewrite Eset. reflexivity.
Qed.

(** C7, amended: when BuildTreeFromInputs or PackageTree returns an error,
    Set reports a fatal test failure on its test with that error, which
    stops the call there: Set returns no pair of digests, and the CAS, the
    ActionCache, the Exec, the listeners and the gRPC servers are all as they
    were before the call. *)
Theorem Set_fails_the_test_when_the_input_tree_does_not_build
    e cmd opt res opts w c0 err :
  cmds w !! cmd = Some c0 ->
  let c := FillDefaultFieldValues c0 in
  (BuildTreeFromInputs (cmd_ExecRoot c) (cmd_InputSpec c) = inr err \/
   exists ft, BuildTreeFromInputs (cmd_ExecRoot c) (cmd_InputSpec c) = inl ft /\
              PackageTree ft = inr err) ->
  exists w',
    TestEnv_Set e cmd opt res opts w =
      (FailNow (te_t e) "error building input tree in fake setup: %v" err, w') /\
    (forall dgs : Digest * Digest,
       fst (TestEnv_Set e cmd opt res opts w) <> Returned dgs) /\
    cass w' = cass w /\ acs w' = acs w /\ execs w' = execs w /\
    listeners w' = listeners w /\ grpcs w' = grpcs w.
Proof.
  intros Hcmd c Herr.
  assert (E : TestEnv_Set e cmd opt res opts w =
              (FailNow (te_t e) "error building input tree in fake setup: %v" err,
               defaulted cmd c0 w)).
  { rewrite (Set_defaults_first e cmd opt res opts w c0 Hcmd). cbn zeta. fold c.
    destruct Herr as [-> | (ft & -> & ->)]; reflexivity. }
  exists (defaulted cmd c0 w). split; [exact E |].
  split; [intros dgs; rewrite E; discriminate |].
  repeat split.
Qed.

(** C8, amended: Set applies the options in the order given, each by its
    own Apply to the ActionResult and the server as the options before it
    left them (the options of any prefix are all applied before those of the
    rest), and only then stores the result and runs the switch on res.Status.
    So after the loop the Exec holds the bytes of the OutputFile, StdOut and
    StdErr options in option order after the blobs it held, the ActionResult
    lists the files of the OutputFile options in option order and has in each
    of its four output fields what the last option of its kind assigned, and
    the Cached flag that the switch reads is the one carried by the last
    ExecutionCacheHit option, or the flag the Exec had when there is none;
    the ActionResult that the call leaves in the Exec is the one the last
    option left. So on a Set call in which the last ExecutionCacheHit option
    is ExecutionCacheHit(true), the CacheHit branch reads Cached = true and
    the ActionCache store is not written. *)
Theorem Set_applies_the_options_in_order_before_the_switch
    e cmd opt res opts w c0 x cs a ft root bl :
  cmds w !! cmd = Some c0 ->
  execs w !! srv_Exec (te_Server e) = Some x ->
  cass w !! srv_CAS (te_Server e) = Some cs ->
  acs w !! srv_ActionCache (te_Server e) = Some a ->
  BuildTreeFromInputs (cmd_ExecRoot (FillDefaultFieldValues c0))
    (cmd_InputSpec (FillDefaultFieldValues c0)) = inl ft ->
  PackageTree ft = inl (root, bl) ->
  let s := te_Server e in
  let w0 := defaulted cmd c0 w in
  exists ar w1 x1 dgs w',
    applyAll opts (newActionResult res) s w0 = (Returned ar, w1) /\
    applied_in_order s opts (newActionResult res) w0 ar w1 /\
    (forall os1 os2, opts = os1 ++ os2 ->
       bind (applyAll os1 (newActionResult res) s)
         (fun ar1 => applyAll os2 ar1 s) w0 = (Returned ar, w1)) /\
    execs w1 !! srv_Exec s = Some x1 /\
    ex_OutputBlobs x1 = ex_OutputBlobs x ++ omap optionBytes opts /\
    (ExitCode ar = int32 (res_ExitCode res) /\
     OutputFiles ar = omap optionOutputFile opts /\
     StdoutDigest ar = last (omap optionStdoutDigest opts) /\
     StdoutRaw ar = default [] (last (omap optionStdoutRaw opts)) /\
     StderrDigest ar = last (omap optionStderrDigest opts) /\
     StderrRaw ar = default [] (last (omap optionStderrRaw opts))) /\
    ex_Cached x1 = default (ex_Cached x) (lastCacheHit opts) /\
    configureStatus s res (snd dgs) ar
      (with_execs (<[srv_Exec s := with_ActionResult (Some ar) x1]> (execs w1)) w1)
      = (Returned tt, w') /\
    TestEnv_Set e cmd opt res opts w = (Returned dgs, w') /\
    (exists x', execs w' !! srv_Exec s = Some x' /\
                ex_ActionResult x' = Some ar /\
                ex_OutputBlobs x' = ex_OutputBlobs x1 /\
                ex_Cached x' = ex_Cached x1) /\
    (lastCacheHit opts = Some true ->
     res_Status res = CacheHitResultStatus ->
     ex_Cached x1 = true /\ acs w' = acs w).
Proof.
  intros Hcmd Hx Hc Ha Hft Hroot s w0.
  destruct (Set_run e cmd opt res opts w c0 x cs a ft root bl
              Hcmd Hx Hc Ha Hft Hroot)
    as (ar & x1 & c1 & w' & Eall & (_ & _ & _ & _ & Hcached) & Est & Eset).
  fold s in Eall, Est. fold w0 in Eall, Est.
  destruct (withServer_lookup s x1 c1 w0) as (Hx1 & _).
  destruct (withServer_lookup s (with_ActionResult (Some ar) x1) c1 w0)
    as (Hx2 & _ & Ha2 & _).
  assert (Hsame : with_execs
                    (<[srv_Exec s := with_ActionResult (Some ar) x1]>
                       (execs (withServer s x1 c1 w0))) (withServer s x1 c1 w0)
                  = withServer s (with_ActionResult (Some ar) x1) c1 w0).
  { unfold withServer, with_cass, with_execs. simpl_world.
    rewrite insert_insert_eq. reflexivity. }
  assert (Hfold : ar = foldl (fun a o => optionOnResult o a) (newActionResult res) opts /\
                  x1 = foldl (fun a o => optionOnExec o a) x opts).
  { pose proof (applyAll_pure s opts (newActionResult res) w0 x cs Hx Hc) as Epure.
    rewrite Eall in Epure.
    pose proof (f_equal fst Epure) as Ear. cbn [fst] in Ear.
    injection Ear as Ear. split; [exact Ear |].
    pose proof (f_equal (fun p => execs (snd p) !! srv_Exec s) Epure) as E.
    cbn beta in E. cbn [snd] in E.
    destruct (withServer_lookup s (foldl (fun a o => optionOnExec o a) x opts)
                (foldl (fun a o => optionOnCAS o a) cs opts) w0) as (Hx3 & _).
    rewrite Hx1, Hx3 in E. injection E as E. exact E. }
  destruct Hfold as (Ear & Ex1).
  assert (Ha' : acs (withServer s (with_ActionResult (Some ar) x1) c1 w0)
                  !! srv_ActionCache s = Some a) by (rewrite Ha2; exact Ha).
  pose proof Est as Est'.
  rewrite (configureStatus_run s res _ ar _ _ a Hx2 Ha') in Est'.
  exists ar, (withServer s x1 c1 w0), x1.
  exists (TestNewFromMessage (ToREProto (FillDefaultFieldValues c0)),
          TestNewFromMessage (buildAction (FillDefaultFieldValues c0) root opt)).
  exists w'. cbn [snd].
  split; [exact Eall |].
  split; [exact (applyAll_applied s opts _ _ _ _ Eall) |].
  split; [intros os1 os2 ->; rewrite <- applyAll_app; exact Eall |].
  split; [exact Hx1 |].
  split.
  { rewrite Ex1. exact (proj1 (foldOnExec_fields opts x)). }
  split.
  { rewrite Ear.
    destruct (foldOnResult_fields opts (newActionResult res))
      as (He & Hf & Hod & Hor & Hed & Her).
    rewrite He, Hf, Hod, Hor, Hed, Her.
    cbn [newActionResult ExitCode OutputFiles StdoutDigest StdoutRaw StderrDigest
           StderrRaw app].
    repeat split;
      match goal with
      | |- context [last ?l] => destruct (last l); reflexivity
      | _ => reflexivity
      end. }
  split; [exact Hcached |].
  split; [rewrite Hsame; exact Est |].
  split; [exact Eset |].
  split.
  { injection Est' as <-.
    destruct (res_Status res).
    - eexists. split; [exact Hx2 |]. repeat split.
    - cbn [ex_Cached with_ActionResult]. destruct (ex_Cached x1) eqn:Hcx;
        simpl_world; eexists; (split; [exact Hx2 |]); repeat split;
        exact Hcx.
    - simpl_world. rewrite lookup_insert_eq. eexists.
      split; [reflexivity |]. repeat split.
    - simpl_world. rewrite lookup_insert_eq. eexists.
      split; [reflexivity |]. repeat split.
    - eexists. split; [exact Hx2 |]. repeat split.
    - eexists. split; [exact Hx2 |]. repeat split. }
  intros Hlast Hst.
  assert (Htrue : ex_Cached x1 = true) by (rewrite Hcached, Hlast; reflexivity).
  split; [exact Htrue |].
  rewrite Hst in Est'.
  cbn [ex_Cached with_ActionResult] in Est'. rewrite Htrue in Est'.
  injection Est' as <-. exact Ha2.
Qed.

(** C9: the digests that Set returns do not depend on the result or on the
    options: two Set calls that differ only in res and opts end the same way,
    and when they return, the Action digest is the digest of the Action built
    from the command, the input root and the execution options alone. *)
Theorem Set_digests_do_not_depend_on_the_result_or_the_options
    e cmd opt w c0 x cs a (res1 res2 : Result) (opts1 opts2 : list fakeOption) :
  cmds w !! cmd = Some c0 ->
  execs w !! srv_Exec (te_Server e) = Some x ->
  cass w !! srv_CAS (te_Server e) = Some cs ->
  acs w !! srv_ActionCache (te_Server e) = Some a ->
  let c := FillDefaultFieldValues c0 in
  fst (TestEnv_Set e cmd opt res1 opts1 w)
    = fst (TestEnv_Set e cmd opt res2 opts2 w) /\
  (forall ft root bl,
     BuildTreeFromInputs (cmd_ExecRoot c) (cmd_InputSpec c) = inl ft ->
     PackageTree ft = inl (root, bl) ->
     fst (TestEnv_Set e cmd opt res1 opts1 w) =
       Returned (TestNewFromMessage (ToREProto c),
                 TestNewFromMessage (buildAction c root opt))).
Proof.
  intros Hcmd Hx Hc Ha c.
  assert (Hout : forall res opts ft root bl,
             BuildTreeFromInputs (cmd_ExecRoot c) (cmd_InputSpec c) = inl ft ->
             PackageTree ft = inl (root, bl) ->
             fst (TestEnv_Set e cmd opt res opts w) =
               Returned (TestNewFromMessage (ToREProto c),
                         TestNewFromMessage (buildAction c root opt))).
  { intros res opts ft root bl Hft Hroot.
    destruct (Set_run e cmd opt res opts w c0 x cs a ft root bl
                Hcmd Hx Hc Ha Hft Hroot)
      as (ar & x1 & c1 & w' & _ & _ & _ & Eset).
    rewrite Eset. reflexivity. }
  split; [| apply Hout].
  destruct (BuildTreeFromInputs (cmd_ExecRoot c) (cmd_InputSpec c))
    as [ft | err] eqn:Hft.
  - destruct (PackageTree ft) as [[root bl] | err] eqn:Hroot.
    + rewrite (Hout res1 opts1 ft root bl eq_refl Hroot).
      rewrite (Hout res2 opts2 ft root bl eq_refl Hroot). reflexivity.
    + rewrite !(Set_defaults_first e cmd opt _ _ w c0 Hcmd). cbn zeta. fold c.
      rewrite Hft, Hroot. reflexivity.
  - rewrite !(Set_defaults_first e cmd opt _ _ w c0 Hcmd). cbn zeta. fold c.
    rewrite Hft. reflexivity.
Qed.

(** ** The options, composed *)

(** X1: the options compose into the ActionResult in the order given: the
    exit code is never changed; each OutputFile option appends its entry, so
    OutputFiles lists the files in option order after those already there;
    each of StdoutDigest, StdoutRaw, StderrDigest and StderrRaw holds what
    the last option of its kind assigned, and what it held before when
    there is none, so a StdOut option does not erase StdoutRaw nor the
    reverse. *)
Theorem applyAll_composes_the_ActionResult
    (s : Server) (opts : list fakeOption) (ar : ActionResult) (w : World)
    (x : Exec) (c : CAS) :
  execs w !! srv_Exec s = Some x ->
  cass w !! srv_CAS s = Some c ->
  exists ar' w',
    applyAll opts ar s w = (Returned ar', w') /\
    ExitCode ar' = ExitCode ar /\
    OutputFiles ar' = OutputFiles ar ++ omap optionOutputFile opts /\
    StdoutDigest ar'
      = from_option Some (StdoutDigest ar) (last (omap optionStdoutDigest opts)) /\
    StdoutRaw ar' = default (StdoutRaw ar) (last (omap optionStdoutRaw opts)) /\
    StderrDigest ar'
      = from_option Some (StderrDigest ar) (last (omap optionStderrDigest opts)) /\
    StderrRaw ar' = default (StderrRaw ar) (last (omap optionStderrRaw opts)).
Proof.
  intros Hx Hc. eexists _, _.
  split; [exact (applyAll_pure s opts ar w x c Hx Hc) |].
  exact (foldOnResult_fields opts ar).
Qed.

(** X2: on the server, the options only append to Exec.OutputBlobs and set
    Exec.Cached: after the loop OutputBlobs is what it was followed by the
    bytes of every OutputFile, StdOut and StdErr option in the order given
    (raw options and ExecutionCacheHit contribute none); the result and
    the status of the Exec, the ActionCache store, the commands, the
    listeners and the gRPC servers are untouched. *)
Theorem applyAll_appends_the_output_blobs_in_order
    (s : Server) (opts : list fakeOption) (ar : ActionResult) (w : World)
    (x : Exec) (c : CAS) :
  execs w !! srv_Exec s = Some x ->
  cass w !! srv_CAS s = Some c ->
  exists ar' w' x',
    applyAll opts ar s w = (Returned ar', w') /\
    execs w' !! srv_Exec s = Some x' /\
    ex_OutputBlobs x' = ex_OutputBlobs x ++ omap optionBytes opts /\
    ex_ActionResult x' = ex_ActionResult x /\
    ex_Status x' = ex_Status x /\
    acs w' = acs w /\ cmds w' = cmds w /\
    listeners w' = listeners w /\ grpcs w' = grpcs w.
Proof.
  intros Hx Hc. eexists _, _, _.
  split; [exact (applyAll_pure s opts ar w x c Hx Hc) |].
  destruct (withServer_lookup s (foldl (fun a o => optionOnExec o a) x opts)
              (foldl (fun a o => optionOnCAS o a) c opts) w)
    as (Hx' & _ & Ha & Hcm & Hl & Hg).
  split; [exact Hx' |].
  destruct (foldOnExec_fields opts x) as (Hb & _ & _ & Har & Hst & _).
  repeat split; assumption.
Qed.

(** X3: the CAS after the options: looking up a digest gives the bytes of
    the last OutputFile, StdOut or StdErr option whose bytes have that
    digest, and what the CAS held before when there is none. So the digest of
    every such option resolves to bytes of that digest, no blob that was
    stored is lost, and a CAS in which every blob is stored under its own
    digest stays so. *)
Theorem applyAll_makes_every_output_retrievable
    (s : Server) (opts : list fakeOption) (ar : ActionResult) (w : World)
    (x : Exec) (c : CAS) :
  execs w !! srv_Exec s = Some x ->
  cass w !! srv_CAS s = Some c ->
  exists ar' w' c',
    applyAll opts ar s w = (Returned ar', w') /\
    cass w' !! srv_CAS s = Some c' /\
    (forall d,
       blobs c' !! d
       = match last (filter (fun b => NewFromBlob b = d) (omap optionBytes opts)) with
         | Some b => Some b
         | None => blobs c !! d
         end) /\
    (forall b, b ∈ omap optionBytes opts ->
       exists b', blobs c' !! NewFromBlob b = Some b' /\
                  NewFromBlob b' = NewFromBlob b) /\
    (forall d, is_Some (blobs c !! d) -> is_Some (blobs c' !! d)) /\
    (content_addressed c -> content_addressed c').
Proof.
  intros Hx Hc. eexists _, _, _.
  split; [exact (applyAll_pure s opts ar w x c Hx Hc) |].
  destruct (withServer_lookup s (foldl (fun a o => optionOnExec o a) x opts)
              (foldl (fun a o => optionOnCAS o a) c opts) w)
    as (_ & Hc' & _).
  split; [exact Hc' |].
  pose proof (fun d => foldOnCAS_lookup opts d c) as Hlook.
  split; [exact Hlook |].
  assert (Hlast : forall d b,
             last (filter (fun b => NewFromBlob b = d) (omap optionBytes opts))
               = Some b -> NewFromBlob b = d).
  { intros d b Hl. apply last_Some_elem_of in Hl.
    apply list_elem_of_filter in Hl. exact (proj1 Hl). }
  split; [| split].
  - intros b Hb. rewrite Hlook.
    destruct (last (filter (fun b0 => NewFromBlob b0 = NewFromBlob b)
                      (omap optionBytes opts))) as [b' |] eqn:Hl.
    + exists b'. split; [reflexivity | exact (Hlast _ _ Hl)].
    + apply last_None in Hl.
      exfalso. exact (filter_nil_not_elem_of _ _ b Hl eq_refl Hb).
  - intros d Hd. rewrite Hlook.
    destruct (last (filter _ (omap optionBytes opts))); [eexists; reflexivity |].
    exact Hd.
  - intros Hca d b. rewrite Hlook.
    destruct (last (filter (fun b0 => NewFromBlob b0 = d) (omap optionBytes opts)))
      as [b' |] eqn:Hl.
    + intros E. injection E as <-. exact (Hlast _ _ Hl).
    + apply Hca.
Qed.

(** ** The whole effect of Set *)

Lemma Set_final e cmd opt res opts w c0 x cs a ft root bl :
  cmds w !! cmd = Some c0 ->
  execs w !! srv_Exec (te_Server e) = Some x ->
  cass w !! srv_CAS (te_Server e) = Some cs ->
  acs w !! srv_ActionCache (te_Server e) = Some a ->
  BuildTreeFromInputs (cmd_ExecRoot (FillDefaultFieldValues c0))
    (cmd_InputSpec (FillDefaultFieldValues c0)) = inl ft ->
  PackageTree ft = inl (root, bl) ->
  let s := te_Server e in
  let c := FillDefaultFieldValues c0 in
  let acDg := TestNewFromMessage (buildAction c root opt) in
  let ar := foldl (fun a o => optionOnResult o a) (newActionResult res) opts in
  let x1 := foldl (fun a o => optionOnExec o a) x opts in
  let c1 := foldl (fun a o => optionOnCAS o a) cs opts in
  exists w',
    TestEnv_Set e cmd opt res opts w
      = (Returned (TestNewFromMessage (ToREProto c), acDg), w') /\
    execs w' = <[srv_Exec s := statusOnExec res (with_ActionResult (Some ar) x1)]>
                 (execs w) /\
    cass w' = <[srv_CAS s := c1]> (cass w) /\
    acs w' = match res_Status res with
             | CacheHitResultStatus =>
                 if ex_Cached x1 then acs w
                 else <[srv_ActionCache s :=
                          {| results := <[acDg := ar]> (results a) |}]> (acs w)
             | _ => acs w
             end /\
    cmds w' = <[cmd := c]> (cmds w) /\
    listeners w' = listeners w /\
    grpcs w' = grpcs w.
Proof.
  intros Hcmd Hx Hc Ha Hft Hroot s c acDg ar x1 c1.
  rewrite (Set_defaults_first e cmd opt res opts w c0 Hcmd). cbn zeta.
  rewrite Hft, Hroot. fold c s.
  set (w0 := defaulted cmd c0 w).
  unfold configure. cbn zeta. fold s acDg.
  rewrite (bind_Returned _ _ _ _ _
             (applyAll_pure s opts (newActionResult res) w0 x cs Hx Hc)).
  fold ar x1 c1.
  destruct (withServer_lookup s x1 c1 w0) as (Hx1 & _).
  run_bind (deref_Some execs _ _ _) Hx1.
  unfold bind at 1, store at 1. cbn iota beta.
  replace (with_execs _ _)
    with (withServer s (with_ActionResult (Some ar) x1) c1 w0)
    by (unfold withServer, with_cass, with_execs; simpl_world;
        rewrite insert_insert_eq; reflexivity).
  destruct (withServer_lookup s (with_ActionResult (Some ar) x1) c1 w0)
    as (Hx2 & _ & Ha2 & _).
  assert (Ha' : acs (withServer s (with_ActionResult (Some ar) x1) c1 w0)
                  !! srv_ActionCache s = Some a) by (rewrite Ha2; exact Ha).
  rewrite (bind_Returned _ _ _ _ _
             (configureStatus_run s res acDg ar _ _ a Hx2 Ha')).
  unfold ret. eexists. split; [reflexivity |].
  unfold statusOnExec, withServer, w0, defaulted.
  cbn [ex_Cached with_ActionResult].
  destruct (res_Status res); [| destruct (ex_Cached x1) | ..];
    simpl_world; rewrite ?insert_insert_eq; repeat split.
Qed.

Lemma int32_range (z : Z) : - 2 ^ 31 <= int32 z < 2 ^ 31.
Proof.
  unfold int32.
  pose proof (Z.mod_pos_bound (z + 2 ^ 31) (2 ^ 32) ltac:(lia)). lia.
Qed.

Lemma int32_small (z : Z) : - 2 ^ 31 <= z < 2 ^ 31 -> int32 z = z.
Proof. intros Hz. unfold int32. rewrite Z.mod_small by lia. lia. Qed.

Lemma int32_wraps (z k : Z) : int32 (z + k * 2 ^ 32) = int32 z.
Proof.
  unfold int32.
  replace (z + k * 2 ^ 32 + 2 ^ 31) with (z + 2 ^ 31 + k * 2 ^ 32) by lia.
  rewrite Z.mod_add by lia. reflexivity.
Qed.

(** X4: the ActionResult that Set starts from carries the exit code of the
    result converted to 32 bits and no output at all: the exit code is
    always in the signed 32-bit range, it is the exit code given whenever
    that one is in the range, and two exit codes that differ by a multiple
    of 2^32 give the same ActionResult exit code. *)
Theorem newActionResult_exit_code_is_32_bit (res : Result) :
  - 2 ^ 31 <= ExitCode (newActionResult res) < 2 ^ 31 /\
  (- 2 ^ 31 <= res_ExitCode res < 2 ^ 31 ->
     ExitCode (newActionResult res) = res_ExitCode res) /\
  (forall (k : Z) (res' : Result),
     res_ExitCode res' = res_ExitCode res + k * 2 ^ 32 ->
     ExitCode (newActionResult res') = ExitCode (newActionResult res)) /\
  OutputFiles (newActionResult res) = [] /\
  StdoutDigest (newActionResult res) = None /\
  StdoutRaw (newActionResult res) = [] /\
  StderrDigest (newActionResult res) = None /\
  StderrRaw (newActionResult res) = [].
Proof.
  cbn [newActionResult ExitCode OutputFiles StdoutDigest StdoutRaw StderrDigest
         StderrRaw].
  split; [apply int32_range |].
  split; [apply int32_small |].
  split; [| repeat split].
  intros k res' E. rewrite E. apply int32_wraps.
Qed.

(** X5: whatever the result status, a Set call that returns leaves in
    Exec.ActionResult the ActionResult it assembled: the exit code of the
    result converted to 32 bits, the files of the OutputFile options in the
    order given, and in each of the four output fields what the last option
    of its kind assigned, nothing when there is none. *)
Theorem Set_stores_the_assembled_ActionResult
    e cmd opt res opts w c0 x cs a ft root bl :
  cmds w !! cmd = Some c0 ->
  execs w !! srv_Exec (te_Server e) = Some x ->
  cass w !! srv_CAS (te_Server e) = Some cs ->
  acs w !! srv_ActionCache (te_Server e) = Some a ->
  BuildTreeFromInputs (cmd_ExecRoot (FillDefaultFieldValues c0))
    (cmd_InputSpec (FillDefaultFieldValues c0)) = inl ft ->
  PackageTree ft = inl (root, bl) ->
  exists (dgs : Digest * Digest) (w' : World) (x' : Exec) (ar : ActionResult),
    TestEnv_Set e cmd opt res opts w = (Returned dgs, w') /\
    execs w' !! srv_Exec (te_Server e) = Some x' /\
    ex_ActionResult x' = Some ar /\
    ExitCode ar = int32 (res_ExitCode res) /\
    OutputFiles ar = omap optionOutputFile opts /\
    StdoutDigest ar = last (omap optionStdoutDigest opts) /\
    StdoutRaw ar = default [] (last (omap optionStdoutRaw opts)) /\
    StderrDigest ar = last (omap optionStderrDigest opts) /\
    StderrRaw ar = default [] (last (omap optionStderrRaw opts)).
Proof.
  intros Hcmd Hx Hc Ha Hft Hroot.
  destruct (Set_final e cmd opt res opts w c0 x cs a ft root bl
              Hcmd Hx Hc Ha Hft Hroot) as (w' & Eset & Hex & _).
  eexists _, w', _, _. split; [exact Eset |].
  split; [rewrite Hex; apply lookup_insert_eq |].
  split.
  { unfold statusOnExec. destruct (res_Status res); reflexivity. }
  destruct (foldOnResult_fields opts (newActionResult res))
    as (He & Hf & Hod & Hor & Hed & Her).
  rewrite He, Hf, Hod, Hor, Hed, Her.
  cbn [newActionResult ExitCode OutputFiles StdoutDigest StdoutRaw StderrDigest
         StderrRaw app].
  repeat split;
    match goal with
    | |- context [last ?l] => destruct (last l); reflexivity
    | _ => reflexivity
    end.
Qed.

(** X6: Set clears nothing that earlier calls left in the Exec: the output
    blobs are those it held followed by those of the options, the Cached
    flag is the one it had unless an ExecutionCacheHit option sets it, the
    stores it was constructed over are the same, and unless the result is a
    Timeout or a RemoteError its status is the one it had, so a stale status
    survives a Set with a Success or a CacheHit result. *)
Theorem Set_keeps_what_the_Exec_held
    e cmd opt res opts w c0 x cs a ft root bl :
  cmds w !! cmd = Some c0 ->
  execs w !! srv_Exec (te_Server e) = Some x ->
  cass w !! srv_CAS (te_Server e) = Some cs ->
  acs w !! srv_ActionCache (te_Server e) = Some a ->
  BuildTreeFromInputs (cmd_ExecRoot (FillDefaultFieldValues c0))
    (cmd_InputSpec (FillDefaultFieldValues c0)) = inl ft ->
  PackageTree ft = inl (root, bl) ->
  exists (dgs : Digest * Digest) (w' : World) (x' : Exec),
    TestEnv_Set e cmd opt res opts w = (Returned dgs, w') /\
    execs w' !! srv_Exec (te_Server e) = Some x' /\
    ex_OutputBlobs x' = ex_OutputBlobs x ++ omap optionBytes opts /\
    ex_Cached x' = default (ex_Cached x) (lastCacheHit opts) /\
    ex_ac x' = ex_ac x /\ ex_cas x' = ex_cas x /\
    (res_Status res <> TimeoutResultStatus ->
     res_Status res <> RemoteErrorResultStatus ->
     ex_Status x' = ex_Status x).
Proof.
  intros Hcmd Hx Hc Ha Hft Hroot.
  destruct (Set_final e cmd opt res opts w c0 x cs a ft root bl
              Hcmd Hx Hc Ha Hft Hroot) as (w' & Eset & Hex & _).
  eexists _, w', _. split; [exact Eset |].
  split; [rewrite Hex; apply lookup_insert_eq |].
  destruct (foldOnExec_fields opts x) as (Hb & Hac & Hcas & _ & Hst & Hca).
  unfold statusOnExec.
  destruct (res_Status res); cbn; rewrite ?Hb, ?Hca, ?Hac, ?Hcas, ?Hst;
    repeat split; intros; try reflexivity; congruence.
Qed.

(** After a Set call that returns, the server is still usable. *)
Lemma Set_final_lookups e cmd opt res opts w c0 x cs a ft root bl :
  cmds w !! cmd = Some c0 ->
  execs w !! srv_Exec (te_Server e) = Some x ->
  cass w !! srv_CAS (te_Server e) = Some cs ->
  acs w !! srv_ActionCache (te_Server e) = Some a ->
  BuildTreeFromInputs (cmd_ExecRoot (FillDefaultFieldValues c0))
    (cmd_InputSpec (FillDefaultFieldValues c0)) = inl ft ->
  PackageTree ft = inl (root, bl) ->
  exists dgs w' a',
    TestEnv_Set e cmd opt res opts w = (Returned dgs, w') /\
    execs w' !! srv_Exec (te_Server e)
      = Some (statusOnExec res
                (with_ActionResult
                   (Some (foldl (fun a o => optionOnResult o a)
                            (newActionResult res) opts))
                   (foldl (fun a o => optionOnExec o a) x opts))) /\
    cass w' !! srv_CAS (te_Server e)
      = Some (foldl (fun a o => optionOnCAS o a) cs opts) /\
    acs w' !! srv_ActionCache (te_Server e) = Some a' /\
    (forall l, l <> cmd -> cmds w' !! l = cmds w !! l) /\
    cmds w' !! cmd = Some (FillDefaultFieldValues c0) /\
    listeners w' = listeners w /\ grpcs w' = grpcs w.
Proof.
  intros Hcmd Hx Hc Ha Hft Hroot.
  destruct (Set_final e cmd opt res opts w c0 x cs a ft root bl
              Hcmd Hx Hc Ha Hft Hroot)
    as (w' & Eset & Hex & Hcas & Hacs & Hcmds & Hl & Hg).
  assert (Hsome : exists a', acs w' !! srv_ActionCache (te_Server e) = Some a').
  { rewrite Hacs.
    destruct (res_Status res); eauto.
    destruct (ex_Cached _); eauto. rewrite lookup_insert_eq. eauto. }
  destruct Hsome as (a' & Ha').
  exists (TestNewFromMessage (ToREProto (FillDefaultFieldValues c0)),
          TestNewFromMessage (buildAction (FillDefaultFieldValues c0) root opt)),
         w', a'.
  split; [exact Eset |].
  rewrite Hex, Hcas, Hcmds, !lookup_insert_eq.
  repeat split; try assumption.
  intros l Hne. apply lookup_insert_ne. congruence.
Qed.

(** X7: two Set calls in a row, on two commands: the second call
    overwrites Exec.ActionResult with its own result, while the output blobs
    of both calls pile up in Exec.OutputBlobs in call order, the Cached flag
    is the one set last, and the DeadlineExceeded status configured by a
    first call with a Timeout result is still there after a second call
    whose result is neither a Timeout nor a RemoteError. Only Clear resets
    them. *)
Theorem Set_twice_accumulates
    e cmd1 cmd2 opt1 opt2 res1 res2 opts1 opts2 w c1 c2 x cs a
    ft1 root1 bl1 ft2 root2 bl2 :
  cmds w !! cmd1 = Some c1 ->
  cmds w !! cmd2 = Some c2 ->
  cmd1 <> cmd2 ->
  execs w !! srv_Exec (te_Server e) = Some x ->
  cass w !! srv_CAS (te_Server e) = Some cs ->
  acs w !! srv_ActionCache (te_Server e) = Some a ->
  BuildTreeFromInputs (cmd_ExecRoot (FillDefaultFieldValues c1))
    (cmd_InputSpec (FillDefaultFieldValues c1)) = inl ft1 ->
  PackageTree ft1 = inl (root1, bl1) ->
  BuildTreeFromInputs (cmd_ExecRoot (FillDefaultFieldValues c2))
    (cmd_InputSpec (FillDefaultFieldValues c2)) = inl ft2 ->
  PackageTree ft2 = inl (root2, bl2) ->
  exists (dgs2 : Digest * Digest) (w2 : World) (x2 : Exec) (ar2 : ActionResult),
    bind (TestEnv_Set e cmd1 opt1 res1 opts1)
      (fun _ => TestEnv_Set e cmd2 opt2 res2 opts2) w = (Returned dgs2, w2) /\
    execs w2 !! srv_Exec (te_Server e) = Some x2 /\
    ex_ActionResult x2 = Some ar2 /\
    ExitCode ar2 = int32 (res_ExitCode res2) /\
    OutputFiles ar2 = omap optionOutputFile opts2 /\
    ex_OutputBlobs x2
      = ex_OutputBlobs x ++ omap optionBytes opts1 ++ omap optionBytes opts2 /\
    ex_Cached x2 = default (default (ex_Cached x) (lastCacheHit opts1))
                     (lastCacheHit opts2) /\
    (res_Status res1 = TimeoutResultStatus ->
     res_Status res2 <> TimeoutResultStatus ->
     res_Status res2 <> RemoteErrorResultStatus ->
     ex_Status x2 = Some (status_New DeadlineExceeded "timeout")).
Proof.
  intros Hc1 Hc2 Hne Hx Hc Ha Hft1 Hroot1 Hft2 Hroot2.
  destruct (Set_final_lookups e cmd1 opt1 res1 opts1 w c1 x cs a ft1 root1 bl1
              Hc1 Hx Hc Ha Hft1 Hroot1)
    as (dgs1 & w1 & a1 & E1 & Hx1 & Hcs1 & Ha1 & Hcm1 & _).
  assert (Hc2' : cmds w1 !! cmd2 = Some c2).
  { rewrite Hcm1; [exact Hc2 | congruence]. }
  destruct (Set_final_lookups e cmd2 opt2 res2 opts2 w1 c2 _ _ a1 ft2 root2 bl2
              Hc2' Hx1 Hcs1 Ha1 Hft2 Hroot2)
    as (dgs2 & w2 & a2 & E2 & Hx2 & _).
  eexists dgs2, w2, _, _.
  split; [rewrite (bind_Returned _ _ _ _ _ E1); exact E2 |].
  split; [exact Hx2 |].
  destruct (foldOnResult_fields opts2 (newActionResult res2)) as (He & Hf & _).
  destruct (foldOnExec_fields opts2
              (statusOnExec res1
                 (with_ActionResult
                    (Some (foldl (fun a o => optionOnResult o a)
                             (newActionResult res1) opts1))
                    (foldl (fun a o => optionOnExec o a) x opts1))))
    as (Hb2 & _ & _ & _ & Hst2 & Hca2).
  destruct (foldOnExec_fields opts1 x) as (Hb1 & _ & _ & _ & _ & Hca1).
  assert (Hkeep1 : forall y,
             ex_OutputBlobs (statusOnExec res1 (with_ActionResult
               (Some (foldl (fun a o => optionOnResult o a)
                        (newActionResult res1) opts1)) y)) = ex_OutputBlobs y /\
             ex_Cached (statusOnExec res1 (with_ActionResult
               (Some (foldl (fun a o => optionOnResult o a)
                        (newActionResult res1) opts1)) y)) = ex_Cached y).
  { intros y. unfold statusOnExec. destruct (res_Status res1); split; reflexivity. }
  split.
  { unfold statusOnExec. destruct (res_Status res2); reflexivity. }
  split; [exact He |].
  split; [rewrite Hf; reflexivity |].
  split.
  { transitivity
      (ex_OutputBlobs (foldl (fun a o => optionOnExec o a)
         (statusOnExec res1
            (with_ActionResult
               (Some (foldl (fun a o => optionOnResult o a)
                        (newActionResult res1) opts1))
               (foldl (fun a o => optionOnExec o a) x opts1))) opts2)).
    - unfold statusOnExec at 1. destruct (res_Status res2); reflexivity.
    - rewrite Hb2, (proj1 (Hkeep1 _)), Hb1, app_assoc. reflexivity. }
  split.
  { transitivity
      (ex_Cached (foldl (fun a o => optionOnExec o a)
         (statusOnExec res1
            (with_ActionResult
               (Some (foldl (fun a o => optionOnResult o a)
                        (newActionResult res1) opts1))
               (foldl (fun a o => optionOnExec o a) x opts1))) opts2)).
    - unfold statusOnExec at 1. destruct (res_Status res2); reflexivity.
    - rewrite Hca2, (proj2 (Hkeep1 _)), Hca1. reflexivity. }
  intros Ht1 Hn1 Hn2.
  transitivity
    (ex_Status (foldl (fun a o => optionOnExec o a)
       (statusOnExec res1
          (with_ActionResult
             (Some (foldl (fun a o => optionOnResult o a)
                      (newActionResult res1) opts1))
             (foldl (fun a o => optionOnExec o a) x opts1))) opts2)).
  - unfold statusOnExec at 1.
    destruct (res_Status res2); try reflexivity; congruence.
  - rewrite Hst2. unfold statusOnExec. rewrite Ht1. reflexivity.
Qed.

(** ** What Set, Clear and Stop leave alone, however they end *)

Lemma same_elsewhere_refl s cmd w : same_elsewhere s cmd w w.
Proof. repeat split. Qed.

Lemma same_elsewhere_trans s cmd w1 w2 w3 :
  same_elsewhere s cmd w1 w2 -> same_elsewhere s cmd w2 w3 ->
  same_elsewhere s cmd w1 w3.
Proof.
  intros (Hx & Hc & Ha & Hk & Hl & Hg) (Hx' & Hc' & Ha' & Hk' & Hl' & Hg').
  repeat split; try congruence; intros l Hne.
  - rewrite Hx', Hx by exact Hne. reflexivity.
  - rewrite Hc', Hc by exact Hne. reflexivity.
  - rewrite Ha', Ha by exact Hne. reflexivity.
  - rewrite Hk', Hk by exact Hne. reflexivity.
Qed.

Local Abbreviation stays s cmd m := (forall w, same_elsewhere s cmd w (snd (m w))).

Lemma stays_ret {A} s cmd (a : A) : stays s cmd (ret a).
Proof. intros w. apply same_elsewhere_refl. Qed.

Lemma stays_Fatalf s cmd t f err : stays s cmd (Fatalf t f err).
Proof. intros w. apply same_elsewhere_refl. Qed.

Lemma stays_deref {V} s cmd (sel : World -> gmap loc V) l :
  stays s cmd (deref sel l).
Proof.
  intros w. unfold deref. destruct (sel w !! l); apply same_elsewhere_refl.
Qed.

Lemma stays_bind {A B} s cmd (m : M A) (k : A -> M B) :
  stays s cmd m -> (forall a, stays s cmd (k a)) -> stays s cmd (bind m k).
Proof.
  intros Hm Hk w. unfold bind. specialize (Hm w).
  destruct (m w) as [[a | t f err |] w1]; cbn [snd] in *; [| exact Hm ..].
  exact (same_elsewhere_trans _ _ _ _ _ Hm (Hk a w1)).
Qed.

Lemma stays_store_Exec s cmd v :
  stays s cmd (store execs with_execs (srv_Exec s) v).
Proof.
  intros w. unfold store. cbn [snd]. repeat split.
  intros l Hne. simpl_world. apply lookup_insert_ne. congruence.
Qed.

Lemma stays_store_CAS s cmd v :
  stays s cmd (store cass with_cass (srv_CAS s) v).
Proof.
  intros w. unfold store. cbn [snd]. repeat split.
  intros l Hne. simpl_world. apply lookup_insert_ne. congruence.
Qed.

Lemma stays_store_ActionCache s cmd v :
  stays s cmd (store acs with_acs (srv_ActionCache s) v).
Proof.
  intros w. unfold store. cbn [snd]. repeat split.
  intros l Hne. simpl_world. apply lookup_insert_ne. congruence.
Qed.

Lemma stays_store_cmd s cmd v : stays s cmd (store cmds with_cmds cmd v).
Proof.
  intros w. unfold store. cbn [snd]. repeat split.
  intros l Hne. simpl_world. apply lookup_insert_ne. congruence.
Qed.

Create HintDb stays.
#[local] Hint Resolve stays_ret stays_Fatalf stays_deref stays_store_Exec
  stays_store_CAS stays_store_ActionCache stays_store_cmd : stays.
#[local] Hint Extern 2 (forall w, same_elsewhere _ _ w (snd (bind _ _ w))) =>
  apply stays_bind; [| intros ?] : stays.

Lemma stays_Apply s cmd o ar : stays s cmd (Apply o ar s).
Proof.
  destruct o; cbn [Apply];
    unfold OutputFile_Apply, StdOut_Apply, StdOutRaw_Apply, StdErr_Apply,
      StdErrRaw_Apply, ExecutionCacheHit_Apply, appendOutputBlob, CAS_Put;
    auto 10 with stays.
Qed.

Lemma stays_applyAll s cmd opts : forall ar, stays s cmd (applyAll opts ar s).
Proof.
  induction opts as [| o rest IH]; intros ar; cbn [applyAll].
  - apply stays_ret.
  - apply stays_bind; [apply stays_Apply | exact IH].
Qed.

Lemma stays_configureStatus s cmd res acDg ar :
  stays s cmd (configureStatus s res acDg ar).
Proof.
  unfold configureStatus, ActionCache_Put.
  destruct (res_Status res); auto with stays.
  - apply stays_bind; [auto with stays |]. intros x.
    destruct (negb (ex_Cached x)); auto 10 with stays.
  - destruct (FromError (res_Err res)) as [st ok]. auto 10 with stays.
Qed.

(** X8: a Set call, however it ends, changes no object but the Exec, the CAS
    and the ActionCache of its own server and the command it was given:
    the components of every other server, every other command, and all
    listeners and gRPC servers are after the call what they were before. *)
Theorem Set_touches_only_its_server_and_its_command
    (e : TestEnv) (cmd : loc) (opt : ExecutionOptions) (res : Result)
    (opts : list fakeOption) (w : World) :
  same_elsewhere (te_Server e) cmd w (snd (TestEnv_Set e cmd opt res opts w)).
Proof.
  revert w. unfold TestEnv_Set.
  apply stays_bind; [auto with stays |]. intros c0.
  apply stays_bind; [auto with stays |]. intros _.
  apply stays_bind; [auto with stays |]. intros c.
  destruct (BuildTreeFromInputs (cmd_ExecRoot c) (cmd_InputSpec c)) as [ft | err];
    [| auto with stays].
  destruct (PackageTree ft) as [[root bl] | err]; [| auto with stays].
  cbn zeta.
  apply stays_bind; [apply stays_applyAll |]. intros ar.
  apply stays_bind; [auto with stays |]. intros x.
  apply stays_bind; [auto with stays |]. intros _.
  apply stays_bind; [apply stays_configureStatus |]. intros _.
  apply stays_ret.
Qed.

(** ** Stop and Clear *)

Lemma Server_Stop_run s w l g :
  listeners w !! srv_listener s = Some l ->
  grpcs w !! srv_srv s = Some g ->
  Server_Stop s w =
    (Returned tt,
     with_grpcs
       (<[srv_srv s := {| g_services := g_services g; g_serving := None;
                          g_stopped := true |}]> (grpcs w))
       (with_listeners
          (<[srv_listener s := {| lis_network := lis_network l;
                                  lis_address := lis_address l;
                                  lis_closed := true |}]> (listeners w)) w)).
Proof.
  intros Hl Hg. unfold Server_Stop.
  run_bind (deref_Some listeners _ _ _) Hl.
  unfold bind at 1, store at 1. cbn iota beta.
  run_bind (deref_Some grpcs _ _ _) Hg.
  reflexivity.
Qed.

Lemma Server_Clear_run s w c a x :
  cass w !! srv_CAS s = Some c ->
  acs w !! srv_ActionCache s = Some a ->
  execs w !! srv_Exec s = Some x ->
  Server_Clear s w =
    (Returned tt,
     with_execs
       (<[srv_Exec s := {| ex_ac := ex_ac x; ex_cas := ex_cas x;
                           ex_ActionResult := None; ex_Status := None;
                           ex_Cached := false; ex_OutputBlobs := [] |}]> (execs w))
       (with_acs (<[srv_ActionCache s := {| results := ∅ |}]> (acs w))
          (with_cass (<[srv_CAS s := {| blobs := ∅ |}]> (cass w)) w))).
Proof.
  intros Hc Ha Hx. unfold Server_Clear.
  run_bind (CAS_Clear_run _ _ c) Hc.
  run_bind (ActionCache_Clear_run (srv_ActionCache s) _ a) Ha.
  rewrite (Exec_Clear_run (srv_Exec s) _ x) by exact Hx.
  reflexivity.
Qed.

(** X9: Stop closes the listener of the server and stops its gRPC server,
    which keeps its registered services and serves no more, and changes
    nothing else: the CAS, the ActionCache, the Exec and the commands are
    what they were, so what was recorded survives Stop, and so are the
    listeners and gRPC servers of other servers. Stopping a stopped server
    changes nothing, and on a server whose components are allocated,
    stopping and clearing commute. *)
Theorem Stop_closes_the_network_side_only
    (s : Server) (w : World) (l : Listener) (g : GrpcServer) :
  listeners w !! srv_listener s = Some l ->
  grpcs w !! srv_srv s = Some g ->
  exists w',
    Server_Stop s w = (Returned tt, w') /\
    listeners w' !! srv_listener s =
      Some {| lis_network := lis_network l; lis_address := lis_address l;
              lis_closed := true |} /\
    grpcs w' !! srv_srv s =
      Some {| g_services := g_services g; g_serving := None; g_stopped := true |} /\
    same_but_network s w w' /\
    Server_Stop s w' = (Returned tt, w') /\
    (forall c a x,
       cass w !! srv_CAS s = Some c ->
       acs w !! srv_ActionCache s = Some a ->
       execs w !! srv_Exec s = Some x ->
       bind (Server_Clear s) (fun _ => Server_Stop s) w
         = bind (Server_Stop s) (fun _ => Server_Clear s) w).
Proof.
  intros Hl Hg.
  pose proof (Server_Stop_run s w l g Hl Hg) as Estop.
  eexists. split; [exact Estop |]. simpl_world.
  rewrite !lookup_insert_eq.
  split; [reflexivity |]. split; [reflexivity |].
  split.
  { repeat split; intros l' Hne; simpl_world;
      apply lookup_insert_ne; congruence. }
  split.
  { match goal with
    | |- Server_Stop s ?W = _ =>
        rewrite (Server_Stop_run s W _ _ (lookup_insert_eq _ _ _)
                   (lookup_insert_eq _ _ _))
    end.
    f_equal. apply World_ext; simpl_world;
      rewrite ?insert_insert_eq; reflexivity. }
  intros c a x Hc Ha Hx.
  rewrite (bind_Returned _ _ _ _ _ Estop).
  rewrite (bind_Returned _ _ _ _ _ (Server_Clear_run s w c a x Hc Ha Hx)).
  match goal with
  | |- Server_Stop s ?W = _ => rewrite (Server_Stop_run s W l g Hl Hg)
  end.
  match goal with
  | |- _ = Server_Clear s ?W => rewrite (Server_Clear_run s W c a x Hc Ha Hx)
  end.
  reflexivity.
Qed.

Lemma Set_keeps_the_stores_of_the_Exec res ar opts x :
  ex_ac (statusOnExec res
           (with_ActionResult ar (foldl (fun a o => optionOnExec o a) x opts)))
    = ex_ac x /\
  ex_cas (statusOnExec res
            (with_ActionResult ar (foldl (fun a o => optionOnExec o a) x opts)))
    = ex_cas x.
Proof.
  destruct (foldOnExec_fields opts x) as (_ & Hac & Hcas & _).
  unfold statusOnExec. destruct (res_Status res); cbn; split; assumption.
Qed.

(** X10: Clear forgets what Set configured: clearing the server after a Set
    call that returned leaves its Exec, its CAS and its ActionCache exactly
    as clearing it before the call would have (no result, no status, not
    cached, no output blobs, empty stores), and clearing a cleared server
    changes nothing. *)
Theorem Clear_forgets_what_Set_configured
    e cmd opt res opts w c0 x cs a ft root bl :
  cmds w !! cmd = Some c0 ->
  execs w !! srv_Exec (te_Server e) = Some x ->
  cass w !! srv_CAS (te_Server e) = Some cs ->
  acs w !! srv_ActionCache (te_Server e) = Some a ->
  BuildTreeFromInputs (cmd_ExecRoot (FillDefaultFieldValues c0))
    (cmd_InputSpec (FillDefaultFieldValues c0)) = inl ft ->
  PackageTree ft = inl (root, bl) ->
  exists (dgs : Digest * Digest) (w1 w2 wc : World),
    TestEnv_Set e cmd opt res opts w = (Returned dgs, w1) /\
    Server_Clear (te_Server e) w1 = (Returned tt, w2) /\
    Server_Clear (te_Server e) w = (Returned tt, wc) /\
    execs w2 = execs wc /\ cass w2 = cass wc /\ acs w2 = acs wc /\
    execs w2 !! srv_Exec (te_Server e) =
      Some {| ex_ac := ex_ac x; ex_cas := ex_cas x; ex_ActionResult := None;
              ex_Status := None; ex_Cached := false; ex_OutputBlobs := [] |} /\
    cass w2 !! srv_CAS (te_Server e) = Some {| blobs := ∅ |} /\
    acs w2 !! srv_ActionCache (te_Server e) = Some {| results := ∅ |} /\
    Server_Clear (te_Server e) w2 = (Returned tt, w2).
Proof.
  intros Hcmd Hx Hc Ha Hft Hroot.
  destruct (Set_final e cmd opt res opts w c0 x cs a ft root bl
              Hcmd Hx Hc Ha Hft Hroot)
    as (w1 & Eset & Hex & Hcas & Hacs & _).
  destruct (Set_final_lookups e cmd opt res opts w c0 x cs a ft root bl
              Hcmd Hx Hc Ha Hft Hroot)
    as (dgs & w1' & a1 & Eset' & Hx1 & Hc1 & Ha1 & _).
  rewrite Eset in Eset'. injection Eset' as <- <-.
  set (s := te_Server e) in *.
  pose proof (Server_Clear_run s w1 _ _ _ Hc1 Ha1 Hx1) as E1.
  pose proof (Server_Clear_run s w cs a x Hc Ha Hx) as Ec.
  destruct (Set_keeps_the_stores_of_the_Exec res
              (Some (foldl (fun a o => optionOnResult o a)
                       (newActionResult res) opts)) opts x) as (Hkac & Hkcas).
  rewrite Hkac, Hkcas in E1.
  eexists _, w1, _, _. split; [exact Eset |]. split; [exact E1 |].
  split; [exact Ec |]. simpl_world.
  assert (Hacs' : <[srv_ActionCache s := {| results := ∅ |}]> (acs w1)
                  = <[srv_ActionCache s := {| results := ∅ |}]> (acs w)).
  { rewrite Hacs. destruct (res_Status res); try reflexivity.
    destruct (ex_Cached _); [reflexivity | apply insert_insert_eq]. }
  rewrite Hex, Hcas, Hacs', !insert_insert_eq, !lookup_insert_eq.
  repeat split.
  match goal with
  | |- Server_Clear s ?W = _ =>
      rewrite (Server_Clear_run s W _ _ _ (lookup_insert_eq _ _ _)
                 (lookup_insert_eq _ _ _) (lookup_insert_eq _ _ _))
  end.
  f_equal. apply World_ext; simpl_world; rewrite ?insert_insert_eq; reflexivity.
Qed.

(** X11: the servers that NewServer makes stay whole. NewServer returns a
    server all of whose pointers point to an object and whose Exec is the one
    constructed over its own ActionCache and CAS, and it keeps every earlier
    server so; Clear and Stop return on such a server and keep it so; and
    Set, however it ends, keeps such a server so and the command it was
    given allocated. *)
Theorem ServerOK_is_established_and_kept :
  (forall (addr : string) (w : World),
     exists s w',
       NewServer (inl addr) w = (Returned (inl s), w') /\
       ServerOK s w' /\
       (forall p, ServerOK p w -> ServerOK p w')) /\
  (forall (s : Server) (w : World),
     ServerOK s w ->
     exists w', Server_Clear s w = (Returned tt, w') /\ ServerOK s w') /\
  (forall (s : Server) (w : World),
     ServerOK s w ->
     exists w', Server_Stop s w = (Returned tt, w') /\ ServerOK s w') /\
  (forall e cmd opt res opts (w : World),
     ServerOK (te_Server e) w ->
     is_Some (cmds w !! cmd) ->
     ServerOK (te_Server e) (snd (TestEnv_Set e cmd opt res opts w)) /\
     is_Some (cmds (snd (TestEnv_Set e cmd opt res opts w)) !! cmd)).
Proof.
  assert (Hfresh : forall {V} (m : gmap loc V) l (n : V),
             is_Some (m !! l) -> is_Some (<[fresh (dom m) := n]> m !! l)).
  { intros V m l n [v Hl]. exists v. rewrite lookup_insert_ne; [exact Hl |].
    intros E. rewrite <- E in Hl. rewrite fresh_unallocated in Hl. discriminate. }
  assert (Hfresh' : forall {V} (m : gmap loc V) l v (n : V),
             m !! l = Some v -> <[fresh (dom m) := n]> m !! l = Some v).
  { intros V m l v n Hl. rewrite lookup_insert_ne; [exact Hl |].
    intros E. rewrite <- E in Hl. rewrite fresh_unallocated in Hl. discriminate. }
  split; [| split; [| split]].
  - intros addr w. eexists _, _. split; [apply NewServer_listening |].
    split.
    + unfold ServerOK. simpl_world. cbn [srv_Exec srv_CAS srv_ActionCache
                                           srv_listener srv_srv].
      rewrite !lookup_insert_eq. repeat split; eauto.
    + intros p ((x & Hx & Hac & Hcas) & Hc & Ha & Hl & Hg).
      unfold ServerOK. simpl_world. repeat split; eauto.
  - intros s w ((x & Hx & Hac & Hcas) & [c Hc] & [a Ha] & Hl & Hg).
    eexists. split; [exact (Server_Clear_run s w c a x Hc Ha Hx) |].
    unfold ServerOK. simpl_world. rewrite !lookup_insert_eq.
    repeat split; eauto.
  - intros s w (Hx & Hc & Ha & [l Hl] & [g Hg]).
    eexists. split; [exact (Server_Stop_run s w l g Hl Hg) |].
    unfold ServerOK. simpl_world. rewrite !lookup_insert_eq.
    repeat split; eauto.
  - intros e cmd opt res opts w
      ((x & Hx & Hac & Hcas) & [c Hc] & [a Ha] & Hl & Hg) [c0 Hcmd].
    pose proof (Set_defaults_first e cmd opt res opts w c0 Hcmd) as Efirst.
    cbn zeta in Efirst.
    assert (Hdef : ServerOK (te_Server e) (defaulted cmd c0 w) /\
                   is_Some (cmds (defaulted cmd c0 w) !! cmd)).
    { unfold ServerOK, defaulted. simpl_world. rewrite lookup_insert_eq.
      repeat split; eauto. }
    destruct (BuildTreeFromInputs (cmd_ExecRoot (FillDefaultFieldValues c0))
                (cmd_InputSpec (FillDefaultFieldValues c0))) as [ft | err] eqn:Hft.
    + destruct (PackageTree ft) as [[root bl] | err] eqn:Hroot.
      * destruct (Set_final_lookups e cmd opt res opts w c0 x c a ft root bl
                    Hcmd Hx Hc Ha Hft Hroot)
          as (dgs & w' & a' & Eset & Hx' & Hc' & Ha' & _ & Hcmd' & Hl' & Hg').
        rewrite Eset. cbn [snd].
        split; [| eauto].
        destruct (Set_keeps_the_stores_of_the_Exec res
                    (Some (foldl (fun a o => optionOnResult o a)
                             (newActionResult res) opts)) opts x) as (Hkac & Hkcas).
        unfold ServerOK. rewrite Hl', Hg'.
        repeat split; eauto.
        eexists. split; [exact Hx' |]. split; congruence.
      * rewrite Efirst. cbn [snd]. exact Hdef.
    + rewrite Efirst. cbn [snd]. exact Hdef.
Qed.

(** ** NewTestClient and NewTestEnv *)

Lemma hbind_Returned {A B} (m : H A) (k : A -> H B) h a h' :
  m h = (Returned a, h') -> hbind m k h = k a h'.
Proof. intros E. unfold hbind. rewrite E. reflexivity. Qed.

Lemma hbind_ext {A B} (m m' : H A) (k k' : A -> H B) h :
  m h = m' h -> (forall a h', k a h' = k' a h') -> hbind m k h = hbind m' k' h.
Proof.
  intros Em Ek. unfold hbind. rewrite Em.
  destruct (m' h) as [[a | |] h']; [apply Ek | reflexivity | reflexivity].
Qed.

Lemma lift_run {A} (m : M A) h o w :
  m (h_world h) = (o, w) -> lift m h = (o, with_world w h).
Proof. intros E. unfold lift. rewrite E. reflexivity. Qed.

Lemma Host_ext (h1 h2 : Host) :
  h_world h1 = h_world h2 -> h_tests h1 = h_tests h2 ->
  h_clients h1 = h_clients h2 -> h_rexecs h1 = h_rexecs h2 ->
  h_dirs h1 = h_dirs h2 -> h1 = h2.
Proof. destruct h1, h2; cbn; intros; subst; reflexivity. Qed.

(** Reads of a component of an updated store of a test. *)
Ltac simpl_host :=
  cbn [h_world h_tests h_clients h_rexecs h_dirs with_world with_clients
       with_rexecs with_dirs].

Lemma t_Name_run t h name :
  h_tests h !! t = Some name -> t_Name t h = (Returned name, h).
Proof. intros E. unfold t_Name. rewrite E. reflexivity. Qed.

Lemma TempDir_made os dir pattern h root :
  os_TempDir os dir pattern = inl root ->
  ioutil_TempDir os dir pattern h
    = (Returned (inl root), with_dirs ({[ root ]} ∪ h_dirs h) h).
Proof. intros E. unfold ioutil_TempDir. rewrite E. reflexivity. Qed.

Lemma TempDir_refused os dir pattern h err :
  os_TempDir os dir pattern = inr err ->
  ioutil_TempDir os dir pattern h = (Returned (inr err), h).
Proof. intros E. unfold ioutil_TempDir. rewrite E. reflexivity. Qed.

Lemma NewTestClient_run os s h l :
  listeners (h_world h) !! srv_listener s = Some l ->
  Server_NewTestClient os s h = rc_Dial os "instance" (dialed l) h.
Proof.
  intros Hl. unfold Server_NewTestClient.
  rewrite (hbind_Returned _ _ h l h); [reflexivity |].
  rewrite (lift_run _ h (Returned l) (h_world h) (deref_Some listeners _ _ _ Hl)).
  f_equal. apply Host_ext; reflexivity.
Qed.

Lemma Dial_connected os instance params h :
  os_Dial os instance params = None ->
  rc_Dial os instance params h
    = (Returned (inl (fresh (dom (h_clients h)))),
       with_clients
         (<[fresh (dom (h_clients h)) :=
              {| cl_instance := instance; cl_params := params;
                 cl_closed := false |}]> (h_clients h)) h).
Proof. intros E. unfold rc_Dial. rewrite E. reflexivity. Qed.

Lemma Dial_refused os instance params h err :
  os_Dial os instance params = Some err ->
  rc_Dial os instance params h = (Returned (inr err), h).
Proof. intros E. unfold rc_Dial. rewrite E. reflexivity. Qed.

Lemma Client_Close_run c h cl :
  h_clients h !! c = Some cl ->
  Client_Close c h
    = (Returned tt,
       with_clients
         (<[c := {| cl_instance := cl_instance cl; cl_params := cl_params cl;
                    cl_closed := true |}]> (h_clients h)) h).
Proof. intros E. unfold Client_Close. rewrite E. reflexivity. Qed.

Lemma cleanup_run grpcClient s execRoot h cl l g :
  h_clients h !! grpcClient = Some cl ->
  listeners (h_world h) !! srv_listener s = Some l ->
  grpcs (h_world h) !! srv_srv s = Some g ->
  cleanup grpcClient s execRoot h
    = (Returned tt,
       {| h_world :=
            with_grpcs
              (<[srv_srv s := {| g_services := g_services g; g_serving := None;
                                 g_stopped := true |}]> (grpcs (h_world h)))
              (with_listeners
                 (<[srv_listener s := {| lis_network := lis_network l;
                                         lis_address := lis_address l;
                                         lis_closed := true |}]>
                    (listeners (h_world h))) (h_world h));
          h_tests := h_tests h;
          h_clients :=
            <[grpcClient := {| cl_instance := cl_instance cl;
                               cl_params := cl_params cl; cl_closed := true |}]>
              (h_clients h);
          h_rexecs := h_rexecs h;
          h_dirs := h_dirs h ∖ {[ execRoot ]} |}).
Proof.
  intros Hc Hl Hg. unfold cleanup.
  rewrite (hbind_Returned _ _ _ _ _ (Client_Close_run _ _ _ Hc)).
  erewrite hbind_Returned
    by (apply lift_run; simpl_host; exact (Server_Stop_run s _ l g Hl Hg)).
  reflexivity.
Qed.

Lemma ReplaceAll_no_separator (name : string) (sep : Ascii.ascii) :
  sep <> underscore -> no_separator sep (ReplaceAll name sep "_").
Proof.
  intros Hsep.
  induction name as [| a rest IH]; intros c Hc; cbn in Hc.
  - apply elem_of_nil in Hc. contradiction.
  - destruct (Ascii.eqb_spec a sep) as [-> | Hne]; cbn in Hc;
      apply elem_of_cons in Hc; destruct Hc as [-> | Hc];
      [exact (fun E => Hsep (eq_sym E)) | exact (IH c Hc)
      | exact Hne | exact (IH c Hc)].
Qed.

Lemma ReplaceAll_without_separator (name : string) (sep : Ascii.ascii) :
  no_separator sep name -> ReplaceAll name sep "_" = name.
Proof.
  induction name as [| a rest IH]; intros Hr; [reflexivity |].
  cbn [ReplaceAll].
  destruct (Ascii.eqb_spec a sep) as [-> | Hne].
  - exfalso. apply (Hr sep); [| reflexivity]. cbn. apply elem_of_cons. now left.
  - f_equal. apply IH. intros c Hc. apply Hr. cbn. apply elem_of_cons. now right.
Qed.

Lemma ReplaceAll_length (name : string) (sep : Ascii.ascii) :
  String.length (ReplaceAll name sep "_") = String.length name.
Proof.
  induction name as [| a rest IH]; [reflexivity |].
  cbn [ReplaceAll].
  destruct (Ascii.eqb a sep); cbv [String.append]; cbn [String.length];
    rewrite IH; reflexivity.
Qed.

Lemma NewTestClient_same_Dial os os' s h :
  (forall instance params, os_Dial os' instance params = os_Dial os instance params) ->
  Server_NewTestClient os' s h = Server_NewTestClient os s h.
Proof.
  intros Hdial. unfold Server_NewTestClient, hbind.
  destruct (lift (deref listeners (srv_listener s)) h) as [[l | |] h'];
    [| reflexivity | reflexivity].
  unfold rc_Dial. rewrite Hdial. reflexivity.
Qed.

(** X12: NewTestEnv asks for its temporary directory in the default place
    and under the name of the test with every path separator replaced by
    an underscore: a name in which the separator does not occur (the
    separator is not the underscore), of the length of the test name, and the
    test name itself when that has no separator. It asks for no other
    directory: on a machine that answers this one request alike, and listens
    and dials alike, NewTestEnv does the same. *)
Theorem NewTestEnv_names_its_directory_without_separator
    (os os' : Os) (t : loc) (h : Host) (name : string) :
  h_tests h !! t = Some name ->
  os_Separator os <> underscore ->
  same_but_TempDir os os' ->
  let pattern := ReplaceAll name (os_Separator os) "_" in
  no_separator (os_Separator os) pattern /\
  String.length pattern = String.length name /\
  (no_separator (os_Separator os) name -> pattern = name) /\
  (os_TempDir os' "" pattern = os_TempDir os "" pattern ->
   NewTestEnv os' t h = NewTestEnv os t h).
Proof.
  intros Hname Hsep (Esep & Elisten & Edial) pattern.
  split; [exact (ReplaceAll_no_separator name _ Hsep) |].
  split; [exact (ReplaceAll_length name _) |].
  split; [exact (ReplaceAll_without_separator name _) |].
  intros Etemp. unfold NewTestEnv.
  rewrite !(hbind_Returned _ _ _ _ _ (t_Name_run t h name Hname)).
  rewrite Esep, Elisten. fold pattern.
  apply hbind_ext.
  { unfold ioutil_TempDir. rewrite Etemp. reflexivity. }
  intros [root | err] h0; [| reflexivity].
  apply hbind_ext; [reflexivity |].
  intros [s | err] h1; [| reflexivity].
  apply hbind_ext; [exact (NewTestClient_same_Dial os os' s h1 Edial) |].
  intros cr h2. reflexivity.
Qed.

(** X13: when a step of NewTestEnv fails, the test is failed with the
    message of that step and the error, nothing is returned, and what the
    earlier steps made is left behind. When the temporary directory cannot be
    made, nothing has changed. When listening fails, the directory stays and
    no listener, gRPC server or client was made. When dialing fails, the
    directory stays, and the server that NewServer made stays too: its
    listener is open and its gRPC server goes on serving. *)
Theorem NewTestEnv_fails_the_test_and_leaves_what_it_made
    (os : Os) (t : loc) (h : Host) (name : string) :
  h_tests h !! t = Some name ->
  let pattern := ReplaceAll name (os_Separator os) "_" in
  (forall err,
     os_TempDir os "" pattern = inr err ->
     NewTestEnv os t h = (FailNow t "failed to make temp dir: %v" err, h)) /\
  (forall root err,
     os_TempDir os "" pattern = inl root ->
     os_Listen os = inr err ->
     exists h',
       NewTestEnv os t h = (FailNow t "Error starting fake server: %v" err, h') /\
       h_dirs h' = {[ root ]} ∪ h_dirs h /\
       listeners (h_world h') = listeners (h_world h) /\
       grpcs (h_world h') = grpcs (h_world h) /\
       h_clients h' = h_clients h /\
       h_rexecs h' = h_rexecs h) /\
  (forall root addr err,
     os_TempDir os "" pattern = inl root ->
     os_Listen os = inl addr ->
     os_Dial os "instance" {| dp_Service := addr; dp_NoSecurity := true |}
       = Some err ->
     exists s h',
       NewTestEnv os t h = (FailNow t "Error connecting to server: %v" err, h') /\
       NewServer (inl addr) (h_world h) = (Returned (inl s), h_world h') /\
       h_dirs h' = {[ root ]} ∪ h_dirs h /\
       listeners (h_world h') !! srv_listener s
         = Some {| lis_network := "tcp"; lis_address := addr; lis_closed := false |} /\
       (exists g, grpcs (h_world h') !! srv_srv s = Some g /\
                  g_serving g = Some (srv_listener s) /\ g_stopped g = false) /\
       h_clients h' = h_clients h /\
       h_rexecs h' = h_rexecs h).
Proof.
  intros Hname pattern.
  pose proof (t_Name_run t h name Hname) as Et.
  split; [| split].
  - intros err Etemp. unfold NewTestEnv.
    rewrite (hbind_Returned _ _ _ _ _ Et).
    rewrite (hbind_Returned _ _ _ _ _ (TempDir_refused os _ _ h err Etemp)).
    reflexivity.
  - intros root err Etemp Elisten. unfold NewTestEnv.
    rewrite (hbind_Returned _ _ _ _ _ Et).
    rewrite (hbind_Returned _ _ _ _ _ (TempDir_made os _ _ h root Etemp)).
    rewrite Elisten.
    erewrite hbind_Returned
      by (apply lift_run; simpl_host; apply NewServer_refused).
    eexists. split; [reflexivity |]. simpl_host. simpl_world.
    repeat split; reflexivity.
  - intros root addr err Etemp Elisten Edial. unfold NewTestEnv.
    rewrite (hbind_Returned _ _ _ _ _ Et).
    rewrite (hbind_Returned _ _ _ _ _ (TempDir_made os _ _ h root Etemp)).
    rewrite Elisten.
    pose proof (NewServer_listening addr (h_world h)) as Ens. cbn zeta in Ens.
    erewrite hbind_Returned by (apply lift_run; simpl_host; exact Ens).
    cbn beta iota.
    erewrite hbind_Returned.
    2:{ erewrite NewTestClient_run
          by (simpl_host; simpl_world; cbn [srv_listener]; apply lookup_insert_eq).
        apply Dial_refused. exact Edial. }
    eexists _, _. split; [reflexivity |].
    split; [simpl_host; exact Ens |]. simpl_host. simpl_world.
    cbn [srv_listener srv_srv]. rewrite !lookup_insert_eq.
    split; [reflexivity |]. split; [reflexivity |].
    split; [eexists; split; [reflexivity |]; split; reflexivity |].
    split; reflexivity.
Qed.

(** X14: when every step succeeds, NewTestEnv returns an env on the
    directory that was made and on the server that NewServer made, which is
    usable, with a new rexec client that wraps a new gRPC client dialed,
    without security, as instance "instance" at the address of the
    listener of that server. The cleanup function that comes with it closes
    that client, closes the listener, stops the gRPC server and removes the
    directory; it leaves the CAS, the ActionCache and the Exec as they are,
    and calling it once more changes nothing. *)
Theorem NewTestEnv_sets_up_what_cleanup_takes_down
    (os : Os) (t : loc) (h : Host) (name root addr : string) :
  h_tests h !! t = Some name ->
  os_TempDir os "" (ReplaceAll name (os_Separator os) "_") = inl root ->
  os_Listen os = inl addr ->
  os_Dial os "instance" {| dp_Service := addr; dp_NoSecurity := true |} = None ->
  exists e clean h1 grpcClient,
    NewTestEnv os t h = (Returned (e, clean), h1) /\
    te_ExecRoot e = root /\ te_t e = t /\
    NewServer (inl addr) (h_world h) = (Returned (inl (te_Server e)), h_world h1) /\
    ServerOK (te_Server e) (h_world h1) /\
    h_rexecs h !! te_Client e = None /\
    h_rexecs h1 !! te_Client e
      = Some {| rx_FileDigestCache := NoopFileDigestCache;
                rx_GrpcClient := grpcClient |} /\
    h_clients h !! grpcClient = None /\
    h_clients h1 !! grpcClient
      = Some {| cl_instance := "instance";
                cl_params := {| dp_Service := addr; dp_NoSecurity := true |};
                cl_closed := false |} /\
    h_dirs h1 = {[ root ]} ∪ h_dirs h /\
    exists h2,
      clean h1 = (Returned tt, h2) /\
      h_dirs h2 = h_dirs h ∖ {[ root ]} /\
      h_clients h2 !! grpcClient
        = Some {| cl_instance := "instance";
                  cl_params := {| dp_Service := addr; dp_NoSecurity := true |};
                  cl_closed := true |} /\
      listeners (h_world h2) !! srv_listener (te_Server e)
        = Some {| lis_network := "tcp"; lis_address := addr; lis_closed := true |} /\
      (exists g, grpcs (h_world h2) !! srv_srv (te_Server e) = Some g /\
                 g_serving g = None /\ g_stopped g = true) /\
      same_but_network (te_Server e) (h_world h1) (h_world h2) /\
      h_rexecs h2 = h_rexecs h1 /\
      clean h2 = (Returned tt, h2).
Proof.
  intros Hname Etemp Elisten Edial.
  pose proof (NewServer_listening addr (h_world h)) as Ens. cbn zeta in Ens.
  unfold NewTestEnv.
  rewrite (hbind_Returned _ _ _ _ _ (t_Name_run t h name Hname)).
  rewrite (hbind_Returned _ _ _ _ _ (TempDir_made os _ _ h root Etemp)).
  rewrite Elisten.
  erewrite hbind_Returned by (apply lift_run; simpl_host; exact Ens).
    cbn beta iota.
  erewrite hbind_Returned.
  2:{ erewrite NewTestClient_run
        by (simpl_host; simpl_world; cbn [srv_listener]; apply lookup_insert_eq).
      apply Dial_connected. exact Edial. }
  simpl_host.
  eexists _, _, _, _. split; [reflexivity |].
  cbn [te_ExecRoot te_t te_Server te_Client]. simpl_host.
  rewrite !lookup_insert_eq, !fresh_unallocated.
  split; [reflexivity |]. split; [reflexivity |].
  split; [exact Ens |].
  split.
  { unfold ServerOK. simpl_world.
    cbn [srv_Exec srv_CAS srv_ActionCache srv_listener srv_srv].
    rewrite !lookup_insert_eq. repeat split; eauto. }
  do 5 (split; [reflexivity |]).
  eexists. split.
  { erewrite cleanup_run; [reflexivity | | |]; simpl_host; simpl_world;
      cbn [srv_listener srv_srv]; apply lookup_insert_eq. }
  simpl_host. simpl_world. cbn [srv_listener srv_srv cl_instance cl_params
                                  lis_network lis_address g_services].
  rewrite !lookup_insert_eq.
  split; [apply set_eq; intros d; set_unfold; tauto |].
  split; [reflexivity |]. split; [reflexivity |].
  split; [eexists; split; [reflexivity |]; split; reflexivity |].
  split.
  { repeat split; intros l' Hne; simpl_world; apply lookup_insert_ne;
      cbn [srv_listener srv_srv] in Hne; congruence. }
  split; [reflexivity |].
  erewrite cleanup_run; [| simpl_host; simpl_world; cbn [srv_listener srv_srv];
                           apply lookup_insert_eq ..].
  f_equal. apply Host_ext; simpl_host; try reflexivity.
  - apply World_ext; simpl_world; rewrite ?insert_insert_eq; reflexivity.
  - rewrite insert_insert_eq. reflexivity.
  - apply set_eq; intros d; set_unfold; tauto.
Qed.

(** X15: NewTestClient dials, as instance "instance" and without
    security, the address of the listener of the server, whether the server
    was stopped or not, and touches nothing of the fake. The error of a
    failed dial is returned as it is and nothing has changed; a dial that
    connects returns a client that did not exist, open, and leaves the
    earlier clients as they were, so that two calls give two clients. A
    server without a listener makes it dereference a nil pointer. *)
Theorem NewTestClient_dials_the_address_of_the_listener
    (os : Os) (s : Server) (h : Host) (l : Listener) :
  listeners (h_world h) !! srv_listener s = Some l ->
  (forall err,
     os_Dial os "instance" (dialed l) = Some err ->
     Server_NewTestClient os s h = (Returned (inr err), h)) /\
  (os_Dial os "instance" (dialed l) = None ->
   exists c h',
     Server_NewTestClient os s h = (Returned (inl c), h') /\
     h_world h' = h_world h /\
     h_clients h !! c = None /\
     h_clients h' !! c
       = Some {| cl_instance := "instance"; cl_params := dialed l;
                 cl_closed := false |} /\
     (forall c', c' <> c -> h_clients h' !! c' = h_clients h !! c') /\
     exists c2 h'',
       Server_NewTestClient os s h' = (Returned (inl c2), h'') /\
       c2 <> c /\
       h_clients h'' !! c = h_clients h' !! c) /\
  (forall w',
     Server_Stop s (h_world h) = (Returned tt, w') ->
     Server_NewTestClient os s (with_world w' h)
       = rc_Dial os "instance" (dialed l) (with_world w' h)) /\
  (forall h0 : Host,
     listeners (h_world h0) !! srv_listener s = None ->
     Server_NewTestClient os s h0 = (Panicked, h0)).
Proof.
  intros Hl.
  split; [| split; [| split]].
  - intros err Edial. rewrite (NewTestClient_run os s h l Hl).
    apply Dial_refused. exact Edial.
  - intros Edial.
    eexists _, _. split.
    { rewrite (NewTestClient_run os s h l Hl). apply Dial_connected. exact Edial. }
    simpl_host. rewrite lookup_insert_eq, fresh_unallocated.
    do 3 (split; [reflexivity |]).
    split; [intros c' Hne; apply lookup_insert_ne; congruence |].
    eexists _, _. split.
    { erewrite NewTestClient_run by (simpl_host; exact Hl).
      apply Dial_connected. exact Edial. }
    simpl_host. split.
    + intros E.
      pose proof (fresh_unallocated
                    (<[fresh (dom (h_clients h)) :=
                         {| cl_instance := "instance"; cl_params := dialed l;
                            cl_closed := false |}]> (h_clients h))) as Hf.
      rewrite E in Hf. rewrite lookup_insert_eq in Hf. discriminate.
    + rewrite lookup_insert_ne; [apply lookup_insert_eq |]. intros E.
      pose proof (fresh_unallocated
                    (<[fresh (dom (h_clients h)) :=
                         {| cl_instance := "instance"; cl_params := dialed l;
                            cl_closed := false |}]> (h_clients h))) as Hf.
      rewrite E in Hf. rewrite lookup_insert_eq in Hf. discriminate.
  - intros w' Estop.
    assert (Hl' : listeners w' !! srv_listener s
                  = Some {| lis_network := lis_network l;
                            lis_address := lis_address l; lis_closed := true |}).
    { destruct (grpcs (h_world h) !! srv_srv s) as [g |] eqn:Hg.
      - rewrite (Server_Stop_run s _ l g Hl Hg) in Estop.
        injection Estop as Ew. rewrite <- Ew. simpl_world.
        apply lookup_insert_eq.
      - exfalso. unfold Server_Stop in Estop.
        rewrite (bind_Returned _ _ _ _ _ (deref_Some listeners _ _ _ Hl)) in Estop.
        unfold bind at 1, store at 1 in Estop. cbn iota beta in Estop.
        unfold bind, deref in Estop.
        cbn [grpcs with_listeners] in Estop. rewrite Hg in Estop.
        discriminate. }
    erewrite NewTestClient_run by (simpl_host; exact Hl').
    reflexivity.
  - intros h0 Hnil. unfold Server_NewTestClient, hbind, lift, deref.
    rewrite Hnil. f_equal. apply Host_ext; reflexivity.
Qed.

End Properties.











Section Demo.
#[local] Existing Instance demoX.

(** The concrete server and store are what [NewServer] returns and leaves
    when it is called on the store that holds the command alone; a second
    call returns a server with components of its own. *)
Lemma demo_NewServer :
  NewServer (inl "127.0.0.1:40000"%string) (demoStart demoCmd)
    = (Returned (inl demoServer), demoWorld demoCmd) /\
  fst (NewServer (inl "127.0.0.1:40001"%string) (demoWorld demoCmd))
    = Returned (inl {| srv_Exec := 2%positive; srv_CAS := 2%positive;
                       srv_ActionCache := 2%positive; srv_listener := 2%positive;
                       srv_srv := 2%positive |}).
Proof. split; vm_compute; reflexivity. Qed.

(** The hypotheses that the theorems on Set share, at the concrete input. *)
Lemma demo_ready :
  cmds (demoWorld demoCmd) !! 1%positive = Some demoCmd /\
  execs (demoWorld demoCmd) !! srv_Exec (te_Server demoEnv) = Some demoExec /\
  cass (demoWorld demoCmd) !! srv_CAS (te_Server demoEnv) = Some {| blobs := ∅ |} /\
  acs (demoWorld demoCmd) !! srv_ActionCache (te_Server demoEnv)
    = Some {| results := ∅ |} /\
  BuildTreeFromInputs (cmd_ExecRoot (FillDefaultFieldValues demoCmd))
    (cmd_InputSpec (FillDefaultFieldValues demoCmd)) = inl "/src"%string /\
  PackageTree "/src"%string = inl ({| Hash := "/src"; Size := 4 |}, tt).
Proof. repeat split. Qed.

(** C1 at a concrete call: a CacheHit result with the option StdOut "hi" on
    an Exec that is not cached puts the assembled result in the ActionCache
    under the returned Action digest. *)
Lemma Set_cache_hit_populates_ActionCache_unless_Cached_witness :
  res_Status (demoResult CacheHitResultStatus) = CacheHitResultStatus /\
  exists (ar : ActionResult) (dgs : Digest * Digest) (w' : World),
    TestEnv_Set demoEnv 1%positive demoOpt (demoResult CacheHitResultStatus)
      [StdOut "hi"] (demoWorld demoCmd) = (Returned dgs, w') /\
    results <$> (acs w' !! 1%positive) = Some (<[snd dgs := ar]> ∅) /\
    StdoutDigest ar = Some (ToProto (NewFromBlob (bytes_of "hi"))).
Proof.
  split; [reflexivity |].
  destruct demo_ready as (Hcmd & Hx & Hc & Ha & Hft & Hroot).
  destruct (Set_cache_hit_populates_ActionCache_unless_Cached
              demoEnv 1%positive demoOpt (demoResult CacheHitResultStatus)
              [StdOut "hi"] (demoWorld demoCmd) demoCmd demoExec _ _ _ _ _
              Hcmd Hx Hc Ha Hft Hroot eq_refl)
    as (ar & w1 & x1 & cmdDg & acDg & w' & x' & Eall & Hx1 & Eset & _ & _ & Hfalse & _).
  vm_compute in Eall. injection Eall as <- <-.
  vm_compute in Hx1. injection Hx1 as <-.
  destruct (Hfalse eq_refl) as (_ & Hres & _).
  eexists _, (cmdDg, acDg), w'. split; [exact Eset |].
  split; [exact Hres | reflexivity].
Defined.

(** C2 at a concrete call: a command with a timeout of two seconds. *)
Lemma Set_returns_the_digest_of_the_Action_witness :
  0 < cmd_Timeout (FillDefaultFieldValues demoCmd) /\
  exists (ac : Action) (dgs : Digest * Digest) (w' : World),
    TestEnv_Set demoEnv 1%positive demoOpt (demoResult SuccessResultStatus)
      [StdErrRaw "warning"] (demoWorld demoCmd) = (Returned dgs, w') /\
    snd dgs = TestNewFromMessage ac /\
    CommandDigest ac = Some (ToProto (fst dgs)) /\
    InputRootDigest ac = Some {| pb_Hash := "/src"; pb_SizeBytes := 4 |} /\
    DoNotCache ac = false /\
    Timeout ac = Some {| Seconds := 2; Nanos := 0 |}.
Proof.
  split; [reflexivity |].
  destruct demo_ready as (Hcmd & Hx & Hc & Ha & Hft & Hroot).
  destruct (Set_returns_the_digest_of_the_Action
              demoEnv 1%positive demoOpt (demoResult SuccessResultStatus)
              [StdErrRaw "warning"] (demoWorld demoCmd) demoCmd demoExec _ _ _ _ _
              Hcmd Hx Hc Ha Hft Hroot)
    as (ac & cmdDg & acDg & w' & Eset & Hcd & Had & Hc1 & Hr1 & Hd1 & _ & Ht1).
  exists ac, (cmdDg, acDg), w'. cbn [fst snd].
  split; [exact Eset |]. split; [exact Had |]. split; [exact Hc1 |].
  split; [exact Hr1 |]. split; [exact Hd1 |].
  exact (Ht1 eq_refl).
Defined.

(** C3 at a concrete call: a Timeout result. *)
Lemma Set_configures_timeout_and_remote_error_statuses_only_witness :
  exists (dgs : Digest * Digest) (w' : World) (x' : Exec),
    TestEnv_Set demoEnv 1%positive demoOpt (demoResult TimeoutResultStatus)
      [] (demoWorld demoCmd) = (Returned dgs, w') /\
    execs w' !! 1%positive = Some x' /\
    st_code <$> ex_Status x' = Some DeadlineExceeded /\
    st_message <$> ex_Status x' = Some "timeout"%string.
Proof.
  destruct demo_ready as (Hcmd & Hx & Hc & Ha & Hft & Hroot).
  destruct (Set_configures_timeout_and_remote_error_statuses_only
              demoEnv 1%positive demoOpt (demoResult TimeoutResultStatus)
              [] (demoWorld demoCmd) demoCmd demoExec _ _ _ _ _
              Hcmd Hx Hc Ha Hft Hroot)
    as (dgs & w' & x' & Eset & Hx' & Htimeout & _).
  exists dgs, w', x'. split; [exact Eset |]. split; [exact Hx' |].
  exact (proj2 (Htimeout eq_refl)).
Defined.

(** C4 at a concrete input: StdOut "hi" goes through the CAS and the output
    blobs, StdOutRaw "hi" does not touch the store. *)
Lemma Apply_stores_outputs_and_keeps_raw_inline_witness :
  (execs (demoWorld demoCmd) !! srv_Exec demoServer = Some demoExec /\
   cass (demoWorld demoCmd) !! srv_CAS demoServer = Some {| blobs := ∅ |}) /\
  (exists ar' w' x' c',
     Apply (StdOut "hi") (newActionResult (demoResult SuccessResultStatus))
       demoServer (demoWorld demoCmd) = (Returned ar', w') /\
     StdoutDigest ar' = Some {| pb_Hash := "hi"; pb_SizeBytes := 2 |} /\
     StdoutRaw ar' = [] /\
     execs w' !! srv_Exec demoServer = Some x' /\
     ex_OutputBlobs x' = [bytes_of "hi"] /\
     cass w' !! srv_CAS demoServer = Some c' /\
     blobs c' !! NewFromBlob (bytes_of "hi") = Some (bytes_of "hi")) /\
  (exists ar',
     Apply (StdOutRaw "hi") (newActionResult (demoResult SuccessResultStatus))
       demoServer (demoWorld demoCmd) = (Returned ar', demoWorld demoCmd) /\
     StdoutRaw ar' = bytes_of "hi" /\
     StdoutDigest ar' = None).
Proof.
  destruct demo_ready as (_ & Hx & Hc & _).
  split; [split; [exact Hx | exact Hc] |].
  destruct (Apply_stores_outputs_and_keeps_raw_inline demoServer
              (newActionResult (demoResult SuccessResultStatus))
              (demoWorld demoCmd) demoExec {| blobs := ∅ |} Hx Hc)
    as (_ & Hout & _ & Hraw & _).
  split.
  - destruct (Hout "hi"%string)
      as (ar' & w' & E & ((c' & Hc' & Hb & _) & (x' & Hx' & Hbl & _) & _)
          & Hd & _ & _ & Hr & _).
    exists ar', w', x', c'. split; [exact E |]. split; [exact Hd |].
    split; [rewrite Hr; reflexivity |]. split; [exact Hx' |].
    split; [rewrite Hbl; reflexivity |]. split; [exact Hc' | exact Hb].
  - destruct (Hraw "hi"%string) as (ar' & E & Hr & _ & _ & Hd & _).
    exists ar'. split; [exact E |]. split; [exact Hr |].
    rewrite Hd. reflexivity.
Defined.

(** C5 at a concrete input: a server that holds one output blob. *)
Lemma Server_Clear_clears_the_three_components_only_witness :
  exists w',
    Server_Clear demoServer
      (stored demoServer demoExec {| blobs := ∅ |} (bytes_of "hi")
         (demoWorld demoCmd)) = (Returned tt, w') /\
    cass w' !! 1%positive = Some {| blobs := ∅ |} /\
    execs w' !! 1%positive = Some demoExec /\
    cmds w' = cmds (demoWorld demoCmd).
Proof.
  destruct (Server_Clear_clears_the_three_components_only demoServer
              (stored demoServer demoExec {| blobs := ∅ |} (bytes_of "hi")
                 (demoWorld demoCmd))
              {| blobs := <[NewFromBlob (bytes_of "hi") := bytes_of "hi"]> ∅ |}
              {| results := ∅ |}
              (with_OutputBlobs [bytes_of "hi"] demoExec)
              eq_refl eq_refl eq_refl)
    as (w' & Eclear & Hcas & _ & Hex & _ & _ & Hcmds).
  exists w'. split; [exact Eclear |].
  rewrite Hcas, Hex, Hcmds. repeat split.
Defined.

(** C7 at a concrete call: the execution root of the command is missing. *)
Lemma Set_fails_the_test_when_the_input_tree_does_not_build_witness :
  BuildTreeFromInputs (cmd_ExecRoot (FillDefaultFieldValues demoMissing))
    (cmd_InputSpec (FillDefaultFieldValues demoMissing))
  = inr (PlainError "lstat /missing: no such file or directory") /\
  exists w',
    TestEnv_Set demoEnv 1%positive demoOpt (demoResult SuccessResultStatus)
      [StdOut "hi"] (demoWorld demoMissing)
    = (FailNow 1%positive "error building input tree in fake setup: %v"
         (PlainError "lstat /missing: no such file or directory"), w') /\
    cass w' = cass (demoWorld demoMissing) /\
    execs w' = execs (demoWorld demoMissing).
Proof.
  split; [reflexivity |].
  destruct (Set_fails_the_test_when_the_input_tree_does_not_build
              demoEnv 1%positive demoOpt (demoResult SuccessResultStatus)
              [StdOut "hi"] (demoWorld demoMissing) demoMissing
              (PlainError "lstat /missing: no such file or directory")
              eq_refl (or_introl eq_refl))
    as (w' & Eset & _ & Hcas & _ & Hex & _).
  exists w'. split; [exact Eset |]. split; [exact Hcas | exact Hex].
Defined.

(** C7 as stated fails: Set at a command whose input tree does not build
    ends in the fatal failure, not in the return of the pair of empty
    digests. *)
Lemma Set_does_not_return_the_Empty_pair :
  fst (TestEnv_Set demoEnv 1%positive demoOpt (demoResult SuccessResultStatus)
         [] (demoWorld demoMissing))
  = FailNow 1%positive "error building input tree in fake setup: %v"
      (PlainError "lstat /missing: no such file or directory") /\
  fst (TestEnv_Set demoEnv 1%positive demoOpt (demoResult SuccessResultStatus)
         [] (demoWorld demoMissing))
  <> Returned (Empty, Empty).
Proof.
  assert (E : fst (TestEnv_Set demoEnv 1%positive demoOpt
                     (demoResult SuccessResultStatus) [] (demoWorld demoMissing))
              = FailNow 1%positive "error building input tree in fake setup: %v"
                  (PlainError "lstat /missing: no such file or directory")).
  { vm_compute. reflexivity. }
  split; [exact E |]. rewrite E. discriminate.
Qed.

(** C8 at a concrete call: two StdOut options between two ExecutionCacheHit
    options, of which ExecutionCacheHit(true) is the last. *)
Lemma Set_applies_the_options_in_order_before_the_switch_witness :
  lastCacheHit [ExecutionCacheHit false; StdOut "hi"; StdOut "ho";
                ExecutionCacheHit true] = Some true /\
  exists (dgs : Digest * Digest) (w' : World) (x' : Exec) (ar : ActionResult),
    TestEnv_Set demoEnv 1%positive demoOpt (demoResult CacheHitResultStatus)
      [ExecutionCacheHit false; StdOut "hi"; StdOut "ho"; ExecutionCacheHit true]
      (demoWorld demoCmd) = (Returned dgs, w') /\
    execs w' !! srv_Exec demoServer = Some x' /\
    ex_ActionResult x' = Some ar /\
    StdoutDigest ar = Some {| pb_Hash := "ho"; pb_SizeBytes := 2 |} /\
    ex_OutputBlobs x' = [bytes_of "hi"; bytes_of "ho"] /\
    ex_Cached x' = true /\
    acs w' = acs (demoWorld demoCmd).
Proof.
  split; [reflexivity |].
  destruct demo_ready as (Hcmd & Hx & Hc & Ha & Hft & Hroot).
  destruct (Set_applies_the_options_in_order_before_the_switch
              demoEnv 1%positive demoOpt (demoResult CacheHitResultStatus)
              [ExecutionCacheHit false; StdOut "hi"; StdOut "ho";
               ExecutionCacheHit true]
              (demoWorld demoCmd) demoCmd demoExec _ _ _ _ _
              Hcmd Hx Hc Ha Hft Hroot)
    as (ar & w1 & x1 & dgs & w' & _ & _ & _ & _ & Hb & (_ & _ & Hd & _) & _ & _
        & Eset & (x' & Hx' & Har & Hb' & Hca') & Hlast).
  destruct (Hlast eq_refl eq_refl) as (Htrue & Hacs).
  exists dgs, w', x', ar. split; [exact Eset |]. split; [exact Hx' |].
  split; [exact Har |].
  split; [rewrite Hd; reflexivity |].
  split; [rewrite Hb', Hb; reflexivity |].
  split; [rewrite Hca'; exact Htrue | exact Hacs].
Defined.

(** C8 as stated fails: on a Set call whose options include
    ExecutionCacheHit(true), followed by ExecutionCacheHit(false), the
    CacheHit branch reads Cached = false and writes the ActionCache. *)
Lemma Set_writes_the_ActionCache_after_a_later_ExecutionCacheHit_false :
  In (ExecutionCacheHit true) [ExecutionCacheHit true; ExecutionCacheHit false] /\
  res_Status (demoResult CacheHitResultStatus) = CacheHitResultStatus /\
  (ex_Cached <$>
     execs (snd (TestEnv_Set demoEnv 1%positive demoOpt
                   (demoResult CacheHitResultStatus)
                   [ExecutionCacheHit true; ExecutionCacheHit false]
                   (demoWorld demoCmd))) !! 1%positive) = Some false /\
  (acs (snd (TestEnv_Set demoEnv 1%positive demoOpt
               (demoResult CacheHitResultStatus)
               [ExecutionCacheHit true; ExecutionCacheHit false]
               (demoWorld demoCmd))) !! 1%positive
     ≫= fun a => results a !! {| Hash := "/src:remote-client@/src"; Size := 2 |})
  = Some (newActionResult (demoResult CacheHitResultStatus)) /\
  (acs (demoWorld demoCmd) !! 1%positive
     ≫= fun a => results a !! {| Hash := "/src:remote-client@/src"; Size := 2 |})
  = None.
Proof.
  split; [left; reflexivity |]. split; [reflexivity |].
  split; [vm_compute; reflexivity |].
  split; [vm_compute; reflexivity |].
  vm_compute; reflexivity.
Qed.

(** C9 at two concrete calls that differ in the result and the options. *)
Lemma Set_digests_do_not_depend_on_the_result_or_the_options_witness :
  fst (TestEnv_Set demoEnv 1%positive demoOpt (demoResult SuccessResultStatus)
         [] (demoWorld demoCmd))
  = fst (TestEnv_Set demoEnv 1%positive demoOpt
           demoRemoteError
           [StdOut "hi"; ExecutionCacheHit true] (demoWorld demoCmd)) /\
  fst (TestEnv_Set demoEnv 1%positive demoOpt (demoResult SuccessResultStatus)
         [] (demoWorld demoCmd))
  = Returned ({| Hash := "/src:remote-client"; Size := 2000000000 |},
              {| Hash := "/src:remote-client@/src"; Size := 2 |}).
Proof.
  destruct demo_ready as (Hcmd & Hx & Hc & Ha & Hft & Hroot).
  destruct (Set_digests_do_not_depend_on_the_result_or_the_options
              demoEnv 1%positive demoOpt (demoWorld demoCmd) demoCmd demoExec _ _
              (demoResult SuccessResultStatus)
              demoRemoteError
              [] [StdOut "hi"; ExecutionCacheHit true]
              Hcmd Hx Hc Ha)
    as (Hsame & Hdg).
  split; [exact Hsame |].
  exact (Hdg _ _ _ Hft Hroot).
Defined.

(** C10 at a concrete call: the tool name of the command is defaulted. *)
Lemma Set_fills_the_defaults_of_the_callers_command_witness :
  cmds (demoWorld demoCmd) !! 1%positive = Some demoCmd /\
  cmds (snd (TestEnv_Set demoEnv 1%positive demoOpt
               (demoResult SuccessResultStatus) [] (demoWorld demoCmd)))
    !! 1%positive
  = Some {| dc_ExecRoot := "/src"; dc_Timeout := 2000000000;
            dc_ToolName := "remote-client" |} /\
  exists acDg,
    fst (TestEnv_Set demoEnv 1%positive demoOpt
           (demoResult SuccessResultStatus) [] (demoWorld demoCmd))
    = Returned ({| Hash := "/src:remote-client"; Size := 2000000000 |}, acDg).
Proof.
  destruct demo_ready as (Hcmd & Hx & Hc & Ha & Hft & Hroot).
  split; [exact Hcmd |].
  destruct (Set_fills_the_defaults_of_the_callers_command
              demoEnv 1%positive demoOpt (demoResult SuccessResultStatus) []
              (demoWorld demoCmd) demoCmd Hcmd)
    as (_ & Hafter & _ & _ & Hdg).
  split; [exact Hafter |].
  exact (Hdg demoExec _ _ _ _ _ Hx Hc Ha Hft Hroot).
Defined.

(** ** The further properties at concrete inputs *)

(** The hypotheses on the server alone, at the concrete input. *)
Lemma demo_server_ready :
  execs (demoWorld demoCmd) !! srv_Exec demoServer = Some demoExec /\
  cass (demoWorld demoCmd) !! srv_CAS demoServer = Some {| blobs := ∅ |} /\
  listeners (demoWorld demoCmd) !! srv_listener demoServer = Some demoListener /\
  grpcs (demoWorld demoCmd) !! srv_srv demoServer = Some demoGrpc.
Proof. repeat split. Qed.

(** X1 at a concrete list of options: the later StdOut wins, and the raw
    stdout between the two is kept. *)
Lemma applyAll_composes_the_ActionResult_witness :
  (execs (demoWorld demoCmd) !! srv_Exec demoServer = Some demoExec /\
   cass (demoWorld demoCmd) !! srv_CAS demoServer = Some {| blobs := ∅ |}) /\
  exists ar' w',
    applyAll [StdOut "a"; StdOutRaw "b"; StdOut "c"]
      (newActionResult demoTimeout) demoServer (demoWorld demoCmd)
      = (Returned ar', w') /\
    ExitCode ar' = 7 /\
    StdoutDigest ar' = Some {| pb_Hash := "c"; pb_SizeBytes := 1 |} /\
    StdoutRaw ar' = bytes_of "b".
Proof.
  destruct demo_server_ready as (Hx & Hc & _).
  split; [split; [exact Hx | exact Hc] |].
  destruct (applyAll_composes_the_ActionResult demoServer
              [StdOut "a"; StdOutRaw "b"; StdOut "c"]
              (newActionResult demoTimeout) (demoWorld demoCmd)
              demoExec {| blobs := ∅ |} Hx Hc)
    as (ar' & w' & E & He & _ & Hd & Hr & _).
  exists ar', w'. split; [exact E |].
  split; [rewrite He; reflexivity |].
  split; [rewrite Hd; reflexivity | rewrite Hr; reflexivity].
Defined.

(** X2 at a concrete list of options: two blobs, in option order. *)
Lemma applyAll_appends_the_output_blobs_in_order_witness :
  (execs (demoWorld demoCmd) !! srv_Exec demoServer = Some demoExec /\
   cass (demoWorld demoCmd) !! srv_CAS demoServer = Some {| blobs := ∅ |}) /\
  exists ar' w' x',
    applyAll [StdErr "e"; StdOutRaw "b"; ExecutionCacheHit true; StdOut "o"]
      (newActionResult demoTimeout) demoServer (demoWorld demoCmd)
      = (Returned ar', w') /\
    execs w' !! srv_Exec demoServer = Some x' /\
    ex_OutputBlobs x' = [bytes_of "e"; bytes_of "o"].
Proof.
  destruct demo_server_ready as (Hx & Hc & _).
  split; [split; [exact Hx | exact Hc] |].
  destruct (applyAll_appends_the_output_blobs_in_order demoServer
              [StdErr "e"; StdOutRaw "b"; ExecutionCacheHit true; StdOut "o"]
              (newActionResult demoTimeout) (demoWorld demoCmd)
              demoExec {| blobs := ∅ |} Hx Hc)
    as (ar' & w' & x' & E & Hx' & Hb & _).
  exists ar', w', x'. split; [exact E |]. split; [exact Hx' |].
  rewrite Hb. reflexivity.
Defined.

(** X3 at a concrete list of options: the bytes of the output file are
    found under their digest. *)
Lemma applyAll_makes_every_output_retrievable_witness :
  (execs (demoWorld demoCmd) !! srv_Exec demoServer = Some demoExec /\
   cass (demoWorld demoCmd) !! srv_CAS demoServer = Some {| blobs := ∅ |}) /\
  exists ar' w' c',
    applyAll [AnOutputFile {| Path := "out"; Contents := "data" |}; StdOut "o"]
      (newActionResult demoTimeout) demoServer (demoWorld demoCmd)
      = (Returned ar', w') /\
    cass w' !! srv_CAS demoServer = Some c' /\
    blobs c' !! NewFromBlob (bytes_of "data") = Some (bytes_of "data").
Proof.
  destruct demo_server_ready as (Hx & Hc & _).
  split; [split; [exact Hx | exact Hc] |].
  destruct (applyAll_makes_every_output_retrievable demoServer
              [AnOutputFile {| Path := "out"; Contents := "data" |}; StdOut "o"]
              (newActionResult demoTimeout) (demoWorld demoCmd)
              demoExec {| blobs := ∅ |} Hx Hc)
    as (ar' & w' & c' & E & Hc' & Hlook & _).
  exists ar', w', c'. split; [exact E |]. split; [exact Hc' |].
  rewrite Hlook. reflexivity.
Defined.

(** X5 at a concrete call: a Timeout result with two output files. *)
Lemma Set_stores_the_assembled_ActionResult_witness :
  (cmds (demoWorld demoCmd) !! 1%positive = Some demoCmd /\
   execs (demoWorld demoCmd) !! srv_Exec (te_Server demoEnv) = Some demoExec /\
   cass (demoWorld demoCmd) !! srv_CAS (te_Server demoEnv) = Some {| blobs := ∅ |} /\
   acs (demoWorld demoCmd) !! srv_ActionCache (te_Server demoEnv)
     = Some {| results := ∅ |}) /\
  exists dgs w' x' ar,
    TestEnv_Set demoEnv 1%positive demoOpt demoTimeout
      [AnOutputFile {| Path := "a"; Contents := "x" |};
       AnOutputFile {| Path := "b"; Contents := "y" |}] (demoWorld demoCmd)
      = (Returned dgs, w') /\
    execs w' !! srv_Exec demoServer = Some x' /\
    ex_ActionResult x' = Some ar /\
    ExitCode ar = 7 /\
    of_Path <$> OutputFiles ar = ["a"; "b"]%string.
Proof.
  destruct demo_ready as (Hcmd & Hx & Hc & Ha & Hft & Hroot).
  split; [repeat split |].
  destruct (Set_stores_the_assembled_ActionResult demoEnv 1%positive demoOpt
              demoTimeout
              [AnOutputFile {| Path := "a"; Contents := "x" |};
               AnOutputFile {| Path := "b"; Contents := "y" |}]
              (demoWorld demoCmd) demoCmd demoExec _ _ _ _ _
              Hcmd Hx Hc Ha Hft Hroot)
    as (dgs & w' & x' & ar & E & Hx' & Har & He & Hf & _).
  exists dgs, w', x', ar. split; [exact E |]. split; [exact Hx' |].
  split; [exact Har |].
  split; [rewrite He; reflexivity | rewrite Hf; reflexivity].
Defined.

(** X6 at a concrete call: a Success result with one StdOut option keeps
    the status and the Cached flag of the Exec. *)
Lemma Set_keeps_what_the_Exec_held_witness :
  (cmds (demoWorld demoCmd) !! 1%positive = Some demoCmd /\
   execs (demoWorld demoCmd) !! srv_Exec (te_Server demoEnv) = Some demoExec /\
   cass (demoWorld demoCmd) !! srv_CAS (te_Server demoEnv) = Some {| blobs := ∅ |} /\
   acs (demoWorld demoCmd) !! srv_ActionCache (te_Server demoEnv)
     = Some {| results := ∅ |}) /\
  exists dgs w' x',
    TestEnv_Set demoEnv 1%positive demoOpt (demoResult SuccessResultStatus)
      [StdOut "o"] (demoWorld demoCmd) = (Returned dgs, w') /\
    execs w' !! srv_Exec demoServer = Some x' /\
    ex_OutputBlobs x' = [bytes_of "o"] /\
    ex_Cached x' = false /\
    ex_Status x' = None.
Proof.
  destruct demo_ready as (Hcmd & Hx & Hc & Ha & Hft & Hroot).
  split; [repeat split |].
  destruct (Set_keeps_what_the_Exec_held demoEnv 1%positive demoOpt
              (demoResult SuccessResultStatus) [StdOut "o"]
              (demoWorld demoCmd) demoCmd demoExec _ _ _ _ _
              Hcmd Hx Hc Ha Hft Hroot)
    as (dgs & w' & x' & E & Hx' & Hb & Hca & _ & _ & Hst).
  exists dgs, w', x'. split; [exact E |]. split; [exact Hx' |].
  split; [rewrite Hb; reflexivity |].
  split; [rewrite Hca; reflexivity |].
  rewrite Hst; [reflexivity | discriminate | discriminate].
Defined.

(** X7 at two concrete calls: a Timeout result with one output, then a
    Success result with another, on a second command. *)
Lemma Set_twice_accumulates_witness :
  (cmds demoTwo !! 1%positive = Some demoCmd /\
   cmds demoTwo !! 2%positive = Some demoOther /\
   execs demoTwo !! srv_Exec (te_Server demoEnv) = Some demoExec) /\
  exists dgs2 w2 x2,
    bind (TestEnv_Set demoEnv 1%positive demoOpt demoTimeout [StdOut "one"])
      (fun _ => TestEnv_Set demoEnv 2%positive demoOpt
                  (demoResult SuccessResultStatus) [StdErr "two"]) demoTwo
      = (Returned dgs2, w2) /\
    execs w2 !! srv_Exec demoServer = Some x2 /\
    ex_OutputBlobs x2 = [bytes_of "one"; bytes_of "two"] /\
    ex_Status x2 = Some (status_New DeadlineExceeded "timeout").
Proof.
  split; [repeat split |].
  destruct (Set_twice_accumulates demoEnv 1%positive 2%positive demoOpt demoOpt
              demoTimeout (demoResult SuccessResultStatus)
              [StdOut "one"] [StdErr "two"] demoTwo demoCmd demoOther
              demoExec {| blobs := ∅ |} {| results := ∅ |}
              "/src"%string {| Hash := "/src"; Size := 4 |} tt
              "/other"%string {| Hash := "/other"; Size := 6 |} tt
              eq_refl eq_refl ltac:(discriminate) eq_refl eq_refl eq_refl
              eq_refl eq_refl eq_refl eq_refl)
    as (dgs2 & w2 & x2 & ar2 & E & Hx2 & _ & _ & _ & Hb & _ & Hst).
  exists dgs2, w2, x2. split; [exact E |]. split; [exact Hx2 |].
  split; [rewrite Hb; reflexivity |].
  apply Hst; [reflexivity | discriminate | discriminate].
Defined.

(** X9 at the concrete server. *)
Lemma Stop_closes_the_network_side_only_witness :
  (listeners (demoWorld demoCmd) !! srv_listener demoServer = Some demoListener /\
   grpcs (demoWorld demoCmd) !! srv_srv demoServer = Some demoGrpc) /\
  exists w',
    Server_Stop demoServer (demoWorld demoCmd) = (Returned tt, w') /\
    lis_closed <$> listeners w' !! srv_listener demoServer = Some true /\
    g_stopped <$> grpcs w' !! srv_srv demoServer = Some true /\
    execs w' = execs (demoWorld demoCmd).
Proof.
  destruct demo_server_ready as (_ & _ & Hl & Hg).
  split; [split; [exact Hl | exact Hg] |].
  destruct (Stop_closes_the_network_side_only demoServer (demoWorld demoCmd)
              demoListener demoGrpc Hl Hg)
    as (w' & E & Hl' & Hg' & (Hex & _) & _).
  exists w'. split; [exact E |].
  rewrite Hl', Hg'. repeat split. exact Hex.
Defined.

(** X10 at a concrete call: the Exec is cleared after a Timeout result with
    an output. *)
Lemma Clear_forgets_what_Set_configured_witness :
  (cmds (demoWorld demoCmd) !! 1%positive = Some demoCmd /\
   execs (demoWorld demoCmd) !! srv_Exec (te_Server demoEnv) = Some demoExec /\
   cass (demoWorld demoCmd) !! srv_CAS (te_Server demoEnv) = Some {| blobs := ∅ |} /\
   acs (demoWorld demoCmd) !! srv_ActionCache (te_Server demoEnv)
     = Some {| results := ∅ |}) /\
  exists dgs w1 w2,
    TestEnv_Set demoEnv 1%positive demoOpt demoTimeout [StdOut "o"]
      (demoWorld demoCmd) = (Returned dgs, w1) /\
    Server_Clear demoServer w1 = (Returned tt, w2) /\
    execs w2 !! 1%positive = Some demoExec /\
    cass w2 !! 1%positive = Some {| blobs := ∅ |}.
Proof.
  destruct demo_ready as (Hcmd & Hx & Hc & Ha & Hft & Hroot).
  split; [repeat split |].
  destruct (Clear_forgets_what_Set_configured demoEnv 1%positive demoOpt
              demoTimeout [StdOut "o"]
              (demoWorld demoCmd) demoCmd demoExec _ _ _ _ _
              Hcmd Hx Hc Ha Hft Hroot)
    as (dgs & w1 & w2 & wc & E & Ec & _ & _ & _ & _ & Hx2 & Hc2 & _).
  exists dgs, w1, w2. split; [exact E |]. split; [exact Ec |].
  split; [exact Hx2 | exact Hc2].
Defined.

(** X12 at the test "TestSet/sub": the directory is asked for under
    "TestSet_sub", and the machine that makes no other directory does as
    well. *)
Lemma NewTestEnv_names_its_directory_without_separator_witness :
  (h_tests demoHost !! 1%positive = Some "TestSet/sub"%string /\
   os_Separator demoOs <> underscore /\
   same_but_TempDir demoOs demoOsStrict) /\
  ReplaceAll "TestSet/sub" (os_Separator demoOs) "_" = "TestSet_sub"%string /\
  no_separator slash "TestSet_sub" /\
  NewTestEnv demoOsStrict 1%positive demoHost = NewTestEnv demoOs 1%positive demoHost.
Proof.
  assert (Hsep : os_Separator demoOs <> underscore) by discriminate.
  assert (Hsame : same_but_TempDir demoOs demoOsStrict).
  { split; [reflexivity |]. split; [reflexivity |]. intros i p. reflexivity. }
  split; [split; [reflexivity | split; [exact Hsep | exact Hsame]] |].
  split; [reflexivity |].
  destruct (NewTestEnv_names_its_directory_without_separator demoOs demoOsStrict
              1%positive demoHost "TestSet/sub" eq_refl Hsep Hsame)
    as (Hno & _ & _ & Heq).
  split; [exact Hno | exact (Heq eq_refl)].
Defined.

(** X13 on the machine that refuses the dial: the test is failed, and the
    directory is left behind. *)
Lemma NewTestEnv_fails_the_test_and_leaves_what_it_made_witness :
  h_tests demoHost !! 1%positive = Some "TestSet/sub"%string /\
  exists h',
    NewTestEnv demoOsNoDial 1%positive demoHost
      = (FailNow 1%positive "Error connecting to server: %v" (demoRefused "dial"),
         h') /\
    h_dirs h' = {[ "/tmp/TestSet_sub"%string ]} ∪ h_dirs demoHost /\
    lis_closed <$> listeners (h_world h') !! srv_listener demoServer = Some false.
Proof.
  split; [reflexivity |].
  destruct (NewTestEnv_fails_the_test_and_leaves_what_it_made demoOsNoDial
              1%positive demoHost "TestSet/sub" eq_refl)
    as (_ & _ & Hdial).
  destruct (Hdial "/tmp/TestSet_sub"%string "127.0.0.1:40000"%string
              (demoRefused "dial") eq_refl eq_refl eq_refl)
    as (s & h' & E & Ens & Hd & Hl & _).
  destruct demo_NewServer as (Edemo & _).
  change (h_world demoHost) with (demoStart demoCmd) in Ens.
  rewrite Edemo in Ens. injection Ens as Es Ew.
  exists h'. split; [exact E |]. split; [exact Hd |].
  rewrite <- Es in Hl.
  rewrite Hl. reflexivity.
Defined.

(** X14 on the machine on which every step succeeds. *)
Lemma NewTestEnv_sets_up_what_cleanup_takes_down_witness :
  (h_tests demoHost !! 1%positive = Some "TestSet/sub"%string /\
   os_TempDir demoOs "" (ReplaceAll "TestSet/sub" (os_Separator demoOs) "_")
     = inl "/tmp/TestSet_sub"%string /\
   os_Listen demoOs = inl "127.0.0.1:40000"%string /\
   os_Dial demoOs "instance"
     {| dp_Service := "127.0.0.1:40000"; dp_NoSecurity := true |} = None) /\
  exists e clean h1 h2,
    NewTestEnv demoOs 1%positive demoHost = (Returned (e, clean), h1) /\
    te_Server e = demoServer /\
    te_ExecRoot e = "/tmp/TestSet_sub"%string /\
    h_dirs h1 = {[ "/tmp/TestSet_sub"%string ]} ∪ h_dirs demoHost /\
    clean h1 = (Returned tt, h2) /\
    h_dirs h2 = h_dirs demoHost ∖ {[ "/tmp/TestSet_sub"%string ]} /\
    clean h2 = (Returned tt, h2).
Proof.
  split; [repeat split |].
  destruct (NewTestEnv_sets_up_what_cleanup_takes_down demoOs 1%positive demoHost
              "TestSet/sub" "/tmp/TestSet_sub" "127.0.0.1:40000"
              eq_refl eq_refl eq_refl eq_refl)
    as (e & clean & h1 & gc & E & Hroot & _ & Ens & _ & _ & _ & _ & _ & Hd1
        & h2 & Ec & Hd2 & _ & _ & _ & _ & _ & Ec2).
  destruct demo_NewServer as (Edemo & _).
  change (h_world demoHost) with (demoStart demoCmd) in Ens.
  rewrite Edemo in Ens. injection Ens as Es Ew.
  exists e, clean, h1, h2. split; [exact E |].
  split; [symmetry; exact Es |]. split; [exact Hroot |].
  split; [exact Hd1 |]. split; [exact Ec |]. split; [exact Hd2 | exact Ec2].
Defined.

(** X15 on the concrete server, running: a first client is connected. *)
Lemma NewTestClient_dials_the_address_of_the_listener_witness :
  listeners (h_world demoServing) !! srv_listener demoServer = Some demoListener /\
  exists c h',
    Server_NewTestClient demoOs demoServer demoServing = (Returned (inl c), h') /\
    h_clients h' !! c
      = Some {| cl_instance := "instance";
                cl_params := {| dp_Service := "127.0.0.1:40000";
                                dp_NoSecurity := true |};
                cl_closed := false |}.
Proof.
  split; [reflexivity |].
  destruct (NewTestClient_dials_the_address_of_the_listener demoOs demoServer
              demoServing demoListener eq_refl)
    as (_ & Hdial & _).
  destruct (Hdial eq_refl) as (c & h' & E & _ & _ & Hc & _).
  exists c, h'. split; [exact E | exact Hc].
Defined.

End Demo.
